(** * Smart Bill Verifier: the bill parser and the validation service

    A shallow embedding of [BillParser] (the parsing service) and of
    [ValidationService] (backend/services/ocrService.js), followed by the
    properties of the two that the specification states, and by further
    properties of theirs, of [cleanExtractedText], of [validateBillId] and
    of [validateBill] of server.js.

    JavaScript values are modelled as the engine has them: a Number is an
    IEEE 754 binary64 value (Rocq's primitive [float]), a String is a
    sequence of UTF-16 code units, an exception is a value that a [try]
    block may catch.  The [validation] object that the checks mutate, and
    the bill they read, live in an explicit store. *)

From Stdlib Require Import ZArith QArith Qabs Qround List String Ascii Bool Lia Floats.
Import ListNotations.
Set Warnings "-inexact-float".

Local Open Scope Z_scope.

(* ================================================================== *)
(** * Strings: sequences of UTF-16 code units *)
(* ================================================================== *)

Local Open Scope N_scope.

Definition char := N.
Bind Scope N_scope with char.
Definition jsstring := list char.

(** Code units of a literal written in this file (the file is UTF-8). *)
Fixpoint utf16 (bs : list N) (fuel : nat) : jsstring :=
  match fuel with
  | O => []
  | S fuel' =>
    match bs with
    | [] => []
    | b :: r =>
      if (b <? 128)%N then b :: utf16 r fuel'
      else if (b <? 224)%N then
        match r with
        | b1 :: r' => ((b - 192) * 64 + (b1 - 128))%N :: utf16 r' fuel'
        | _ => []
        end
      else if (b <? 240)%N then
        match r with
        | b1 :: b2 :: r' =>
          ((b - 224) * 4096 + (b1 - 128) * 64 + (b2 - 128))%N :: utf16 r' fuel'
        | _ => []
        end
      else
        match r with
        | b1 :: b2 :: b3 :: r' =>
          let cp := ((b - 240) * 262144 + (b1 - 128) * 4096
                     + (b2 - 128) * 64 + (b3 - 128))%N in
          let v := (cp - 65536)%N in
          (55296 + v / 1024)%N :: (56320 + v mod 1024)%N :: utf16 r' fuel'
        | _ => []
        end
    end
  end.

Definition str (s : string) : jsstring :=
  let bs := map (fun a => N_of_ascii a) (list_ascii_of_string s) in
  utf16 bs (List.length bs).

Definition chr (s : string) : char := hd 0 (str s).

Definition char_eqb (a b : char) : bool := N.eqb a b.

Fixpoint jsstring_eqb (a b : jsstring) : bool :=
  match a, b with
  | [], [] => true
  | x :: a', y :: b' => char_eqb x y && jsstring_eqb a' b'
  | _, _ => false
  end.

Definition between (lo hi c : N) : bool := ((lo <=? c) && (c <=? hi))%N.

Definition isUpper (c : char) : bool := between 65 90 c.
Definition isLower (c : char) : bool := between 97 122 c.
Definition isDigit (c : char) : bool := between 48 57 c.
Definition isLetter (c : char) : bool := isUpper c || isLower c.
(** [\w] *)
Definition isWordChar (c : char) : bool :=
  isLetter c || isDigit c || char_eqb c 95.

(** WhiteSpace and LineTerminator of ECMAScript: what [trim] strips and
    what [\s] matches. *)
Definition isWhiteSpace (c : char) : bool :=
  between 9 13 c || char_eqb c 32 || char_eqb c 160 || char_eqb c 5760
  || between 8192 8202 c || char_eqb c 8232 || char_eqb c 8233
  || char_eqb c 8239 || char_eqb c 8287 || char_eqb c 12288
  || char_eqb c 65279.

(** [.] of a regular expression without the [s] flag. *)
Definition isLineTerminator (c : char) : bool :=
  char_eqb c 10 || char_eqb c 13 || char_eqb c 8232 || char_eqb c 8233.

(** ** [String.prototype.toLowerCase]

    The string is read as code points (a high surrogate followed by a low
    one is one code point), every code point is replaced by its lower-case
    mapping of the Unicode default case conversion, and the result is
    written back as code units.  The mapping is the simple lower-case
    mapping of the character, with the two exceptions of the default
    algorithm: U+0130 becomes U+0069 U+0307, and U+03A3 becomes the final
    sigma U+03C2 when a cased letter precedes it and none follows it, case
    ignorable characters being skipped on both sides.  The tables are those
    of Unicode 14.0. *)

Definition isHighSurrogate (c : char) : bool := between 55296 56319 c.
Definition isLowSurrogate (c : char) : bool := between 56320 57343 c.

Fixpoint toCodePoints (s : jsstring) : list N :=
  match s with
  | [] => []
  | c :: r =>
    match r with
    | d :: r' =>
      if isHighSurrogate c && isLowSurrogate d
      then ((c - 55296) * 1024 + (d - 56320) + 65536) :: toCodePoints r'
      else c :: toCodePoints r
    | [] => [c]
    end
  end.

Definition codeUnits (cp : N) : jsstring :=
  if cp <? 65536 then [cp]
  else [55296 + (cp - 65536) / 1024; 56320 + (cp - 65536) mod 1024].

Definition fromCodePoints (l : list N) : jsstring := flat_map codeUnits l.

(** The characters that have a simple lower-case mapping, in runs: the
    first and the last character of the run, the distance between two
    characters of it, and the lower case of the first. *)
Definition lowerCaseTable : list (N * N * N * N) :=
  [(65, 90, 1, 97); (192, 214, 1, 224); (216, 222, 1, 248); (256, 302, 2,
   257); (306, 310, 2, 307); (313, 327, 2, 314); (330, 374, 2, 331); (376,
   376, 1, 255); (377, 381, 2, 378); (385, 385, 1, 595); (386, 388, 2, 387);
   (390, 390, 1, 596); (391, 391, 1, 392); (393, 394, 1, 598); (395, 395, 1,
   396); (398, 398, 1, 477); (399, 399, 1, 601); (400, 400, 1, 603); (401,
   401, 1, 402); (403, 403, 1, 608); (404, 404, 1, 611); (406, 406, 1, 617);
   (407, 407, 1, 616); (408, 408, 1, 409); (412, 412, 1, 623); (413, 413, 1,
   626); (415, 415, 1, 629); (416, 420, 2, 417); (422, 422, 1, 640); (423,
   423, 1, 424); (425, 425, 1, 643); (428, 428, 1, 429); (430, 430, 1, 648);
   (431, 431, 1, 432); (433, 434, 1, 650); (435, 437, 2, 436); (439, 439, 1,
   658); (440, 440, 1, 441); (444, 444, 1, 445); (452, 452, 1, 454); (453,
   453, 1, 454); (455, 455, 1, 457); (456, 456, 1, 457); (458, 458, 1, 460);
   (459, 475, 2, 460); (478, 494, 2, 479); (497, 497, 1, 499); (498, 500, 2,
   499); (502, 502, 1, 405); (503, 503, 1, 447); (504, 542, 2, 505); (544,
   544, 1, 414); (546, 562, 2, 547); (570, 570, 1, 11365); (571, 571, 1,
   572); (573, 573, 1, 410); (574, 574, 1, 11366); (577, 577, 1, 578); (579,
   579, 1, 384); (580, 580, 1, 649); (581, 581, 1, 652); (582, 590, 2, 583);
   (880, 882, 2, 881); (886, 886, 1, 887); (895, 895, 1, 1011); (902, 902,
   1, 940); (904, 906, 1, 941); (908, 908, 1, 972); (910, 911, 1, 973);
   (913, 929, 1, 945); (931, 939, 1, 963); (975, 975, 1, 983); (984, 1006,
   2, 985); (1012, 1012, 1, 952); (1015, 1015, 1, 1016); (1017, 1017, 1,
   1010); (1018, 1018, 1, 1019); (1021, 1023, 1, 891); (1024, 1039, 1,
   1104); (1040, 1071, 1, 1072); (1120, 1152, 2, 1121); (1162, 1214, 2,
   1163); (1216, 1216, 1, 1231); (1217, 1229, 2, 1218); (1232, 1326, 2,
   1233); (1329, 1366, 1, 1377); (4256, 4293, 1, 11520); (4295, 4295, 1,
   11559); (4301, 4301, 1, 11565); (5024, 5103, 1, 43888); (5104, 5109, 1,
   5112); (7312, 7354, 1, 4304); (7357, 7359, 1, 4349); (7680, 7828, 2,
   7681); (7838, 7838, 1, 223); (7840, 7934, 2, 7841); (7944, 7951, 1,
   7936); (7960, 7965, 1, 7952); (7976, 7983, 1, 7968); (7992, 7999, 1,
   7984); (8008, 8013, 1, 8000); (8025, 8031, 2, 8017); (8040, 8047, 1,
   8032); (8072, 8079, 1, 8064); (8088, 8095, 1, 8080); (8104, 8111, 1,
   8096); (8120, 8121, 1, 8112); (8122, 8123, 1, 8048); (8124, 8124, 1,
   8115); (8136, 8139, 1, 8050); (8140, 8140, 1, 8131); (8152, 8153, 1,
   8144); (8154, 8155, 1, 8054); (8168, 8169, 1, 8160); (8170, 8171, 1,
   8058); (8172, 8172, 1, 8165); (8184, 8185, 1, 8056); (8186, 8187, 1,
   8060); (8188, 8188, 1, 8179); (8486, 8486, 1, 969); (8490, 8490, 1, 107);
   (8491, 8491, 1, 229); (8498, 8498, 1, 8526); (8544, 8559, 1, 8560);
   (8579, 8579, 1, 8580); (9398, 9423, 1, 9424); (11264, 11311, 1, 11312);
   (11360, 11360, 1, 11361); (11362, 11362, 1, 619); (11363, 11363, 1,
   7549); (11364, 11364, 1, 637); (11367, 11371, 2, 11368); (11373, 11373,
   1, 593); (11374, 11374, 1, 625); (11375, 11375, 1, 592); (11376, 11376,
   1, 594); (11378, 11378, 1, 11379); (11381, 11381, 1, 11382); (11390,
   11391, 1, 575); (11392, 11490, 2, 11393); (11499, 11501, 2, 11500);
   (11506, 11506, 1, 11507); (42560, 42604, 2, 42561); (42624, 42650, 2,
   42625); (42786, 42798, 2, 42787); (42802, 42862, 2, 42803); (42873,
   42875, 2, 42874); (42877, 42877, 1, 7545); (42878, 42886, 2, 42879);
   (42891, 42891, 1, 42892); (42893, 42893, 1, 613); (42896, 42898, 2,
   42897); (42902, 42920, 2, 42903); (42922, 42922, 1, 614); (42923, 42923,
   1, 604); (42924, 42924, 1, 609); (42925, 42925, 1, 620); (42926, 42926,
   1, 618); (42928, 42928, 1, 670); (42929, 42929, 1, 647); (42930, 42930,
   1, 669); (42931, 42931, 1, 43859); (42932, 42946, 2, 42933); (42948,
   42948, 1, 42900); (42949, 42949, 1, 642); (42950, 42950, 1, 7566);
   (42951, 42953, 2, 42952); (42960, 42960, 1, 42961); (42966, 42968, 2,
   42967); (42997, 42997, 1, 42998); (65313, 65338, 1, 65345); (66560,
   66599, 1, 66600); (66736, 66771, 1, 66776); (66928, 66938, 1, 66967);
   (66940, 66954, 1, 66979); (66956, 66962, 1, 66995); (66964, 66965, 1,
   67003); (68736, 68786, 1, 68800); (71840, 71871, 1, 71872); (93760,
   93791, 1, 93792); (125184, 125217, 1, 125218)].

(** The characters with the property Case_Ignorable, in runs. *)
Definition caseIgnorableTable : list (N * N) :=
  [(39, 39); (46, 46); (58, 58); (94, 94); (96, 96); (168, 168); (173, 173);
   (175, 175); (180, 180); (183, 184); (688, 879); (884, 885); (890, 890);
   (900, 901); (903, 903); (1155, 1161); (1369, 1369); (1375, 1375); (1425,
   1469); (1471, 1471); (1473, 1474); (1476, 1477); (1479, 1479); (1524,
   1524); (1536, 1541); (1552, 1562); (1564, 1564); (1600, 1600); (1611,
   1631); (1648, 1648); (1750, 1757); (1759, 1768); (1770, 1773); (1807,
   1807); (1809, 1809); (1840, 1866); (1958, 1968); (2027, 2037); (2042,
   2042); (2045, 2045); (2070, 2093); (2137, 2139); (2184, 2184); (2192,
   2193); (2200, 2207); (2249, 2306); (2362, 2362); (2364, 2364); (2369,
   2376); (2381, 2381); (2385, 2391); (2402, 2403); (2417, 2417); (2433,
   2433); (2492, 2492); (2497, 2500); (2509, 2509); (2530, 2531); (2558,
   2558); (2561, 2562); (2620, 2620); (2625, 2626); (2631, 2632); (2635,
   2637); (2641, 2641); (2672, 2673); (2677, 2677); (2689, 2690); (2748,
   2748); (2753, 2757); (2759, 2760); (2765, 2765); (2786, 2787); (2810,
   2815); (2817, 2817); (2876, 2876); (2879, 2879); (2881, 2884); (2893,
   2893); (2901, 2902); (2914, 2915); (2946, 2946); (3008, 3008); (3021,
   3021); (3072, 3072); (3076, 3076); (3132, 3132); (3134, 3136); (3142,
   3144); (3146, 3149); (3157, 3158); (3170, 3171); (3201, 3201); (3260,
   3260); (3263, 3263); (3270, 3270); (3276, 3277); (3298, 3299); (3328,
   3329); (3387, 3388); (3393, 3396); (3405, 3405); (3426, 3427); (3457,
   3457); (3530, 3530); (3538, 3540); (3542, 3542); (3633, 3633); (3636,
   3642); (3654, 3662); (3761, 3761); (3764, 3772); (3782, 3782); (3784,
   3789); (3864, 3865); (3893, 3893); (3895, 3895); (3897, 3897); (3953,
   3966); (3968, 3972); (3974, 3975); (3981, 3991); (3993, 4028); (4038,
   4038); (4141, 4144); (4146, 4151); (4153, 4154); (4157, 4158); (4184,
   4185); (4190, 4192); (4209, 4212); (4226, 4226); (4229, 4230); (4237,
   4237); (4253, 4253); (4348, 4348); (4957, 4959); (5906, 5908); (5938,
   5939); (5970, 5971); (6002, 6003); (6068, 6069); (6071, 6077); (6086,
   6086); (6089, 6099); (6103, 6103); (6109, 6109); (6155, 6159); (6211,
   6211); (6277, 6278); (6313, 6313); (6432, 6434); (6439, 6440); (6450,
   6450); (6457, 6459); (6679, 6680); (6683, 6683); (6742, 6742); (6744,
   6750); (6752, 6752); (6754, 6754); (6757, 6764); (6771, 6780); (6783,
   6783); (6823, 6823); (6832, 6862); (6912, 6915); (6964, 6964); (6966,
   6970); (6972, 6972); (6978, 6978); (7019, 7027); (7040, 7041); (7074,
   7077); (7080, 7081); (7083, 7085); (7142, 7142); (7144, 7145); (7149,
   7149); (7151, 7153); (7212, 7219); (7222, 7223); (7288, 7293); (7376,
   7378); (7380, 7392); (7394, 7400); (7405, 7405); (7412, 7412); (7416,
   7417); (7468, 7530); (7544, 7544); (7579, 7679); (8125, 8125); (8127,
   8129); (8141, 8143); (8157, 8159); (8173, 8175); (8189, 8190); (8203,
   8207); (8216, 8217); (8228, 8228); (8231, 8231); (8234, 8238); (8288,
   8292); (8294, 8303); (8305, 8305); (8319, 8319); (8336, 8348); (8400,
   8432); (11388, 11389); (11503, 11505); (11631, 11631); (11647, 11647);
   (11744, 11775); (11823, 11823); (12293, 12293); (12330, 12333); (12337,
   12341); (12347, 12347); (12441, 12446); (12540, 12542); (40981, 40981);
   (42232, 42237); (42508, 42508); (42607, 42610); (42612, 42621); (42623,
   42623); (42652, 42655); (42736, 42737); (42752, 42785); (42864, 42864);
   (42888, 42890); (42994, 42996); (43000, 43001); (43010, 43010); (43014,
   43014); (43019, 43019); (43045, 43046); (43052, 43052); (43204, 43205);
   (43232, 43249); (43263, 43263); (43302, 43309); (43335, 43345); (43392,
   43394); (43443, 43443); (43446, 43449); (43452, 43453); (43471, 43471);
   (43493, 43494); (43561, 43566); (43569, 43570); (43573, 43574); (43587,
   43587); (43596, 43596); (43632, 43632); (43644, 43644); (43696, 43696);
   (43698, 43700); (43703, 43704); (43710, 43711); (43713, 43713); (43741,
   43741); (43756, 43757); (43763, 43764); (43766, 43766); (43867, 43871);
   (43881, 43883); (44005, 44005); (44008, 44008); (44013, 44013); (64286,
   64286); (64434, 64450); (65024, 65039); (65043, 65043); (65056, 65071);
   (65106, 65106); (65109, 65109); (65279, 65279); (65287, 65287); (65294,
   65294); (65306, 65306); (65342, 65342); (65344, 65344); (65392, 65392);
   (65438, 65439); (65507, 65507); (65529, 65531); (66045, 66045); (66272,
   66272); (66422, 66426); (67456, 67461); (67463, 67504); (67506, 67514);
   (68097, 68099); (68101, 68102); (68108, 68111); (68152, 68154); (68159,
   68159); (68325, 68326); (68900, 68903); (69291, 69292); (69446, 69456);
   (69506, 69509); (69633, 69633); (69688, 69702); (69744, 69744); (69747,
   69748); (69759, 69761); (69811, 69814); (69817, 69818); (69821, 69821);
   (69826, 69826); (69837, 69837); (69888, 69890); (69927, 69931); (69933,
   69940); (70003, 70003); (70016, 70017); (70070, 70078); (70089, 70092);
   (70095, 70095); (70191, 70193); (70196, 70196); (70198, 70199); (70206,
   70206); (70367, 70367); (70371, 70378); (70400, 70401); (70459, 70460);
   (70464, 70464); (70502, 70508); (70512, 70516); (70712, 70719); (70722,
   70724); (70726, 70726); (70750, 70750); (70835, 70840); (70842, 70842);
   (70847, 70848); (70850, 70851); (71090, 71093); (71100, 71101); (71103,
   71104); (71132, 71133); (71219, 71226); (71229, 71229); (71231, 71232);
   (71339, 71339); (71341, 71341); (71344, 71349); (71351, 71351); (71453,
   71455); (71458, 71461); (71463, 71467); (71727, 71735); (71737, 71738);
   (71995, 71996); (71998, 71998); (72003, 72003); (72148, 72151); (72154,
   72155); (72160, 72160); (72193, 72202); (72243, 72248); (72251, 72254);
   (72263, 72263); (72273, 72278); (72281, 72283); (72330, 72342); (72344,
   72345); (72752, 72758); (72760, 72765); (72767, 72767); (72850, 72871);
   (72874, 72880); (72882, 72883); (72885, 72886); (73009, 73014); (73018,
   73018); (73020, 73021); (73023, 73029); (73031, 73031); (73104, 73105);
   (73109, 73109); (73111, 73111); (73459, 73460); (78896, 78904); (92912,
   92916); (92976, 92982); (92992, 92995); (94031, 94031); (94095, 94111);
   (94176, 94177); (94179, 94180); (110576, 110579); (110581, 110587);
   (110589, 110590); (113821, 113822); (113824, 113827); (118528, 118573);
   (118576, 118598); (119143, 119145); (119155, 119170); (119173, 119179);
   (119210, 119213); (119362, 119364); (121344, 121398); (121403, 121452);
   (121461, 121461); (121476, 121476); (121499, 121503); (121505, 121519);
   (122880, 122886); (122888, 122904); (122907, 122913); (122915, 122916);
   (122918, 122922); (123184, 123197); (123566, 123566); (123628, 123631);
   (125136, 125142); (125252, 125259); (127995, 127999); (917505, 917505);
   (917536, 917631); (917760, 917999)].

(** The characters with the property Cased that are not Case_Ignorable, in
    runs. *)
Definition casedTable : list (N * N) :=
  [(65, 90); (97, 122); (170, 170); (181, 181); (186, 186); (192, 214);
   (216, 246); (248, 442); (444, 447); (452, 659); (661, 687); (880, 883);
   (886, 887); (891, 893); (895, 895); (902, 902); (904, 906); (908, 908);
   (910, 929); (931, 1013); (1015, 1153); (1162, 1327); (1329, 1366); (1376,
   1416); (4256, 4293); (4295, 4295); (4301, 4301); (4304, 4346); (4349,
   4351); (5024, 5109); (5112, 5117); (7296, 7304); (7312, 7354); (7357,
   7359); (7424, 7467); (7531, 7543); (7545, 7578); (7680, 7957); (7960,
   7965); (7968, 8005); (8008, 8013); (8016, 8023); (8025, 8025); (8027,
   8027); (8029, 8029); (8031, 8061); (8064, 8116); (8118, 8124); (8126,
   8126); (8130, 8132); (8134, 8140); (8144, 8147); (8150, 8155); (8160,
   8172); (8178, 8180); (8182, 8188); (8450, 8450); (8455, 8455); (8458,
   8467); (8469, 8469); (8473, 8477); (8484, 8484); (8486, 8486); (8488,
   8488); (8490, 8493); (8495, 8500); (8505, 8505); (8508, 8511); (8517,
   8521); (8526, 8526); (8544, 8575); (8579, 8580); (9398, 9449); (11264,
   11387); (11390, 11492); (11499, 11502); (11506, 11507); (11520, 11557);
   (11559, 11559); (11565, 11565); (42560, 42605); (42624, 42651); (42786,
   42863); (42865, 42887); (42891, 42894); (42896, 42954); (42960, 42961);
   (42963, 42963); (42965, 42969); (42997, 42998); (43002, 43002); (43824,
   43866); (43872, 43880); (43888, 43967); (64256, 64262); (64275, 64279);
   (65313, 65338); (65345, 65370); (66560, 66639); (66736, 66771); (66776,
   66811); (66928, 66938); (66940, 66954); (66956, 66962); (66964, 66965);
   (66967, 66977); (66979, 66993); (66995, 67001); (67003, 67004); (68736,
   68786); (68800, 68850); (71840, 71903); (93760, 93823); (119808, 119892);
   (119894, 119964); (119966, 119967); (119970, 119970); (119973, 119974);
   (119977, 119980); (119982, 119993); (119995, 119995); (119997, 120003);
   (120005, 120069); (120071, 120074); (120077, 120084); (120086, 120092);
   (120094, 120121); (120123, 120126); (120128, 120132); (120134, 120134);
   (120138, 120144); (120146, 120485); (120488, 120512); (120514, 120538);
   (120540, 120570); (120572, 120596); (120598, 120628); (120630, 120654);
   (120656, 120686); (120688, 120712); (120714, 120744); (120746, 120770);
   (120772, 120779); (122624, 122633); (122635, 122654); (125184, 125251);
   (127280, 127305); (127312, 127337); (127344, 127369)].

Fixpoint lowerIn (t : list (N * N * N * N)) (c : N) : N :=
  match t with
  | [] => c
  | (lo, hi, step, target) :: r =>
    if c <? lo then c
    else if c <=? hi
         then (if (c - lo) mod step =? 0 then target + (c - lo) else c)
         else lowerIn r c
  end.

Definition simpleLower (c : N) : N := lowerIn lowerCaseTable c.

Fixpoint inRuns (t : list (N * N)) (c : N) : bool :=
  match t with
  | [] => false
  | (lo, hi) :: r => if c <? lo then false else (c <=? hi) || inRuns r c
  end.

Definition isCaseIgnorable (c : N) : bool := inRuns caseIgnorableTable c.
Definition isCased (c : N) : bool := inRuns casedTable c.

Fixpoint skipIgnorable (l : list N) : list N :=
  match l with
  | c :: r => if isCaseIgnorable c then skipIgnorable r else l
  | [] => []
  end.

(** The first character that is not case ignorable is a cased letter. *)
Definition reachesCased (l : list N) : bool :=
  match skipIgnorable l with
  | c :: _ => isCased c
  | [] => false
  end.

(** [before] holds the preceding characters, the nearest first. *)
Definition isFinalSigma (before after : list N) : bool :=
  reachesCased before && negb (reachesCased after).

Definition lowerPoint (before : list N) (c : N) (after : list N) : list N :=
  if c =? 304 then [105; 775]
  else if c =? 931 then [if isFinalSigma before after then 962 else 963]
  else [simpleLower c].

Fixpoint lowerPoints (before l : list N) : list N :=
  match l with
  | [] => []
  | c :: r => lowerPoint before c r ++ lowerPoints (c :: before) r
  end.

Definition toLowerCase (s : jsstring) : jsstring :=
  fromCodePoints (lowerPoints [] (toCodePoints s)).

Fixpoint trimStart (s : jsstring) : jsstring :=
  match s with
  | c :: r => if isWhiteSpace c then trimStart r else s
  | [] => []
  end.

Definition trimEnd (s : jsstring) : jsstring := rev (trimStart (rev s)).

Definition trim (s : jsstring) : jsstring := trimEnd (trimStart s).

Fixpoint startsWith (p s : jsstring) : bool :=
  match p, s with
  | [], _ => true
  | a :: p', b :: s' => char_eqb a b && startsWith p' s'
  | _ :: _, [] => false
  end.

(** [String.prototype.includes] *)
Fixpoint includes (s needle : jsstring) : bool :=
  startsWith needle s
  || match s with
     | [] => false
     | _ :: r => includes r needle
     end.

(** [Array.prototype.some] over a list of keywords *)
Definition someKeyword (keywords : list string) (s : jsstring) : bool :=
  existsb (fun k => includes s (str k)) keywords.

(** [String.prototype.split] on a one-unit separator *)
Fixpoint splitOn (sep : char) (s : jsstring) (cur : jsstring) : list jsstring :=
  match s with
  | [] => [rev cur]
  | c :: r => if char_eqb c sep then rev cur :: splitOn sep r []
              else splitOn sep r (c :: cur)
  end.

Definition split (s : jsstring) (sep : char) : list jsstring := splitOn sep s [].

(** [Array.prototype.indexOf] on strings, [None] standing for -1 *)
Fixpoint indexOfFrom (l : list jsstring) (x : jsstring) (i : nat) : option nat :=
  match l with
  | [] => None
  | y :: r => if jsstring_eqb y x then Some i else indexOfFrom r x (S i)
  end.

Definition indexOf (l : list jsstring) (x : jsstring) : option nat :=
  indexOfFrom l x 0%nat.

Local Close Scope N_scope.

(* ================================================================== *)
(** * Numbers: IEEE 754 binary64 *)
(* ================================================================== *)

Definition number := float.
Bind Scope float_scope with number.

(** [a > b], [a < b], [a === b] on Numbers; each is false on NaN. *)
Definition gt (a b : number) : bool := (b <? a)%float.
Definition lt (a b : number) : bool := (a <? b)%float.
Definition strictEq (a b : number) : bool := (a =? b)%float.

Definition Math_abs (x : number) : number := abs x.
Definition Math_sqrt (x : number) : number := sqrt x.
(** [Math.pow(x, 2)] *)
Definition Math_pow2 (x : number) : number := (x * x)%float.

(** SameValueZero, the equality of [Set] *)
Definition sameValueZero (a b : number) : bool :=
  (a =? b)%float || (is_nan a && is_nan b).

(** The Number nearest to an integer, and to a ratio of two integers
    (ties to even): what reading a decimal numeral gives. *)
Definition ofZ (z : Z) : number := SF2Prim (binary_normalize prec emax z 0 false).

Definition ofRatio (n : Z) (d : positive) : number :=
  match n with
  | Z0 => 0%float
  | Zpos p => SF2Prim (SFdiv prec emax (S754_finite false p 0) (S754_finite false d 0))
  | Zneg p => SF2Prim (SFdiv prec emax (S754_finite true p 0) (S754_finite false d 0))
  end.

(** The exact value of a finite Number. *)
Definition exactQ (m : positive) (e : Z) : Q := inject_Z (Zpos m) * Qpower 2 e.

(** [x % k === 0] for a positive integer [k]: the remainder is computed
    exactly, so the test holds when the value of [x] is an integer multiple
    of [k]; NaN and the infinities give NaN. *)
Definition remIsZero (x : number) (k : positive) : bool :=
  match Prim2SF x with
  | S754_zero _ => true
  | S754_finite _ m e =>
    match e with
    | Zneg p => (Zpos m mod (Zpos k * 2 ^ Zpos p) =? 0)%Z
    | _ => ((Zpos m * 2 ^ e) mod Zpos k =? 0)%Z
    end
  | _ => false
  end.

(** ** [Number.prototype.toString] *)

Definition Qltb (a b : Q) : bool := negb (Qle_bool b a).

Section Shortest.
Variables (m : positive) (e : Z).

Let v : Q := exactQ m e.
Let hi : Q := (inject_Z (Zpos m) + (1 # 2)) * Qpower 2 e.
Let lo : Q :=
  if (Pos.eqb m 4503599627370496 && (-1074 <? e)%Z)%bool
  then (inject_Z (Zpos m) - (1 # 4)) * Qpower 2 e
  else (inject_Z (Zpos m) - (1 # 2)) * Qpower 2 e.

(** The decimals that read back as this Number. *)
Definition readsBack (q : Q) : bool :=
  if Z.even (Zpos m) then Qle_bool lo q && Qle_bool q hi
  else Qltb lo q && Qltb q hi.

(** The least [n] with [v < 10^n], searched upwards from [n0]. *)
Fixpoint decimalExponent (fuel : nat) (n0 : Z) : Z :=
  match fuel with
  | O => n0
  | S fuel' => if Qltb v (Qpower 10 n0) then n0
               else decimalExponent fuel' (n0 + 1)
  end.

Definition Qdist (a b : Q) : Q := Qabs (a - b)%Q.

(** Among [s, s+1, ...] the integer whose multiple of [scale] reads back
    and is nearest to the value; of two equally near, the even one. *)
Fixpoint nearestCandidate (fuel : nat) (s : Z) (scale : Q) (best : option Z)
  : option Z :=
  match fuel with
  | O => best
  | S fuel' =>
    let q := (inject_Z s * scale)%Q in
    let best' :=
      if ((0 <? s)%Z && readsBack q)%bool then
        match best with
        | None => Some s
        | Some b =>
          let db := Qdist (inject_Z b * scale)%Q v in
          let ds := Qdist q v in
          if Qltb ds db then Some s
          else if (Qeq_bool ds db && Z.even s)%bool then Some s
          else Some b
        end
      else best in
    nearestCandidate fuel' (s + 1) scale best'
  end.

(** The digits [s] (as an integer), their number [k] and the exponent
    [n] of Number::toString: [k] as small as possible. *)
Fixpoint shortestFrom (fuel : nat) (k : Z) (n : Z) : Z * Z * Z :=
  match fuel with
  | O => (Zpos m, k, n)
  | S fuel' =>
    let scale := Qpower 10 (n - k) in
    match nearestCandidate 14 (Qfloor (lo / scale)%Q) scale None with
    | Some s => if (10 ^ k <=? s)%Z then (s / 10, k, n + 1) else (s, k, n)
    | None => shortestFrom fuel' (k + 1) n
    end
  end.

Definition shortest : Z * Z * Z :=
  let bits := (Z.log2 (Zpos m) + e)%Z in
  let n0 := (bits * 30103 / 100000 - 2)%Z in
  shortestFrom 18 1 (decimalExponent 8 n0).
End Shortest.

Local Open Scope N_scope.

Definition digitChar (d : Z) : char := 48 + Z.to_N d.

(** The decimal digits of a non-negative integer, most significant first. *)
Fixpoint digitsOf (fuel : nat) (z : Z) (acc : jsstring) : jsstring :=
  match fuel with
  | O => acc
  | S fuel' =>
    if (z <? 10)%Z then digitChar z :: acc
    else digitsOf fuel' (z / 10)%Z (digitChar (z mod 10)%Z :: acc)
  end.

Definition decimalString (z : Z) : jsstring :=
  digitsOf (S (Z.to_nat (Z.log2 z))) z [].

Definition zeros (n : Z) : jsstring := repeat 48 (Z.to_nat n).

(** Number::toString of a positive finite value with digits [ds] and
    exponent [n] *)
Definition formatDigits (ds : jsstring) (n : Z) : jsstring :=
  let k := Z.of_nat (List.length ds) in
  if ((k <=? n) && (n <=? 21))%Z then ds ++ zeros (n - k)
  else if ((0 <? n) && (n <=? 21))%Z then
    firstn (Z.to_nat n) ds ++ [46] ++ skipn (Z.to_nat n) ds
  else if ((-6 <? n) && (n <=? 0))%Z then [48; 46] ++ zeros (- n) ++ ds
  else
    let ex := (n - 1)%Z in
    let sign := if (ex <? 0)%Z then 45 else 43 in
    let mant := match ds with
                | [d] => [d]
                | d :: r => d :: 46 :: r
                | [] => []
                end in
    mant ++ [101; sign] ++ decimalString (Z.abs ex).

Definition numberToString (x : number) : jsstring :=
  match Prim2SF x with
  | S754_nan => [78; 97; 78]
  | S754_zero _ => [48]
  | S754_infinity s =>
    (if s then [45] else []) ++ [73; 110; 102; 105; 110; 105; 116; 121]
  | S754_finite s m e =>
    let '(d, _, n) := shortest m e in
    (if s then [45] else []) ++ formatDigits (decimalString d) n
  end.

(** [String.prototype.charAt(0)]: the empty string when there is none *)
Definition charAt0 (s : jsstring) : jsstring := firstn 1 s.

Local Close Scope N_scope.

(** ** [parseFloat(x.toFixed(2))]

    [toFixed(2)] writes the integer [n] nearest to [100 * |x|] (the larger
    of two equally near) with two decimals, and a minus sign when [x < 0];
    from [1e21] on it writes what [toString] writes.  [parseFloat] reads the
    numeral back to the nearest Number. *)
Definition toFixed2Hundredths (m : positive) (e : Z) : Z :=
  Qfloor (exactQ m e * 100 + (1 # 2))%Q.

Definition roundTo2 (x : number) : number :=
  match Prim2SF x with
  | S754_nan => x
  | S754_infinity _ => x
  | S754_zero _ => 0%float
  | S754_finite s m e =>
    if Qle_bool (Qpower 10 21) (exactQ m e) then x
    else
      let n := toFixed2Hundredths m e in
      if s then (if (n =? 0)%Z then (-0)%float else ofRatio (- n) 100)
      else ofRatio n 100
  end.

(* ================================================================== *)
(** * The data model *)
(* ================================================================== *)

Record LineItem := {
  name : jsstring;
  quantity : number;
  unitPrice : number;
  price : number
}.

(** The object that [parseBillData] builds and [validateBill] receives. *)
Record Receipt := {
  date : jsstring;
  storeName : jsstring;
  storeAddress : jsstring;
  billNumber : jsstring;
  items : list LineItem;
  subtotal : number;
  tax : number;
  taxRate : number;
  discount : number;
  total : number;
  currency : jsstring;
  rawText : jsstring
}.

Inductive Severity := low | medium | high.

(** The [type] strings: those the validator writes, and the two that only
    the schema of models/Bill.js lists ([PRICE_ERROR], [FUTURE_DATE]). *)
Inductive IssueType :=
| MATH_ERROR | TAX_ERROR | TOTAL_ERROR | DATE_ERROR | PRICE_ERROR
| FUTURE_DATE | OLD_DATE | DUPLICATE_ITEMS | PRICE_OUTLIER
| SUSPICIOUS_PATTERN | VALIDATION_ERROR.

(** The [field] strings; [F_itemPrice i] is [`items[${i}].price`]. *)
Inductive Field :=
| F_subtotal | F_itemPrice (index : nat) | F_tax | F_total | F_date | F_items.

(** An entry of [errors] or [warnings].  The [message], [expected] and
    [actual] properties repeat, as text, numbers that the check has
    already computed; they are not part of the model. *)
Record Issue := {
  type : IssueType;
  severity : Severity;
  field : option Field
}.

(** [algorithmResults]; [None] is a property that the object does not have. *)
Record AlgorithmResults := {
  mathVerification : option bool;
  taxValidation : option bool;
  totalCheck : option bool;
  dateValidation : option bool;
  patternAnalysis : option bool
}.

Record Validation := {
  isValid : bool;
  errors : list Issue;
  warnings : list Issue;
  confidenceScore : Z;
  algorithmResults : AlgorithmResults
}.

(* ================================================================== *)
(** * What the code takes from its surroundings *)
(* ================================================================== *)

(** The clock and the engine's [Date]: [now] is the time value of
    [new Date()], [parseDate] the time value of [new Date(string)] ([None]
    for an Invalid Date), [localTZA t] the offset of local time at [t], all
    in milliseconds.  [lowWarningDeduction] is what
    [calculateConfidenceScore] subtracts for a warning of low severity: the
    source file ends before that branch. *)
Record Env := {
  now : Z;
  parseDate : jsstring -> option Z;
  localTZA : Z -> Z;
  lowWarningDeduction : Z
}.

Definition msPerDay : Z := 1000 * 60 * 60 * 24.
Definition msPerHour : Z := 1000 * 60 * 60.

(** [Date.prototype.getDay] and [getHours] of a valid time value *)
Definition getDay (env : Env) (t : Z) : Z :=
  (((t + localTZA env t) / msPerDay) + 4) mod 7.

Definition getHours (env : Env) (t : Z) : Z :=
  ((t + localTZA env t) / msPerHour) mod 24.

(* ================================================================== *)
(** * Exceptions and the store *)
(* ================================================================== *)

Inductive Exn :=
| TypeError (message : string)
| RangeError (message : string)
| Error (message : string).

Definition messageOf (e : Exn) : string :=
  match e with
  | TypeError m => m
  | RangeError m => m
  | Error m => m
  end.

(** The [name] of the exception *)
Definition nameOf (e : Exn) : string :=
  match e with
  | TypeError _ => "TypeError"
  | RangeError _ => "RangeError"
  | Error _ => "Error"
  end.

(** How a call that touches no shared object ends *)
Inductive Completion (A : Type) :=
| Normal (a : A)
| Raised (e : Exn).
Arguments Normal {A} a.
Arguments Raised {A} e.

(** The two objects of a validation: the bill that the caller passed and
    the [validation] object under construction. *)
Record Store := {
  billData : Receipt;
  validation : Validation
}.

Inductive Outcome (A : Type) :=
| Returned (a : A) (st : Store)
| Thrown (e : Exn) (st : Store).
Arguments Returned {A} a st.
Arguments Thrown {A} e st.

Definition storeOf {A} (o : Outcome A) : Store :=
  match o with
  | Returned _ st => st
  | Thrown _ st => st
  end.

Definition M (A : Type) := Store -> Outcome A.

Definition ret {A} (a : A) : M A := fun st => Returned a st.

Definition bind {A B} (m : M A) (f : A -> M B) : M B :=
  fun st =>
    match m st with
    | Returned a st' => f a st'
    | Thrown e st' => Thrown e st'
    end.

Definition throw {A} (e : Exn) : M A := fun st => Thrown e st.

(** [try { body } catch (error) { handler }] *)
Definition tryCatch (body : M unit) (handler : Exn -> M unit) : M unit :=
  fun st =>
    match body st with
    | Returned a st' => Returned a st'
    | Thrown e st' => handler e st'
    end.

Notation "x <- m ;; k" := (bind m (fun x => k))
  (at level 61, m at next level, right associativity).
Notation "m ;; k" := (bind m (fun _ => k))
  (at level 61, right associativity).

Definition getBill : M Receipt := fun st => Returned (billData st) st.

Definition updateValidation (f : Validation -> Validation) : M unit :=
  fun st => Returned tt {| billData := billData st; validation := f (validation st) |}.

Definition withErrors (v : Validation) (l : list Issue) : Validation :=
  {| isValid := isValid v; errors := l; warnings := warnings v;
     confidenceScore := confidenceScore v;
     algorithmResults := algorithmResults v |}.

Definition withWarnings (v : Validation) (l : list Issue) : Validation :=
  {| isValid := isValid v; errors := errors v; warnings := l;
     confidenceScore := confidenceScore v;
     algorithmResults := algorithmResults v |}.

Definition withResults (v : Validation) (r : AlgorithmResults) : Validation :=
  {| isValid := isValid v; errors := errors v; warnings := warnings v;
     confidenceScore := confidenceScore v;
     algorithmResults := r |}.

(** [validation.errors.push(i)] and [validation.warnings.push(i)] *)
Definition pushError (i : Issue) : M unit :=
  updateValidation (fun v => withErrors v (errors v ++ [i])).

Definition pushWarning (i : Issue) : M unit :=
  updateValidation (fun v => withWarnings v (warnings v ++ [i])).

Definition issue (t : IssueType) (s : Severity) (f : option Field) : Issue :=
  {| type := t; severity := s; field := f |}.

(** [validation.algorithmResults.<flag> = true] *)
Definition setMathVerification : M unit :=
  updateValidation (fun v => let r := algorithmResults v in
    withResults v {| mathVerification := Some true; taxValidation := taxValidation r;
                     totalCheck := totalCheck r; dateValidation := dateValidation r;
                     patternAnalysis := patternAnalysis r |}).

Definition setTaxValidation : M unit :=
  updateValidation (fun v => let r := algorithmResults v in
    withResults v {| mathVerification := mathVerification r; taxValidation := Some true;
                     totalCheck := totalCheck r; dateValidation := dateValidation r;
                     patternAnalysis := patternAnalysis r |}).

Definition setTotalCheck : M unit :=
  updateValidation (fun v => let r := algorithmResults v in
    withResults v {| mathVerification := mathVerification r; taxValidation := taxValidation r;
                     totalCheck := Some true; dateValidation := dateValidation r;
                     patternAnalysis := patternAnalysis r |}).

Definition setDateValidation : M unit :=
  updateValidation (fun v => let r := algorithmResults v in
    withResults v {| mathVerification := mathVerification r; taxValidation := taxValidation r;
                     totalCheck := totalCheck r; dateValidation := Some true;
                     patternAnalysis := patternAnalysis r |}).

Definition setPatternAnalysis : M unit :=
  updateValidation (fun v => let r := algorithmResults v in
    withResults v {| mathVerification := mathVerification r; taxValidation := taxValidation r;
                     totalCheck := totalCheck r; dateValidation := dateValidation r;
                     patternAnalysis := Some true |}).

(** [array.forEach((x, index) => ...)], from index [i] on *)
Fixpoint forEachFrom {A} (l : list A) (i : nat) (f : A -> nat -> M unit) : M unit :=
  match l with
  | [] => ret tt
  | x :: r => f x i ;; forEachFrom r (S i) f
  end.

Definition forEach {A} (l : list A) (f : A -> nat -> M unit) : M unit :=
  forEachFrom l 0 f.

(** [if (c) { m }] *)
Definition when (c : bool) (m : M unit) : M unit := if c then m else ret tt.

(** [array.reduce(f)] without an initial value; [None] on an empty array,
    where JavaScript throws a TypeError. *)
Definition reduce1 {A} (f : A -> A -> A) (l : list A) : option A :=
  match l with
  | [] => None
  | x :: r => Some (fold_left f r x)
  end.

Definition reduce1M {A} (f : A -> A -> A) (l : list A) : M A :=
  match reduce1 f l with
  | Some a => ret a
  | None => throw (TypeError "Reduce of empty array with no initial value")
  end.

(** [array.filter((x, index) => ...)] *)
Fixpoint filterIndexed {A} (f : A -> nat -> bool) (l : list A) (i : nat) : list A :=
  match l with
  | [] => []
  | x :: r => if f x i then x :: filterIndexed f r (S i) else filterIndexed f r (S i)
  end.

(** [array.length] as a Number *)
Definition lengthOf {A} (l : list A) : number := ofZ (Z.of_nat (List.length l)).

(* ================================================================== *)
(** * ValidationService *)
(* ================================================================== *)

Local Open Scope float_scope.

(** The constructor's three fields *)
Definition indianTaxRates : list number := [0; 5; 12; 18; 28].
Definition maxReasonablePrice : number := 10000.
Definition maxBillAge : Z := 365.

(** [items.reduce((sum, item) => sum + item.price, 0)] *)
Definition sumPrices (l : list LineItem) : number :=
  fold_left (fun sum item => sum + price item) l 0.

(** ** Algorithm 1: mathematical accuracy *)

Definition validateMathematicalAccuracy : M unit :=
  tryCatch
    (billData <- getBill ;;
     let calculatedSubtotal := sumPrices (items billData) in
     let tolerance := 0.01 in
     (if gt (Math_abs (calculatedSubtotal - subtotal billData)) tolerance
      then pushError (issue MATH_ERROR high (Some F_subtotal))
      else setMathVerification) ;;
     forEach (items billData) (fun item index =>
       let calculatedPrice := quantity item * unitPrice item in
       when (gt (Math_abs (calculatedPrice - price item)) tolerance)
            (pushError (issue MATH_ERROR medium (Some (F_itemPrice index))))))
    (fun error => pushWarning (issue MATH_ERROR medium None)).

(** ** Algorithm 2: tax *)

Definition closerRate (actualRate : number) (closest rate : number) : number :=
  if lt (Math_abs (rate - actualRate)) (Math_abs (closest - actualRate))
  then rate else closest.

Definition findClosestTaxRate (actualRate : number) : M number :=
  reduce1M (closerRate actualRate) indianTaxRates.

Definition validateTaxCalculations : M unit :=
  tryCatch
    (billData <- getBill ;;
     if strictEq (tax billData) 0 then
       pushWarning (issue TAX_ERROR low None) ;;
       setTaxValidation
     else
       let actualTaxRate := (tax billData / subtotal billData) * 100 in
       closestValidRate <- findClosestTaxRate actualTaxRate ;;
       let rateTolerance := 0.5 in
       (if gt (Math_abs (actualTaxRate - closestValidRate)) rateTolerance
        then pushError (issue TAX_ERROR medium (Some F_tax))
        else setTaxValidation) ;;
       let expectedTax := (subtotal billData * closestValidRate) / 100 in
       when (gt (Math_abs (expectedTax - tax billData)) 0.01)
            (pushError (issue TAX_ERROR medium (Some F_tax))))
    (fun error => pushWarning (issue TAX_ERROR medium None)).

(** ** Algorithm 3: total *)

Definition validateTotalAmount : M unit :=
  tryCatch
    (billData <- getBill ;;
     let calculatedTotal := subtotal billData + tax billData - discount billData in
     let tolerance := 0.01 in
     (if gt (Math_abs (calculatedTotal - total billData)) tolerance
      then pushError (issue TOTAL_ERROR high (Some F_total))
      else setTotalCheck) ;;
     when (lt (total billData) 0)
          (pushError (issue TOTAL_ERROR high (Some F_total))) ;;
     when (gt (total billData) 100000)
          (pushWarning (issue TOTAL_ERROR low (Some F_total))))
    (fun error => pushWarning (issue TOTAL_ERROR medium None)).

(** ** Algorithm 4: date

    [daysDifference] is [(currentDate - billDate) / (1000*60*60*24)].  Time
    values are integers below 2^53 in magnitude, so the difference is exact
    and the quotient compares with [-1] and [365] as the exact quotient
    does, which is the value kept here; [None] is NaN, of an Invalid Date. *)

Definition daysDifference (env : Env) (billDate : option Z) : option Q :=
  match billDate with
  | Some t => Some (Qmake (now env - t) 86400000)
  | None => None
  end.

Definition ltQ (d : option Q) (bound : Z) : bool :=
  match d with
  | Some q => Qltb q (inject_Z bound)
  | None => false
  end.

Definition gtQ (d : option Q) (bound : Z) : bool :=
  match d with
  | Some q => Qltb (inject_Z bound) q
  | None => false
  end.

Definition validateDateLogic (env : Env) : M unit :=
  tryCatch
    (billData <- getBill ;;
     match date billData with
     | [] =>
       pushWarning (issue DATE_ERROR low (Some F_date)) ;;
       setDateValidation
     | _ :: _ =>
       let billDate := parseDate env (date billData) in
       let daysDiff := daysDifference env billDate in
       (if ltQ daysDiff (-1)
        then pushError (issue DATE_ERROR high (Some F_date))
        else when (gtQ daysDiff maxBillAge)
                  (pushWarning (issue OLD_DATE low (Some F_date)))) ;;
       let billDayOfWeek := option_map (getDay env) billDate in
       when (match billDayOfWeek with
             | Some d => (d =? 0)%Z
             | None => false
             end && gt (total billData) 1000)
            (pushWarning (issue DATE_ERROR low None)) ;;
       setDateValidation
     end)
    (fun error => pushWarning (issue DATE_ERROR low None)).

(** ** Algorithm 5: patterns *)

Definition detectDuplicateItems : M unit :=
  billData <- getBill ;;
  let itemNames := map (fun item => trim (toLowerCase (name item))) (items billData) in
  let duplicates :=
    filterIndexed (fun name index =>
                     match indexOf itemNames name with
                     | Some i => negb (Nat.eqb i index)
                     | None => true
                     end) itemNames 0 in
  when (0 <? List.length duplicates)%nat
       (pushWarning (issue DUPLICATE_ITEMS medium (Some F_items))).

Definition detectPriceOutliers : M unit :=
  billData <- getBill ;;
  if (List.length (items billData) <? 3)%nat then ret tt
  else
    let prices := map price (items billData) in
    let mean := fold_left (fun sum price => sum + price) prices 0 / lengthOf prices in
    let stdDev :=
      Math_sqrt (fold_left (fun sum price => sum + Math_pow2 (price - mean)) prices 0
                 / lengthOf prices) in
    let outliers :=
      filter (fun item =>
                let zScore := Math_abs (price item - mean) / stdDev in
                gt zScore 2 && gt (price item) maxReasonablePrice)
             (items billData) in
    when (0 <? List.length outliers)%nat
         (pushWarning (issue PRICE_OUTLIER low (Some F_items))).

Definition analyzeQuantityPatterns : M unit :=
  billData <- getBill ;;
  let unusualQuantities :=
    filter (fun item => gt (quantity item) 100 || (quantity item <=? 0))
           (items billData) in
  when (0 <? List.length unusualQuantities)%nat
       (pushWarning (issue SUSPICIOUS_PATTERN low (Some F_items))).

Definition detectSuspiciousRounding : M unit :=
  billData <- getBill ;;
  let roundPrices :=
    List.length (filter (fun item => remIsZero (price item) 1) (items billData)) in
  let totalItems := List.length (items billData) in
  when (Nat.eqb roundPrices totalItems && (3 <? totalItems)%nat)
       (pushWarning (issue SUSPICIOUS_PATTERN low None)) ;;
  when (remIsZero (total billData) 10 && gt (total billData) 100)
       (pushWarning (issue SUSPICIOUS_PATTERN low None)).

Definition analyzePatterns : M unit :=
  tryCatch
    (detectDuplicateItems ;;
     detectPriceOutliers ;;
     analyzeQuantityPatterns ;;
     detectSuspiciousRounding ;;
     setPatternAnalysis)
    (fun error => pushWarning (issue SUSPICIOUS_PATTERN low None)).

(** ** Business logic *)

Definition categoryKeywords : list (string * list string) :=
  [ ("food", ["rice"; "bread"; "milk"; "egg"; "chicken"; "vegetable"; "fruit"]);
    ("alcohol", ["beer"; "wine"; "whisky"; "vodka"; "rum"]);
    ("baby", ["diaper"; "formula"; "baby"; "infant"]);
    ("medical", ["medicine"; "tablet"; "syrup"; "bandage"]) ]%string.

Definition hasCategory (categories : list string) (c : string) : bool :=
  existsb (String.eqb c) categories.

Definition categorizeItems (items : list LineItem) : list string :=
  fold_left
    (fun categories item =>
       let itemName := toLowerCase (name item) in
       fold_left
         (fun categories entry =>
            let '(category, keywords) := entry in
            if someKeyword keywords itemName
            then if negb (hasCategory categories category)
                 then categories ++ [category] else categories
            else categories)
         categoryKeywords categories)
    items [].

Definition validateItemCombinations : M unit :=
  billData <- getBill ;;
  let itemCategories := categorizeItems (items billData) in
  when (hasCategory itemCategories "baby" && hasCategory itemCategories "alcohol")
       (pushWarning (issue SUSPICIOUS_PATTERN low None)).

(** The object [duplicateItems = {}]: its own properties, in the order in
    which they were created.  A property that it does not have is read
    from [Object.prototype]. *)
Definition Groups := list (jsstring * list LineItem).

Definition objectPrototypeKeys : list string :=
  [ "constructor"; "__defineGetter__"; "__defineSetter__"; "hasOwnProperty";
    "__lookupGetter__"; "__lookupSetter__"; "isPrototypeOf";
    "propertyIsEnumerable"; "toString"; "valueOf"; "__proto__";
    "toLocaleString" ]%string.

Definition inheritedKey (key : jsstring) : bool :=
  existsb (fun k => jsstring_eqb key (str k)) objectPrototypeKeys.

Fixpoint ownProperty (g : Groups) (key : jsstring) : option (list LineItem) :=
  match g with
  | [] => None
  | (k, l) :: r => if jsstring_eqb k key then Some l else ownProperty r key
  end.

Fixpoint pushTo (g : Groups) (key : jsstring) (item : LineItem) : Groups :=
  match g with
  | [] => []
  | (k, l) :: r => if jsstring_eqb k key then (k, l ++ [item]) :: r
                   else (k, l) :: pushTo r key item
  end.

(** [if (!duplicateItems[key]) duplicateItems[key] = [];
     duplicateItems[key].push(item);]
    An inherited property is truthy and has no [push]. *)
Definition groupItem (g : Groups) (item : LineItem) : M Groups :=
  let key := toLowerCase (name item) in
  match ownProperty g key with
  | Some _ => ret (pushTo g key item)
  | None =>
    if inheritedKey key
    then throw (TypeError "duplicateItems[key].push is not a function")
    else ret (g ++ [(key, [item])])
  end.

Fixpoint groupItems (l : list LineItem) (g : Groups) : M Groups :=
  match l with
  | [] => ret g
  | item :: r => g' <- groupItem g item ;; groupItems r g'
  end.

(** [[...new Set(prices)]] *)
Fixpoint uniqueNumbers (l : list number) (seen : list number) : list number :=
  match l with
  | [] => seen
  | x :: r => if existsb (sameValueZero x) seen then uniqueNumbers r seen
              else uniqueNumbers r (seen ++ [x])
  end.

(** The warnings are pushed group by group; they are equal, so the order
    in which [Object.entries] lists the groups does not show. *)
Definition validatePricingConsistency : M unit :=
  billData <- getBill ;;
  duplicateItems <- groupItems (items billData) [] ;;
  forEach duplicateItems (fun entry _ =>
    let '(name, items) := entry in
    if (1 <? List.length items)%nat then
      let prices := map unitPrice items in
      let uniquePrices := uniqueNumbers prices [] in
      when (1 <? List.length uniquePrices)%nat
           (pushWarning (issue PRICE_OUTLIER medium None))
    else ret tt).

Definition validateBusinessLogic : M unit :=
  billData <- getBill ;;
  when (lt (total billData) 1)
       (pushError (issue TOTAL_ERROR high None)) ;;
  validateItemCombinations ;;
  validatePricingConsistency.

(** ** Anomalies *)

Definition digitKeys : list jsstring :=
  map str ["1"; "2"; "3"; "4"; "5"; "6"; "7"; "8"; "9"]%string.

Definition isDigitKey (k : jsstring) : bool := existsb (jsstring_eqb k) digitKeys.

Fixpoint firstOccurrences (l : list jsstring) (seen : list jsstring) : list jsstring :=
  match l with
  | [] => seen
  | x :: r => if existsb (jsstring_eqb x) seen then firstOccurrences r seen
              else firstOccurrences r (seen ++ [x])
  end.

(** [Object.keys(digitCounts)]: the keys that are array indices in
    ascending order, then the other keys in the order of their creation. *)
Definition keysOfCounts (firstDigits : list jsstring) : list jsstring :=
  filter (fun d => existsb (jsstring_eqb d) firstDigits) digitKeys
  ++ firstOccurrences (filter (fun d => negb (isDigitKey d)) firstDigits) [].

Definition countOf (firstDigits : list jsstring) (d : jsstring) : nat :=
  List.length (filter (jsstring_eqb d) firstDigits).

Definition checkBenfordsLaw : M unit :=
  billData <- getBill ;;
  if (List.length (items billData) <? 10)%nat then ret tt
  else
    let firstDigits :=
      filter (fun digit => negb (jsstring_eqb digit (str "0")))
             (map (fun item => charAt0 (numberToString (price item))) (items billData)) in
    mostCommonDigit <-
      reduce1M (fun a b => if (countOf firstDigits b <? countOf firstDigits a)%nat
                           then a else b)
               (keysOfCounts firstDigits) ;;
    when (negb (jsstring_eqb mostCommonDigit (str "1"))
          && (20 <? List.length firstDigits)%nat)
         (pushWarning (issue SUSPICIOUS_PATTERN low None)).

Definition checkTimingAnomalies (env : Env) : M unit :=
  billData <- getBill ;;
  match date billData with
  | [] => ret tt
  | _ :: _ =>
    let billDate := parseDate env (date billData) in
    let hour := option_map (getHours env) billDate in
    when (match hour with
          | Some h => (h <? 6)%Z || (23 <? h)%Z
          | None => false
          end)
         (pushWarning (issue DATE_ERROR low None))
  end.

Definition detectAnomalies (env : Env) : M unit :=
  tryCatch
    (checkBenfordsLaw ;;
     checkTimingAnomalies env)
    (fun error => ret tt).

(** ** The confidence score *)

Local Close Scope float_scope.

Definition errorDeduction (s : Severity) : Z :=
  match s with
  | high => 25
  | medium => 15
  | low => 5
  end.

Definition warningDeduction (env : Env) (s : Severity) : Z :=
  match s with
  | high => 10
  | medium => 5
  | low => lowWarningDeduction env
  end.

(** The two [forEach] loops of [calculateConfidenceScore] *)
Definition deductedScore (env : Env) (v : Validation) : Z :=
  let score := 100 in
  let score := fold_left (fun score error => score - errorDeduction (severity error))
                         (errors v) score in
  fold_left (fun score warning => score - warningDeduction env (severity warning))
            (warnings v) score.

(** Modelled from the spec: the last lines of [calculateConfidenceScore],
    which the source file does not reach; the score is "clamped at 0". *)
Definition calculateConfidenceScore (env : Env) (v : Validation) : Z :=
  Z.max 0 (deductedScore env v).

(** ** [validateBill] *)

Definition initialValidation : Validation :=
  {| isValid := true;
     errors := [];
     warnings := [];
     confidenceScore := 100;
     algorithmResults :=
       {| mathVerification := Some false; taxValidation := Some false;
          totalCheck := Some false; dateValidation := Some false;
          patternAnalysis := Some false |} |}.

(** The object that the [catch] block of [validateBill] returns;
    [algorithmResults] is [{}]. *)
Definition validationError : Validation :=
  {| isValid := false;
     errors := [issue VALIDATION_ERROR high None];
     warnings := [];
     confidenceScore := 0;
     algorithmResults :=
       {| mathVerification := None; taxValidation := None; totalCheck := None;
          dateValidation := None; patternAnalysis := None |} |}.

(** [validation.isValid = validation.errors.length === 0] *)
Definition setIsValid : M unit :=
  updateValidation (fun v =>
    {| isValid := (List.length (errors v) =? 0)%nat; errors := errors v;
       warnings := warnings v; confidenceScore := confidenceScore v;
       algorithmResults := algorithmResults v |}).

(** [validation.confidenceScore = this.calculateConfidenceScore(validation)] *)
Definition setConfidenceScore (env : Env) : M unit :=
  updateValidation (fun v =>
    {| isValid := isValid v; errors := errors v; warnings := warnings v;
       confidenceScore := calculateConfidenceScore env v;
       algorithmResults := algorithmResults v |}).

(** The seven checks, in the order of the calls *)
Definition runAlgorithms (env : Env) : M unit :=
  validateMathematicalAccuracy ;;
  validateTaxCalculations ;;
  validateTotalAmount ;;
  validateDateLogic env ;;
  analyzePatterns ;;
  validateBusinessLogic ;;
  detectAnomalies env.

(** The body of the [try] block, from the first check to [return validation] *)
Definition runChecks (env : Env) : M Validation :=
  runAlgorithms env ;;
  setIsValid ;;
  setConfidenceScore env ;;
  fun st => Returned (validation st) st.

(** The store in which the [try] block starts: the caller's bill and the
    object literal bound to [validation]. *)
Definition initialStore (bill : Receipt) : Store :=
  {| billData := bill; validation := initialValidation |}.

(** A call [validateBill(billData)]: what the [try] block returns, or
    what the [catch] block returns. *)
Definition validateBill (env : Env) (bill : Receipt) : Outcome Validation :=
  match runChecks env (initialStore bill) with
  | Returned v st => Returned v st
  | Thrown error st => Returned validationError st
  end.

(** The object that the call returns, and the bill as the call leaves it. *)
Definition result (env : Env) (bill : Receipt) : Validation :=
  match validateBill env bill with
  | Returned v _ => v
  | Thrown _ st => validation st
  end.

Definition billAfter (env : Env) (bill : Receipt) : Receipt :=
  billData (storeOf (validateBill env bill)).

(* ================================================================== *)
(** * An engine to run the examples on *)
(* ================================================================== *)

(** Days from 1970-01-01 to a date of the proleptic Gregorian calendar *)
Definition daysFromCivil (y m d : Z) : Z :=
  let y' := if m <=? 2 then y - 1 else y in
  let era := y' / 400 in
  let yoe := y' - era * 400 in
  let mp := (m + 9) mod 12 in
  let doy := (153 * mp + 2) / 5 + d - 1 in
  let doe := yoe * 365 + yoe / 4 - yoe / 100 + doy in
  era * 146097 + doe - 719468.

Definition isLeapYear (y : Z) : bool :=
  ((y mod 4 =? 0) && negb (y mod 100 =? 0)) || (y mod 400 =? 0).

Definition daysInMonth (y m : Z) : Z :=
  if m =? 2 then (if isLeapYear y then 29 else 28)
  else if (m =? 4) || (m =? 6) || (m =? 9) || (m =? 11) then 30 else 31.

Definition digitValue (c : char) : Z := Z.of_N c - 48.

(** The date-only form [YYYY-MM-DD] of the ECMAScript date-time format,
    which is read as the start of that day in UTC; any other string is an
    Invalid Date for this engine. *)
Definition parseISODate (s : jsstring) : option Z :=
  match s with
  | [y1; y2; y3; y4; h1; m1; m2; h2; d1; d2] =>
    if forallb isDigit [y1; y2; y3; y4; m1; m2; d1; d2]
       && char_eqb h1 45%N && char_eqb h2 45%N
    then
      let y := digitValue y1 * 1000 + digitValue y2 * 100
               + digitValue y3 * 10 + digitValue y4 in
      let m := digitValue m1 * 10 + digitValue m2 in
      let d := digitValue d1 * 10 + digitValue d2 in
      if (1 <=? m) && (m <=? 12) && (1 <=? d) && (d <=? daysInMonth y m)
      then Some (daysFromCivil y m d * msPerDay)
      else None
    else None
  | _ => None
  end.

(** An engine whose local time is UTC plus [offset] milliseconds *)
Definition engine (clock offset lowWarning : Z) : Env :=
  {| now := clock;
     parseDate := parseISODate;
     localTZA := fun _ => offset;
     lowWarningDeduction := lowWarning |}.

(* ================================================================== *)
(** * Regular expressions *)
(* ================================================================== *)

(** The constructs that the parser's patterns use.  A quantifier is greedy;
    [Chars f] is one code unit satisfying [f], which covers a literal, a
    class, an escape such as [\d] and a letter under the [i] flag. *)
Inductive Regex :=
| Eps
| Chars (f : char -> bool)
| Seq (a b : Regex)
| Alt (a b : Regex)
| Star (a : Regex)
| Group (a : Regex)
| Bol
| Eol
| WordBoundary.

(** A position in the subject: the code units before it, nearest first,
    and those after it. *)
Record Pos := {
  before : jsstring;
  after : jsstring
}.

Definition startOf (s : jsstring) : Pos := {| before := []; after := s |}.

Definition advance (p : Pos) : option Pos :=
  match after p with
  | x :: r => Some {| before := x :: before p; after := r |}
  | [] => None
  end.

Definition isWordAt (s : jsstring) : bool :=
  match s with
  | x :: _ => isWordChar x
  | [] => false
  end.

(** The code units from position [p] to the later position [q] *)
Definition consumed (p q : Pos) : jsstring :=
  firstn (List.length (before q) - List.length (before p)) (after p).

(** Backtracking matcher: [matchRegex r k p c] matches [r] at [p] and hands
    the position reached and the captures to the continuation [k]; the
    alternatives are tried in the order of ECMAScript.  An iteration of
    [Star] that consumes nothing is rejected, as the language requires. *)
Fixpoint matchRegex {R} (r : Regex) (k : Pos -> list jsstring -> option R)
         (p : Pos) (c : list jsstring) : option R :=
  match r with
  | Eps => k p c
  | Chars f =>
    match after p with
    | x :: rest => if f x then k {| before := x :: before p; after := rest |} c
                   else None
    | [] => None
    end
  | Seq a b => matchRegex a (matchRegex b k) p c
  | Alt a b =>
    match matchRegex a k p c with
    | Some x => Some x
    | None => matchRegex b k p c
    end
  | Star a =>
    (fix loop (n : nat) (p : Pos) (c : list jsstring) : option R :=
       match n with
       | O => k p c
       | S n' =>
         match matchRegex a
                 (fun p' c' =>
                    if (List.length (after p') <? List.length (after p))%nat
                    then loop n' p' c' else None) p c with
         | Some x => Some x
         | None => k p c
         end
       end) (List.length (after p)) p c
  | Group a => matchRegex a (fun p' c' => k p' (c' ++ [consumed p p'])) p c
  | Bol => match before p with [] => k p c | _ => None end
  | Eol => match after p with [] => k p c | _ => None end
  | WordBoundary =>
    if xorb (isWordAt (before p)) (isWordAt (after p)) then k p c else None
  end.

(** A match: where it starts, where it ends, and its captures *)
Record Match := {
  matchStart : Pos;
  matchEnd : Pos;
  captures : list jsstring
}.

(** [m[0]] and [m[1]] *)
Definition matched (m : Match) : jsstring := consumed (matchStart m) (matchEnd m).
Definition capture1 (m : Match) : jsstring := hd [] (captures m).

Definition matchAt (r : Regex) (p : Pos) : option Match :=
  matchRegex r (fun q c => Some {| matchStart := p; matchEnd := q; captures := c |}) p [].

(** The leftmost match at or after [p] *)
Fixpoint searchFrom (r : Regex) (fuel : nat) (p : Pos) : option Match :=
  match matchAt r p with
  | Some m => Some m
  | None =>
    match fuel with
    | O => None
    | S fuel' =>
      match advance p with
      | Some p' => searchFrom r fuel' p'
      | None => None
      end
    end
  end.

(** [string.match(r)] and [r.exec(string)] without the [g] flag *)
Definition exec (r : Regex) (s : jsstring) : option Match :=
  searchFrom r (List.length s) (startOf s).

(** [r.test(string)] *)
Definition test (r : Regex) (s : jsstring) : bool :=
  match exec r s with
  | Some _ => true
  | None => false
  end.

(** The successive matches of a pattern with the [g] flag; after an empty
    match the search resumes one code unit further. *)
Fixpoint matchesFrom (r : Regex) (fuel : nat) (p : Pos) : list Match :=
  match fuel with
  | O => []
  | S fuel' =>
    match searchFrom r (List.length (after p)) p with
    | None => []
    | Some m =>
      let q := matchEnd m in
      if (List.length (after q) <? List.length (after (matchStart m)))%nat
      then m :: matchesFrom r fuel' q
      else match advance q with
           | Some q' => m :: matchesFrom r fuel' q'
           | None => [m]
           end
    end
  end.

(** [[...string.matchAll(r)]] *)
Definition matchAll (r : Regex) (s : jsstring) : list Match :=
  matchesFrom r (S (List.length s)) (startOf s).

(** The text of the subject from [p] up to the start of the match [m] *)
Definition upTo (p : Pos) (m : Match) : jsstring := consumed p (matchStart m).

Fixpoint spliceAll (ms : list Match) (p : Pos) (by_ : jsstring) : jsstring :=
  match ms with
  | [] => after p
  | m :: r => upTo p m ++ by_ ++ spliceAll r (matchEnd m) by_
  end.

(** [string.replace(r, by)] with the [g] flag, and without it *)
Definition replaceAll (r : Regex) (by_ : jsstring) (s : jsstring) : jsstring :=
  spliceAll (matchAll r s) (startOf s) by_.

Definition replaceFirst (r : Regex) (by_ : jsstring) (s : jsstring) : jsstring :=
  match exec r s with
  | Some m => spliceAll [m] (startOf s) by_
  | None => s
  end.

(** [string.replace(pattern, by)] for a string pattern: its first occurrence *)
Fixpoint replaceString (pattern by_ : jsstring) (s : jsstring) : jsstring :=
  if startsWith pattern s then by_ ++ skipn (List.length pattern) s
  else match s with
       | [] => []
       | x :: r => x :: replaceString pattern by_ r
       end.

(** ** Writing patterns *)

Local Open Scope N_scope.

Definition isChar (c : char) : char -> bool := fun x => char_eqb x c.

(** A letter of a pattern under the [i] flag; only ASCII letters have an
    ASCII counterpart in the other case. *)
Definition isCI (c : char) : char -> bool :=
  fun x => char_eqb x c
           || (isUpper c && char_eqb x (c + 32))
           || (isLower c && char_eqb x (c - 32)).

Definition lit (s : string) : Regex :=
  fold_right (fun c r => Seq (Chars (isChar c)) r) Eps (str s).

Definition litCI (s : string) : Regex :=
  fold_right (fun c r => Seq (Chars (isCI c)) r) Eps (str s).

(** [(?:a|b|...)] *)
Definition alts (l : list Regex) : Regex :=
  match l with
  | [] => Eps
  | x :: r => fold_left Alt r x
  end.

Definition plus (r : Regex) : Regex := Seq r (Star r).
Definition opt (r : Regex) : Regex := Alt r Eps.

(** [r{n}] and [r{min,max}] *)
Fixpoint times (n : nat) (r : Regex) : Regex :=
  match n with
  | O => Eps
  | S n' => Seq r (times n' r)
  end.

Fixpoint upToTimes (n : nat) (r : Regex) : Regex :=
  match n with
  | O => Eps
  | S n' => opt (Seq r (upToTimes n' r))
  end.

Definition range (min max : nat) (r : Regex) : Regex :=
  Seq (times min r) (upToTimes (max - min) r).

Definition digit : Regex := Chars isDigit.
Definition space : Regex := Chars isWhiteSpace.
Definition anyChar : Regex := Chars (fun x => negb (isLineTerminator x)).

Local Close Scope N_scope.

(* ================================================================== *)
(** * Reading numerals and writing dates *)
(* ================================================================== *)

(** The integer that a run of decimal digits denotes *)
Definition digitsValue (ds : jsstring) : N :=
  fold_left (fun acc c => (acc * 10 + (c - 48))%N) ds 0%N.

Fixpoint takeDigits (s : jsstring) : jsstring :=
  match s with
  | c :: r => if isDigit c then c :: takeDigits r else []
  | [] => []
  end.

Fixpoint pow10 (n : nat) : positive :=
  match n with
  | O => 1
  | S n' => 10 * pow10 n'
  end.

(** [parseInt(string)] in radix 10 *)
Definition parseInt (s : jsstring) : number :=
  let s := trimStart s in
  let '(negative, s) :=
    match s with
    | c :: r => if char_eqb c 45 then (true, r)
                else if char_eqb c 43 then (false, r) else (false, s)
    | [] => (false, s)
    end in
  match takeDigits s with
  | [] => nan
  | ds => let n := ofZ (Z.of_N (digitsValue ds)) in
          if negative then (- n)%float else n
  end.

(** [parseFloat(string)] for a numeral without an exponent part, which is
    the only kind that the parser hands to it. *)
Definition parseFloat (s : jsstring) : number :=
  let s := trimStart s in
  let '(negative, s) :=
    match s with
    | c :: r => if char_eqb c 45 then (true, r)
                else if char_eqb c 43 then (false, r) else (false, s)
    | [] => (false, s)
    end in
  let int := takeDigits s in
  let rest := skipn (List.length int) s in
  let frac := match rest with
              | c :: r => if char_eqb c 46 then takeDigits r else []
              | [] => []
              end in
  match int ++ frac with
  | [] => nan
  | ds =>
    let n := ofRatio (Z.of_N (digitsValue ds)) (pow10 (List.length frac)) in
    if negative then (- n)%float else n
  end.

(** The civil date of a day number (days since 1970-01-01) *)
Definition civilFromDays (z : Z) : Z * Z * Z :=
  let z := z + 719468 in
  let era := z / 146097 in
  let doe := z - era * 146097 in
  let yoe := (doe - doe / 1460 + doe / 36524 - doe / 146096) / 365 in
  let doy := doe - (365 * yoe + yoe / 4 - yoe / 100) in
  let mp := (5 * doy + 2) / 153 in
  let d := doy - (153 * mp + 2) / 5 + 1 in
  let m := if mp <? 10 then mp + 3 else mp - 9 in
  let y := yoe + era * 400 + (if m <=? 2 then 1 else 0) in
  (y, m, d).

Definition padded (width : nat) (z : Z) : jsstring :=
  let ds := decimalString z in
  repeat 48%N (width - List.length ds) ++ ds.

(** The date part of [toISOString] for a valid time value *)
Definition isoDate (t : Z) : jsstring :=
  let '(y, m, d) := civilFromDays (t / msPerDay) in
  let year := if (0 <=? y) && (y <=? 9999) then padded 4 y
              else (if y <? 0 then 45%N else 43%N) :: padded 6 (Z.abs y) in
  year ++ [45%N] ++ padded 2 m ++ [45%N] ++ padded 2 d.

(* ================================================================== *)
(** * BillParser *)
(* ================================================================== *)

Definition seqs (l : list Regex) : Regex := fold_right Seq Eps l.

Definition oneOf (s : string) : Regex :=
  Chars (fun x => existsb (char_eqb x) (str s)).

(** ** The constructor's patterns *)

Definition monthsShort : Regex :=
  alts (map litCI ["Jan"; "Feb"; "Mar"; "Apr"; "May"; "Jun"; "Jul"; "Aug";
                   "Sep"; "Oct"; "Nov"; "Dec"]%string).

Definition monthsLong : Regex :=
  alts (map litCI ["January"; "February"; "March"; "April"; "May"; "June";
                   "July"; "August"; "September"; "October"; "November";
                   "December"]%string).

Definition datePatterns : list Regex :=
  [ seqs [Group (range 1 2 digit); oneOf "/-"; Group (range 1 2 digit);
          oneOf "/-"; Group (range 2 4 digit)];
    seqs [Group (range 2 4 digit); oneOf "/-"; Group (range 1 2 digit);
          oneOf "/-"; Group (range 1 2 digit)];
    seqs [Group (range 1 2 digit); Star space; Group monthsShort; Star space;
          Group (range 2 4 digit)];
    seqs [Group (range 1 2 digit); Star space; Group monthsLong; Star space;
          Group (range 2 4 digit)] ].

(** [\d+(?:,\d{3})*(?:\.\d{2})?] *)
Definition amount : Regex :=
  seqs [plus digit; Star (seqs [lit ","; times 3 digit]);
        opt (seqs [lit "."; times 2 digit])].

Definition pricePatterns : list Regex :=
  [ seqs [lit "₹"; Star space; Group amount];
    seqs [lit "Rs"; opt (lit "."); Star space; Group amount];
    seqs [lit "INR"; Star space; Group amount];
    seqs [Group amount; Star space; lit "₹"] ].

(** ** Lines *)

Definition preprocessText (text : jsstring) : list jsstring :=
  map (fun line => replaceAll (plus space) (str " ") line)
      (filter (fun line => (0 <? List.length line)%nat)
              (map trim (split text 10%N))).

(** ** The date *)

(** [date.toISOString().split('T')[0]]; [toISOString] throws on an
    Invalid Date. *)
Definition toISODate (date : option Z) : Completion jsstring :=
  match date with
  | Some t => Normal (isoDate t)
  | None => Raised (RangeError "Invalid time value")
  end.

(** [try { ... } catch { return dateString; }] around the conversion, which
    is attempted when [!isNaN(date.getTime())]. *)
Definition formatDate (env : Env) (dateString : jsstring) : jsstring :=
  let date := parseDate env dateString in
  let isNaN := match date with Some _ => false | None => true end in
  if negb isNaN then
    match toISODate date with
    | Normal s => s
    | Raised _ => dateString
    end
  else dateString.

Fixpoint firstMatching (patterns : list Regex) (line : jsstring) : option Match :=
  match patterns with
  | [] => None
  | pattern :: rest =>
    match matchAll pattern line with
    | m :: _ => Some m
    | [] => firstMatching rest line
    end
  end.

Definition findDateInLine (env : Env) (line : jsstring) : option jsstring :=
  match firstMatching datePatterns line with
  | Some m => Some (formatDate env (matched m))
  | None => None
  end.

(** [for (const line of lines) { const r = f(line); if (r) return r; }];
    the empty string is falsy as well. *)
Fixpoint firstTruthy (f : jsstring -> option jsstring) (lines : list jsstring)
  : option jsstring :=
  match lines with
  | [] => None
  | line :: rest =>
    match f line with
    | Some (c :: r) => Some (c :: r)
    | _ => firstTruthy f rest
    end
  end.

Definition orEmpty (o : option jsstring) : jsstring :=
  match o with
  | Some s => s
  | None => []
  end.

Definition extractDate (env : Env) (lines : list jsstring) : jsstring :=
  let dateKeywords := ["date"; "dt"; "dated"; "bill date"; "invoice date"]%string in
  match firstTruthy (fun line =>
                       if someKeyword dateKeywords (toLowerCase line)
                       then findDateInLine env line else None) lines with
  | Some d => d
  | None => orEmpty (firstTruthy (findDateInLine env) lines)
  end.

(** ** Store name, address, bill number *)

Definition extractStoreName (lines : list jsstring) : jsstring :=
  let storeKeywords :=
    ["store"; "mart"; "shop"; "market"; "retail"; "supermarket"; "grocery"]%string in
  let candidate :=
    find (fun line =>
            (5 <? List.length line)%nat && (List.length line <? 50)%nat
            && (someKeyword storeKeywords (toLowerCase line)
                || test (seqs [Bol; plus (Chars (fun x => isUpper x || isWhiteSpace x
                                                          || char_eqb x 38%N)); Eol]) line
                || includes line (str "LTD") || includes line (str "PVT")))
         (firstn 3 lines) in
  match candidate with
  | Some line => line
  | None =>
    match lines with
    | first :: _ => if (3 <? List.length first)%nat then first else []
    | [] => []
    end
  end.

Definition extractStoreAddress (lines : list jsstring) : jsstring :=
  let addressKeywords :=
    ["address"; "add"; "location"; "street"; "road"; "avenue"; "pin"; "pincode"]%string in
  match find (fun line => someKeyword addressKeywords (toLowerCase line)) lines with
  | Some line => line
  | None =>
    let looksLikeAddress :=
      seqs [plus digit; Star anyChar;
            alts (map litCI ["street"; "road"; "avenue"; "lane"; "block"; "plot";
                             "house"; "building"]%string)] in
    match find (test looksLikeAddress) lines with
    | Some line => line
    | None => []
    end
  end.

Definition extractBillNumber (lines : list jsstring) : jsstring :=
  let billKeywords := ["bill"; "invoice"; "receipt"; "no"; "number"; "#"]%string in
  let code :=
    seqs [alts [litCI "bill"; litCI "invoice"; litCI "receipt";
                Seq (litCI "no") (opt (lit ".")); lit "#"];
          Star space; opt (lit ":"); Star space;
          Group (plus (Chars (fun x => isLetter x || isDigit x || char_eqb x 45%N)))] in
  match firstTruthy (fun line =>
                       if someKeyword billKeywords (toLowerCase line)
                       then option_map capture1 (exec code line) else None) lines with
  | Some c => c
  | None =>
    let standalone :=
      seqs [Bol; range 3 15 (Chars (fun x => isUpper x || isDigit x || char_eqb x 45%N));
            Eol] in
    match find (fun line => test standalone (trim line)) lines with
    | Some line => trim line
    | None => []
    end
  end.

(** ** Prices and items *)

(** [parseFloat(priceStr.replace(/,/g, ''))] of the last match of the first
    pattern that matches; [None] is [null]. *)
Fixpoint lastPrice (patterns : list Regex) (line : jsstring) : option number :=
  match patterns with
  | [] => None
  | pattern :: rest =>
    match rev (matchAll pattern line) with
    | lastMatch :: _ =>
      let priceStr := match capture1 lastMatch with
                      | [] => matched lastMatch
                      | c => c
                      end in
      Some (parseFloat (replaceAll (lit ",") [] priceStr))
    | [] => lastPrice rest line
    end
  end.

Definition extractPriceFromLine (line : jsstring) : option number :=
  lastPrice pricePatterns line.

(** A Number as a condition: [0], [-0] and NaN are falsy. *)
Definition truthy (x : number) : bool := negb (strictEq x 0%float || is_nan x).

Definition totalsLabel : Regex :=
  Seq (alts (map litCI ["total"; "subtotal"; "tax"; "gst"; "amount"; "discount"]%string))
      (lit ":").

Definition looksLikeItemLine (line : jsstring) : bool :=
  let hasPrice := match extractPriceFromLine line with Some _ => true | None => false end in
  let hasText := test (Seq (times 2 (Chars isLetter)) (Star (Chars isLetter))) line in
  let isNotTotal := negb (test totalsLabel line) in
  hasPrice && hasText && isNotTotal && (5 <? List.length line)%nat.

Definition priceRegex : Regex :=
  alts [ seqs [lit "₹"; Star space; amount];
         seqs [amount; Star space; lit "₹"];
         seqs [lit "Rs"; opt (lit "."); Star space; amount] ].

(** [/(\d+)\s*(?:x|pcs?|kg|gm?|ml|ltr?)\b/i]: the count, then the unit *)
Definition quantityUnit : Regex :=
  seqs [Star space;
        alts [litCI "x"; Seq (litCI "pc") (opt (litCI "s")); litCI "kg";
              Seq (litCI "g") (opt (litCI "m")); litCI "ml";
              Seq (litCI "lt") (opt (litCI "r"))];
        WordBoundary].

Definition quantityMarker : Regex := Seq (Group (plus digit)) quantityUnit.

(** The line without its prices, in which the quantity is looked for *)
Definition descriptionOf (line : jsstring) : jsstring :=
  trim (replaceAll priceRegex [] line).

Definition parseItemLine (line : jsstring) : option LineItem :=
  match extractPriceFromLine line with
  | None => None
  | Some price =>
    if negb (truthy price) then None
    else
      let itemDescription := descriptionOf line in
      let qtyMatch := exec quantityMarker itemDescription in
      let quantity := match qtyMatch with
                      | Some m => parseInt (capture1 m)
                      | None => 1%float
                      end in
      let itemDescription :=
        match qtyMatch with
        | Some m => trim (replaceString (matched m) [] itemDescription)
        | None => itemDescription
        end in
      let itemDescription :=
        trim (replaceAll (plus space) (str " ")
                (replaceFirst (seqs [Bol; plus digit; opt (lit "."); Star space]) []
                              itemDescription)) in
      if (List.length itemDescription <? 2)%nat then None
      else
        let unitPrice := (price / quantity)%float in
        Some {| name := itemDescription;
                quantity := quantity;
                unitPrice := roundTo2 unitPrice;
                price := roundTo2 price |}
  end.

(** The first loop of [extractItems]: the bounds of the item section.
    The state is [inItemSection], [itemStartIndex] ([None] for -1) and
    [itemEndIndex]; the loop stops at the [break]. *)
Fixpoint itemSection (lines : list jsstring) (i : nat) (inItemSection : bool)
         (itemStartIndex : option nat) (itemEndIndex : nat) : option nat * nat :=
  match lines with
  | [] => (itemStartIndex, itemEndIndex)
  | line :: rest =>
    let itemStartKeywords :=
      ["item"; "product"; "description"; "===="; "----"; "qty"; "quantity"]%string in
    let itemEndKeywords :=
      ["subtotal"; "sub total"; "total"; "tax"; "gst"; "===="; "----"; "discount";
       "amount"]%string in
    let lowerLine := toLowerCase line in
    let starts := negb inItemSection
                  && (someKeyword itemStartKeywords lowerLine || looksLikeItemLine line) in
    let inItemSection' := inItemSection || starts in
    let itemStartIndex' := if starts then Some i else itemStartIndex in
    if inItemSection' && someKeyword itemEndKeywords lowerLine
       && negb (looksLikeItemLine line)
    then (itemStartIndex', i)
    else itemSection rest (S i) inItemSection' itemStartIndex' itemEndIndex
  end.

(** [Array.prototype.slice(from, to)] *)
Definition slice {A} (l : list A) (from to : nat) : list A :=
  firstn (to - from) (skipn from l).

Fixpoint filterMap {A B} (f : A -> option B) (l : list A) : list B :=
  match l with
  | [] => []
  | x :: r => match f x with
              | Some y => y :: filterMap f r
              | None => filterMap f r
              end
  end.

Definition extractItems (lines : list jsstring) : list LineItem :=
  let '(itemStartIndex, itemEndIndex) :=
    itemSection lines 0 false None (List.length lines) in
  let from := match itemStartIndex with Some i => i | None => 0%nat end in
  filterMap parseItemLine (slice lines from itemEndIndex).

(** ** Totals *)

(** The five numeric fields of the bill under construction *)
Record Totals := {
  t_subtotal : number;
  t_tax : number;
  t_taxRate : number;
  t_discount : number;
  t_total : number
}.

(** [Math.max] of two Numbers *)
Definition Math_max (a b : number) : number :=
  if is_nan a || is_nan b then nan
  else if lt a b then b
  else if lt b a then a
  else if get_sign a then b else a.

Definition positivePrice (line : jsstring) : option number :=
  match extractPriceFromLine line with
  | Some price => if truthy price && gt price 0%float then Some price else None
  | None => None
  end.

(** One turn of the loop of [extractFinancialTotals] *)
Definition extractTotalsFromLine (line : jsstring) (b : Totals) : Totals :=
  let lowerLine := toLowerCase line in
  let has := fun k => includes lowerLine (str k) in
  let b :=
    if someKeyword ["subtotal"; "sub total"; "sub-total"; "amount"]%string lowerLine
       && negb (has "tax"%string) && negb (has "total"%string)
    then match positivePrice line with
         | Some price =>
           {| t_subtotal := price; t_tax := t_tax b; t_taxRate := t_taxRate b;
              t_discount := t_discount b; t_total := t_total b |}
         | None => b
         end
    else b in
  let b :=
    if someKeyword ["tax"; "gst"; "vat"; "cgst"; "sgst"; "igst"]%string lowerLine
    then match extractPriceFromLine line with
         | Some price =>
           if truthy price && (0 <=? price)%float then
             let rateMatch :=
               exec (seqs [Group (Seq (plus digit) (opt (Seq (lit ".") (plus digit))));
                           Star space; lit "%"]) line in
             {| t_subtotal := t_subtotal b;
                t_tax := (t_tax b + price)%float;
                t_taxRate := match rateMatch with
                             | Some m => Math_max (t_taxRate b) (parseFloat (capture1 m))
                             | None => t_taxRate b
                             end;
                t_discount := t_discount b; t_total := t_total b |}
           else b
         | None => b
         end
    else b in
  let b :=
    if someKeyword ["discount"; "off"; "reduction"]%string lowerLine
    then match positivePrice line with
         | Some price =>
           {| t_subtotal := t_subtotal b; t_tax := t_tax b; t_taxRate := t_taxRate b;
              t_discount := price; t_total := t_total b |}
         | None => b
         end
    else b in
  if someKeyword ["total"; "grand total"; "final total"; "net total";
                  "amount payable"]%string lowerLine
     && negb (has "sub"%string)
  then match positivePrice line with
       | Some price =>
         {| t_subtotal := t_subtotal b; t_tax := t_tax b; t_taxRate := t_taxRate b;
            t_discount := t_discount b; t_total := price |}
       | None => b
       end
  else b.

Definition extractFinancialTotals (lines : list jsstring) (b : Totals) : Totals :=
  fold_left (fun b line => extractTotalsFromLine line b) lines b.

(** [calculateDerivedValues], on the five fields and the items *)
Definition calculateDerivedValues (items : list LineItem) (b : Totals) : Totals :=
  let subtotal :=
    if strictEq (t_subtotal b) 0%float && (0 <? List.length items)%nat
    then sumPrices items else t_subtotal b in
  let taxRate :=
    if strictEq (t_taxRate b) 0%float && gt subtotal 0%float && gt (t_tax b) 0%float
    then (t_tax b / subtotal * 100)%float else t_taxRate b in
  let total :=
    if strictEq (t_total b) 0%float
    then (subtotal + t_tax b - t_discount b)%float else t_total b in
  {| t_subtotal := roundTo2 subtotal;
     t_tax := roundTo2 (t_tax b);
     t_taxRate := roundTo2 taxRate;
     t_discount := roundTo2 (t_discount b);
     t_total := roundTo2 total |}.

(** Modelled from the spec: the test for the dollar sign, whose string
    literals the source text has lost. *)
Definition detectCurrency (text : jsstring) : jsstring :=
  if includes text (str "₹") || includes text (str "Rs") || includes text (str "INR")
  then str "₹"
  else if includes text (str "$") then str "$"
  else if includes text (str "€") then str "€"
  else if includes text (str "£") then str "£"
  else str "₹".

(** ** [parseBillData] *)

(** What a caller may pass for [ocrText] *)
Inductive Value :=
| VNull
| VUndefined
| VString (s : jsstring).

(** The body of the [try] block.  [text.split] on [null] or [undefined] is
    the one step of it that throws. *)
Definition parseBody (env : Env) (ocrText : Value) : Completion Receipt :=
  match ocrText with
  | VNull => Raised (TypeError "Cannot read properties of null (reading 'split')")
  | VUndefined =>
    Raised (TypeError "Cannot read properties of undefined (reading 'split')")
  | VString text =>
    let lines := preprocessText text in
    let items := extractItems lines in
    let zero := {| t_subtotal := 0; t_tax := 0; t_taxRate := 0; t_discount := 0;
                   t_total := 0 |} in
    let b := calculateDerivedValues items (extractFinancialTotals lines zero) in
    Normal {| date := extractDate env lines;
              storeName := extractStoreName lines;
              storeAddress := extractStoreAddress lines;
              billNumber := extractBillNumber lines;
              items := items;
              subtotal := t_subtotal b;
              tax := t_tax b;
              taxRate := t_taxRate b;
              discount := t_discount b;
              total := t_total b;
              currency := detectCurrency text;
              rawText := text |}
  end.

(** [throw new Error(`Bill parsing failed: ${error.message}`)] *)
Definition parseBillData (env : Env) (ocrText : Value) : Completion Receipt :=
  match parseBody env ocrText with
  | Normal billData => Normal billData
  | Raised error => Raised (Error ("Bill parsing failed: " ++ messageOf error))
  end.

(* ================================================================== *)
(** * The vocabulary of the properties *)
(* ================================================================== *)

(** A property of the store that a computation keeps, whether it returns
    or throws; a computation that always returns. *)
Definition preserves {A} (P : Store -> Prop) (m : M A) : Prop :=
  forall st, P st -> P (storeOf (m st)).

Definition neverThrows {A} (m : M A) : Prop :=
  forall st, exists a st', m st = Returned a st'.

(** ** The math check *)

Definition subtotalDeviation (b : Receipt) : number :=
  Math_abs (sumPrices (items b) - subtotal b)%float.

Definition itemDeviation (item : LineItem) : number :=
  Math_abs (quantity item * unitPrice item - price item)%float.

Definition subtotalMismatch : Issue := issue MATH_ERROR high (Some F_subtotal).
Definition itemMismatch (index : nat) : Issue :=
  issue MATH_ERROR medium (Some (F_itemPrice index)).

Fixpoint itemErrors (l : list LineItem) (index : nat) : list Issue :=
  match l with
  | [] => []
  | item :: r =>
    (if gt (itemDeviation item) 0.01%float then [itemMismatch index] else [])
    ++ itemErrors r (S index)
  end.

Definition mathErrors (b : Receipt) : list Issue :=
  (if gt (subtotalDeviation b) 0.01%float then [subtotalMismatch] else [])
  ++ itemErrors (items b) 0.

(** ** The tax check *)

Definition actualTaxRateOf (b : Receipt) : number :=
  (tax b / subtotal b * 100)%float.

Definition closestRateTo (actualRate : number) : number :=
  match reduce1 (closerRate actualRate) indianTaxRates with
  | Some r => r
  | None => nan
  end.

Definition rateDeviation (b : Receipt) : number :=
  Math_abs (actualTaxRateOf b - closestRateTo (actualTaxRateOf b))%float.

Definition taxDeviation (b : Receipt) : number :=
  Math_abs (subtotal b * closestRateTo (actualTaxRateOf b) / 100 - tax b)%float.

Definition taxMismatch : Issue := issue TAX_ERROR medium (Some F_tax).

Definition taxErrors (b : Receipt) : list Issue :=
  (if gt (rateDeviation b) 0.5%float then [taxMismatch] else [])
  ++ (if gt (taxDeviation b) 0.01%float then [taxMismatch] else []).

(** ** The total check *)

Definition totalDeviation (b : Receipt) : number :=
  Math_abs (subtotal b + tax b - discount b - total b)%float.

Definition totalMismatch : Issue := issue TOTAL_ERROR high (Some F_total).

(** ** The date check *)

Definition futureDate : Issue := issue DATE_ERROR high (Some F_date).

Definition daysDifferenceOf (env : Env) (b : Receipt) : option Q :=
  daysDifference env (parseDate env (date b)).

(** The instant at which the day after the clock's day starts, for a
    calendar that is [offset] milliseconds ahead of UTC. *)
Definition startOfTomorrow (offset clock : Z) : Z :=
  ((clock + offset) / msPerDay + 1) * msPerDay - offset.

(** The calendar day of the instant [t], counted from 1970-01-01, in UTC
    and in local time; the instant that [new Date] reads from the date-only
    string of day [d], which is the start of that day in UTC. *)
Definition utcDay (t : Z) : Z := t / msPerDay.
Definition localDay (env : Env) (t : Z) : Z := (t + localTZA env t) / msPerDay.
Definition midnightUTC (d : Z) : Z := d * msPerDay.

(** ** Stores on the way *)

(** The store in which [detectAnomalies] starts *)
Definition beforeAnomalies (env : Env) (b : Receipt) : Store :=
  storeOf ((validateMathematicalAccuracy ;; validateTaxCalculations ;;
            validateTotalAmount ;; validateDateLogic env ;; analyzePatterns ;;
            validateBusinessLogic) (initialStore b)).

(** Two stores that differ in [errors] at most, the second having the
    entries [l] more *)
Definition addsErrors (st st' : Store) (l : list Issue) : Prop :=
  billData st' = billData st
  /\ errors (validation st') = errors (validation st) ++ l
  /\ warnings (validation st') = warnings (validation st)
  /\ algorithmResults (validation st') = algorithmResults (validation st).

(** ** The score *)

Definition sumOver {A} (f : A -> Z) (l : list A) : Z :=
  fold_right (fun x acc => f x + acc) 0 l.

Definition errorPoints (i : Issue) : Z := errorDeduction (severity i).
Definition warningPoints (env : Env) (i : Issue) : Z :=
  warningDeduction env (severity i).

(** ** Flags *)

Definition flagIs (f : AlgorithmResults -> option bool) (v : Validation) : Prop :=
  f (algorithmResults v) = Some true.

(** ** Parsing *)

(** A bill that [parseBillData] returns for a text *)
Definition parsesTo (env : Env) (text : jsstring) (b : Receipt) : Prop :=
  parseBillData env (VString text) = Normal b.

(** The totals that the parser has read from printed lines, before
    [calculateDerivedValues] *)
Definition printedTotals (text : jsstring) : Totals :=
  extractFinancialTotals (preprocessText text)
    {| t_subtotal := 0; t_tax := 0; t_taxRate := 0; t_discount := 0; t_total := 0 |}.


(** The items of the bill that [parseBillData] returns for a text *)
Definition itemsOf (env : Env) (text : jsstring) : list LineItem :=
  match parseBillData env (VString text) with
  | Normal b => items b
  | Raised _ => []
  end.


(** The position [q] lies after [p] in the same subject, the code units
    [l] between them. *)
Definition reaches (l : jsstring) (p q : Pos) : Prop :=
  after p = l ++ after q /\ before q = rev l ++ before p.


(* ================================================================== *)
(** * Example bills and texts *)
(* ================================================================== *)

(** Noon UTC on Monday 2025-06-16; local time six hours ahead of UTC, so
    that the start of a UTC day is 6 o'clock; 2 points for a low warning. *)
Definition exampleClock : Z := daysFromCivil 2025 6 16 * msPerDay + 12 * msPerHour.
Definition exampleEnv : Env := engine exampleClock (6 * msPerHour) 2.

(** 20:30 UTC on the same Monday, in a time zone five and a half hours
    ahead of UTC, where it is 02:00 on Tuesday 2025-06-17. *)
Definition eveningClock : Z := daysFromCivil 2025 6 16 * msPerDay + 41 * msPerHour / 2.
Definition afterMidnightEnv : Env := engine eveningClock (11 * msPerHour / 2) 2.

Definition rice : LineItem :=
  {| name := str "Rice"; quantity := 1; unitPrice := 85; price := 85 |}.

Definition bill (d : string) (l : list LineItem) (sub tx rate disc tot : number)
  : Receipt :=
  {| date := str d; storeName := str "SUPER MARKET"; storeAddress := [];
     billNumber := str "SM-1"; items := l; subtotal := sub; tax := tx;
     taxRate := rate; discount := disc; total := tot; currency := str "₹";
     rawText := [] |}.

Definition scenario1 : Receipt := bill "2025-06-16" [rice] 85 4.25 5 0 89.25.
Definition scenario2 : Receipt := bill "2025-06-16" [rice] 90 4.25 5 0 89.25.
Definition scenario3 : Receipt := bill "2025-06-16" [rice] 85 10 5 0 89.25.
Definition datedTomorrow : Receipt := bill "2025-06-17" [rice] 85 4.25 5 0 89.25.
Definition datedInTwoDays : Receipt := bill "2025-06-18" [rice] 85 4.25 5 0 89.25.
Definition allDefault : Receipt :=
  {| date := []; storeName := []; storeAddress := []; billNumber := [];
     items := []; subtotal := 0; tax := 0; taxRate := 0; discount := 0;
     total := 0; currency := str "₹"; rawText := [] |}.

(** Ten items of half a rupee: every price is written with a leading 0. *)
Definition gum : LineItem :=
  {| name := str "Gum"; quantity := 1; unitPrice := 0.5; price := 0.5 |}.
Definition tenHalves : Receipt := bill "2025-06-16" (repeat gum 10) 5 0.25 5 0 5.25.

(** An item whose name, in lower case, is a property of [Object.prototype] *)
Definition constructorItem : LineItem :=
  {| name := str "Constructor"; quantity := 1; unitPrice := 85; price := 85 |}.
Definition constructorBill : Receipt :=
  bill "2025-06-16" [constructorItem] 85 4.25 5 0 89.25.

(** Deviations of exactly 0.01 and of 0.011 *)
Definition paisa : LineItem :=
  {| name := str "Bag"; quantity := 1; unitPrice := 0; price := 0.01 |}.
Definition paisaMore : LineItem :=
  {| name := str "Bag"; quantity := 1; unitPrice := 0; price := 0.011 |}.
Definition offByPaisa : Receipt := bill "2025-06-16" [paisa] 0 0 0 0 0.01.
Definition offByMore : Receipt := bill "2025-06-16" [paisaMore] 0 0 0 0 0.011.

(** Printed amounts one paisa apart: 85.00 in the item, 85.01 as subtotal *)
Definition printedPaisaApart : Receipt := bill "2025-06-16" [rice] 85.01 4.25 5 0 89.26.

(** One paisa apart twice: one unit at 85.00 is charged 85.01, and the
    subtotal is printed as 85.00.  The same at 350.00 and 350.01. *)
Definition riceOnePaisaOff : LineItem :=
  {| name := str "Rice"; quantity := 1; unitPrice := 85; price := 85.01 |}.
Definition onePaisaApart : Receipt :=
  bill "2025-06-16" [riceOnePaisaOff] 85 4.25 5 0 89.25.
Definition teaOnePaisaOff : LineItem :=
  {| name := str "Tea"; quantity := 1; unitPrice := 350; price := 350.01 |}.
Definition onePaisaApartAt350 : Receipt :=
  bill "2025-06-16" [teaOnePaisaOff] 350 17.5 5 0 367.5.

Definition newline : string := String (ascii_of_nat 10) EmptyString.
Definition text (l : list string) : jsstring := str (String.concat newline l).


Definition threeItemsText : jsstring :=
  text ["Rice Basmati 2 kg   ₹85.00"; "3. Eggs 12pcs Rs. 1,260.50";
        "Bread 30.00 ₹"]%string.

(** The bill that the parser returns for the three lines *)
Definition threeItemsBill : Receipt :=
  match parseBillData exampleEnv (VString threeItemsText) with
  | Normal b => b
  | Raised _ => allDefault
  end.



(* ================================================================== *)
(** * BillParser: the self-check and the metadata *)
(* ================================================================== *)

(** The object that [validateParsedData] returns: [isValid] and [issues] *)
Record ParsedDataCheck := {
  dataIsValid : bool;
  issues : list string
}.

(** [if (c) issues.push(message)] *)
Definition pushIf (c : bool) (message : string) (issues : list string) : list string :=
  if c then issues ++ [message] else issues.

Definition validateParsedData (billData : Receipt) : ParsedDataCheck :=
  let issues := [] in
  let issues := pushIf (Nat.eqb (List.length (items billData)) 0)
                       "No items found in bill" issues in
  let issues := pushIf (total billData <=? 0)%float
                       "Invalid or missing total amount" issues in
  let issues := pushIf (subtotal billData <=? 0)%float
                       "Invalid or missing subtotal" issues in
  let calculatedSubtotal := sumPrices (items billData) in
  let issues := pushIf (gt (Math_abs (calculatedSubtotal - subtotal billData)%float)
                           0.01%float)
                       "Subtotal does not match sum of items" issues in
  let calculatedTotal := (subtotal billData + tax billData - discount billData)%float in
  let issues := pushIf (gt (Math_abs (calculatedTotal - total billData)%float)
                           0.01%float)
                       "Total does not match subtotal + tax - discount" issues in
  let issues := pushIf (gt (taxRate billData) 50%float)
                       "Tax rate seems unreasonably high" issues in
  let issues := pushIf (gt (discount billData) (subtotal billData))
                       "Discount exceeds subtotal" issues in
  {| dataIsValid := Nat.eqb (List.length issues) 0; issues := issues |}.

(** [lines.join(sep)] *)
Fixpoint join (lines : list jsstring) (sep : jsstring) : jsstring :=
  match lines with
  | [] => []
  | line :: rest =>
    match rest with
    | [] => line
    | _ :: _ => line ++ sep ++ join rest sep
    end
  end.

(** [(text.match(r) || []).length] for a pattern without the [g] flag: the
    array holds the match and its captures. *)
Definition matchLength (r : Regex) (text : jsstring) : nat :=
  match exec r text with
  | Some m => S (List.length (captures m))
  | None => 0
  end.

(** [[\u0900-\u097F]] *)
Definition isDevanagari (c : char) : bool := between 2304 2431 c.

Definition detectLanguage (text : jsstring) : jsstring :=
  let hindiChars := Chars isDevanagari in
  let englishChars := Chars isLetter in
  let hindiCount := matchLength hindiChars text in
  let englishCount := matchLength englishChars text in
  if (englishCount <? hindiCount)%nat then str "hindi"
  else if (0 <? englishCount)%nat then str "english"
  else str "unknown".

Definition detectBillType (lines : list jsstring) : jsstring :=
  let text := toLowerCase (join lines (str " ")) in
  let has := fun k => includes text (str k) in
  if has "grocery"%string || has "supermarket"%string then str "grocery"
  else if has "restaurant"%string || has "hotel"%string || has "cafe"%string
  then str "restaurant"
  else if has "pharmacy"%string || has "medical"%string then str "pharmacy"
  else if has "fuel"%string || has "petrol"%string || has "diesel"%string
  then str "fuel"
  else if has "electronic"%string || has "mobile"%string || has "computer"%string
  then str "electronics"
  else str "retail".

Definition extractPaymentMethod (lines : list jsstring) : jsstring :=
  let text := toLowerCase (join lines (str " ")) in
  let has := fun k => includes text (str k) in
  if has "cash"%string then str "cash"
  else if has "card"%string || has "credit"%string || has "debit"%string
  then str "card"
  else if has "upi"%string || has "paytm"%string || has "gpay"%string
          || has "phonepe"%string
  then str "upi"
  else if has "netbanking"%string || has "net banking"%string then str "netbanking"
  else str "unknown".

(** [for (const line of lines) { const r = f(line); if (r) return r; }] where
    [r] is a match array or a string built from one: the first line on
    which [f] gives a result. *)
Fixpoint firstDefined {A} (f : jsstring -> option A) (lines : list jsstring)
  : option A :=
  match lines with
  | [] => None
  | line :: rest =>
    match f line with
    | Some a => Some a
    | None => firstDefined f rest
    end
  end.

(** [/cashier[:\s]+([A-Za-z\s]+)/i] *)
Definition cashierPattern : Regex :=
  seqs [litCI "cashier";
        plus (Chars (fun x => char_eqb x 58%N || isWhiteSpace x));
        Group (plus (Chars (fun x => isLetter x || isWhiteSpace x)))].

Definition extractCashier (lines : list jsstring) : jsstring :=
  orEmpty (firstDefined
             (fun line =>
                if includes (toLowerCase line) (str "cashier")
                then option_map (fun m => trim (capture1 m)) (exec cashierPattern line)
                else None)
             lines).

(** [/(?:terminal|pos|till)[:\s#]*([A-Z0-9]+)/i] *)
Definition terminalPattern : Regex :=
  seqs [alts [litCI "terminal"; litCI "pos"; litCI "till"];
        Star (Chars (fun x => char_eqb x 58%N || isWhiteSpace x || char_eqb x 35%N));
        Group (plus (Chars (fun x => isLetter x || isDigit x)))].

Definition extractTerminalId (lines : list jsstring) : jsstring :=
  orEmpty (firstDefined (fun line => option_map capture1 (exec terminalPattern line))
                        lines).

Record Metadata := {
  language : jsstring;
  billType : jsstring;
  paymentMethod : jsstring;
  cashier : jsstring;
  terminalId : jsstring
}.

Definition extractMetadata (lines : list jsstring) (ocrText : jsstring) : Metadata :=
  {| language := detectLanguage ocrText;
     billType := detectBillType lines;
     paymentMethod := extractPaymentMethod lines;
     cashier := extractCashier lines;
     terminalId := extractTerminalId lines |}.

(* ================================================================== *)
(** * OCRService: the text handed on *)
(* ================================================================== *)

(** [[^\w\s₹.,:-]] *)
Definition isSpecialCharacter (c : char) : bool :=
  negb (isWordChar c || isWhiteSpace c || existsb (char_eqb c) (str "₹.,:-")).

Definition cleanExtractedText (text : jsstring) : jsstring :=
  trim (replaceAll (Chars isSpecialCharacter) []
          (replaceAll (plus space) (str " ") text)).

(* ================================================================== *)
(** * The routes: [validateBillId] *)
(* ================================================================== *)

(** [[0-9a-fA-F]] *)
Definition isHexDigit (c : char) : bool :=
  isDigit c || between 97 102 c || between 65 70 c.

(** [/^[0-9a-fA-F]{24}$/] *)
Definition billIdPattern : Regex :=
  seqs [Bol; times 24 (Chars isHexDigit); Eol].

(** [true] when the middleware calls [next()], [false] when it answers
    with status 400; [None] is a parameter that is not there. *)
Definition validateBillId (id : option jsstring) : bool :=
  match id with
  | None => false
  | Some [] => false
  | Some (c :: r) => test billIdPattern (c :: r)
  end.

(* ================================================================== *)
(** * server.js: the five checks of the demonstration server *)
(* ================================================================== *)

Definition IssueType_eqb (a b : IssueType) : bool :=
  match a, b with
  | MATH_ERROR, MATH_ERROR | TAX_ERROR, TAX_ERROR | TOTAL_ERROR, TOTAL_ERROR
  | DATE_ERROR, DATE_ERROR | PRICE_ERROR, PRICE_ERROR | FUTURE_DATE, FUTURE_DATE
  | OLD_DATE, OLD_DATE | DUPLICATE_ITEMS, DUPLICATE_ITEMS
  | PRICE_OUTLIER, PRICE_OUTLIER | SUSPICIOUS_PATTERN, SUSPICIOUS_PATTERN
  | VALIDATION_ERROR, VALIDATION_ERROR => true
  | _, _ => false
  end.

(** [list.filter(e => e.type === t).length === 0] *)
Definition noneOfType (t : IssueType) (l : list Issue) : bool :=
  Nat.eqb (List.length (filter (fun e => IssueType_eqb (type e) t) l)) 0.

Module Server.

(** [validateBill] of server.js.  Its entries have no [field]. *)
Definition validateBill (env : Env) (billData : Receipt) : Validation :=
  let errors := [] in
  let warnings := [] in
  let calculatedSubtotal := sumPrices (items billData) in
  let errors :=
    if gt (Math_abs (calculatedSubtotal - subtotal billData)%float) 0.01%float
    then errors ++ [issue MATH_ERROR high None] else errors in
  let expectedTax := (subtotal billData * taxRate billData / 100)%float in
  let errors :=
    if gt (Math_abs (expectedTax - tax billData)%float) 0.01%float
    then errors ++ [issue TAX_ERROR medium None] else errors in
  let expectedTotal := (subtotal billData + tax billData - discount billData)%float in
  let errors :=
    if gt (Math_abs (expectedTotal - total billData)%float) 0.01%float
    then errors ++ [issue TOTAL_ERROR high None] else errors in
  let billDate := parseDate env (date billData) in
  let daysDiff := daysDifference env billDate in
  let warnings :=
    if ltQ daysDiff (-1)
    then warnings ++ [issue FUTURE_DATE low None] else warnings in
  let itemNames := map (fun item => toLowerCase (name item)) (items billData) in
  let duplicates :=
    filterIndexed (fun name index =>
                     match indexOf itemNames name with
                     | Some i => negb (Nat.eqb i index)
                     | None => true
                     end) itemNames 0 in
  let warnings :=
    if (0 <? List.length duplicates)%nat
    then warnings ++ [issue DUPLICATE_ITEMS medium None] else warnings in
  let confidenceScore :=
    Z.max 0 (100 - Z.of_nat (List.length errors) * 20
                 - Z.of_nat (List.length warnings) * 5) in
  {| isValid := Nat.eqb (List.length errors) 0;
     errors := errors;
     warnings := warnings;
     confidenceScore := confidenceScore;
     algorithmResults :=
       {| mathVerification := Some (noneOfType MATH_ERROR errors);
          taxValidation := Some (noneOfType TAX_ERROR errors);
          totalCheck := Some (noneOfType TOTAL_ERROR errors);
          dateValidation := Some (noneOfType FUTURE_DATE warnings);
          patternAnalysis := Some true |} |}.

End Server.

(* ================================================================== *)
(** * More vocabulary *)
(* ================================================================== *)

(** ** What the checks write *)

(** The entries that the checks push to [errors], and the one of the
    [catch] block of [validateBill]: none of low severity. *)
Definition emittedError (i : Issue) : bool :=
  match severity i with
  | low => false
  | _ => true
  end
  && match type i with
     | MATH_ERROR | TAX_ERROR | TOTAL_ERROR | DATE_ERROR | VALIDATION_ERROR => true
     | _ => false
     end.

(** The entries that the checks push to [warnings]: none of high severity. *)
Definition emittedWarning (i : Issue) : bool :=
  match severity i with
  | high => false
  | _ => true
  end
  && match type i with
     | PRICE_ERROR | FUTURE_DATE | VALIDATION_ERROR => false
     | _ => true
     end.

Definition knownIssues (v : Validation) : Prop :=
  forallb emittedError (errors v) = true
  /\ forallb emittedWarning (warnings v) = true.

(** The error of the business-logic check *)
Definition totalBelowOne : Issue := issue TOTAL_ERROR high None.

(** An item whose name, in lower case, is a property of [Object.prototype] *)
Definition namedAfterPrototype (item : LineItem) : bool :=
  inheritedKey (toLowerCase (name item)).

(** The names that [detectDuplicateItems] compares *)
Definition comparedNames (b : Receipt) : list jsstring :=
  map (fun item => trim (toLowerCase (name item))) (items b).

Definition duplicateWarning : Issue := issue DUPLICATE_ITEMS medium (Some F_items).

(** ** Categories *)

(** The item's name, in lower case, includes a keyword of the category. *)
Definition mentions (category : string) (item : LineItem) : bool :=
  existsb (fun entry => String.eqb (fst entry) category
                        && someKeyword (snd entry) (toLowerCase (name item)))
          categoryKeywords.

(** ** Runs of code units *)

Fixpoint takeWhile (f : char -> bool) (s : jsstring) : jsstring :=
  match s with
  | x :: r => if f x then x :: takeWhile f r else []
  | [] => []
  end.

Fixpoint dropWhile (f : char -> bool) (s : jsstring) : jsstring :=
  match s with
  | x :: r => if f x then dropWhile f r else s
  | [] => []
  end.

(** The string in which every maximal run of code units of the class [f]
    is replaced by [by_]; [inRun] tells that the code unit before was of
    the class. *)
Fixpoint collapse (f : char -> bool) (by_ : jsstring) (inRun : bool) (s : jsstring)
  : jsstring :=
  match s with
  | [] => []
  | x :: r =>
    if f x
    then if inRun then collapse f by_ true r else by_ ++ collapse f by_ true r
    else x :: collapse f by_ false r
  end.

(** Two U+0020 in a row somewhere in the line *)
Fixpoint adjacentSpaces (line : jsstring) : bool :=
  match line with
  | x :: r =>
    match r with
    | y :: _ => (char_eqb x 32%N && char_eqb y 32%N) || adjacentSpaces r
    | [] => false
    end
  | [] => false
  end.

(** The only white space of the line is U+0020, and never twice in a row. *)
Definition singleSpaced (line : jsstring) : Prop :=
  (forall c, In c line -> isWhiteSpace c = true -> c = 32%N)
  /\ (forall pre post, line <> pre ++ 32%N :: 32%N :: post).

(** ** The item section *)

(** The two lists of [extractItems], and its two tests on a line: the line
    opens the section, the line closes it. *)
Definition itemStartKeywords : list string :=
  ["item"; "product"; "description"; "===="; "----"; "qty"; "quantity"]%string.

Definition itemEndKeywords : list string :=
  ["subtotal"; "sub total"; "total"; "tax"; "gst"; "===="; "----"; "discount";
   "amount"]%string.

Definition opensSection (line : jsstring) : bool :=
  someKeyword itemStartKeywords (toLowerCase line) || looksLikeItemLine line.

Definition closesSection (line : jsstring) : bool :=
  someKeyword itemEndKeywords (toLowerCase line) && negb (looksLikeItemLine line).

(* ================================================================== *)
(** * More example bills and texts *)
(* ================================================================== *)

(** Twenty and twenty-one items of 85 rupees: the first digit is 8 *)
Definition twentyRice : Receipt :=
  bill "2025-06-16" (repeat rice 20) 1700 85 5 0 1785.
Definition twentyOneRice : Receipt :=
  bill "2025-06-16" (repeat rice 21) 1785 89.25 5 0 1874.25.

(** Rice twice, the second time in capitals and with a space after it *)
Definition riceAgain : LineItem :=
  {| name := str "RICE "; quantity := 1; unitPrice := 85; price := 85 |}.
Definition riceTwice : Receipt := bill "2025-06-16" [rice; riceAgain] 170 8.5 5 0 178.5.

(** A date that the engine of the examples does not read *)
Definition datedSoon : Receipt := bill "soon" [rice] 85 4.25 5 0 89.25.

(** Five rupees of tax on a subtotal of zero *)
Definition taxOnNothing : Receipt := bill "2025-06-16" [] 0 5 0 0 5.

(** The first text of [mockExtractText], with a date and a bill number
    filled in *)
Definition mockReceiptText : jsstring :=
  text ["SUPER MARKET RECEIPT";
        "        Date: 2025-06-16";
        "        Bill No: SM-1234";
        "        =====================================";
        "        Rice Basmati 1kg         ₹85.00";
        "        Cooking Oil 1L           ₹120.00";
        "        Sugar White 1kg          ₹45.00";
        "        Tea Leaves 250g          ₹75.00";
        "        Milk Packet 500ml        ₹25.00";
        "        =====================================";
        "        Subtotal:                ₹350.00";
        "        Tax (5%):                ₹17.50";
        "        Total:                   ₹367.50";
        "        =====================================";
        "        Thank you for shopping!"]%string.

Definition mockReceiptLines : list jsstring := preprocessText mockReceiptText.

Definition separatorLine : jsstring := str "=====================================".

(** A line that names the cashier, and a line that names the card *)
Definition cashierLines : list jsstring :=
  [str "Cashier: Ravi"; str "Paid by card"].

(** Baby corn and bread crumbs: "baby", and "rum" inside "crumbs" *)
Definition babyCorn : LineItem :=
  {| name := str "Baby Corn"; quantity := 1; unitPrice := 40; price := 40 |}.
Definition breadCrumbs : LineItem :=
  {| name := str "Bread Crumbs"; quantity := 1; unitPrice := 45; price := 45 |}.
Definition cornAndCrumbs : Receipt :=
  bill "2025-06-16" [babyCorn; breadCrumbs] 85 4.25 5 0 89.25.

(** Local time five and a half hours ahead of UTC *)
Definition indiaEnv : Env := engine exampleClock (11 * msPerHour / 2) 2.

(** The bill that the parser returns for the text *)
Definition mockReceiptBill : Receipt :=
  match parseBillData exampleEnv (VString mockReceiptText) with
  | Normal b => b
  | Raised _ => allDefault
  end.

(* ================================================================== *)
(** * Computations in the store *)
(* ================================================================== *)

Lemma bind_returned {A B} (m : M A) (f : A -> M B) st b st2 :
  bind m f st = Returned b st2 ->
  exists a st1, m st = Returned a st1 /\ f a st1 = Returned b st2.
Proof.
  unfold bind. destruct (m st) as [a st1 | e st1]; intro H.
  - exists a, st1. split; [reflexivity | exact H].
  - discriminate H.
Qed.

Lemma bind_thrown {A B} (m : M A) (f : A -> M B) st e st2 :
  bind m f st = Thrown e st2 ->
  m st = Thrown e st2 \/
  exists a st1, m st = Returned a st1 /\ f a st1 = Thrown e st2.
Proof.
  unfold bind. destruct (m st) as [a st1 | e1 st1]; intro H.
  - right. exists a, st1. split; [reflexivity | exact H].
  - left. injection H as -> ->. reflexivity.
Qed.

Section Preservation.
Variable P : Store -> Prop.

Lemma preserves_ret {A} (a : A) : preserves P (ret a).
Proof. intros st H. exact H. Qed.

Lemma preserves_throw {A} (e : Exn) : preserves P (@throw A e).
Proof. intros st H. exact H. Qed.

Lemma preserves_getBill : preserves P getBill.
Proof. intros st H. exact H. Qed.

Lemma preserves_bind {A B} (m : M A) (f : A -> M B) :
  preserves P m -> (forall a, preserves P (f a)) -> preserves P (bind m f).
Proof.
  intros Hm Hf st H. unfold bind.
  specialize (Hm st H). destruct (m st) as [a st1 | e st1]; simpl in Hm.
  - apply Hf. exact Hm.
  - exact Hm.
Qed.

Lemma preserves_tryCatch (body : M unit) (handler : Exn -> M unit) :
  preserves P body -> (forall e, preserves P (handler e)) ->
  preserves P (tryCatch body handler).
Proof.
  intros Hb Hh st H. unfold tryCatch.
  specialize (Hb st H). destruct (body st) as [a st1 | e st1]; simpl in Hb.
  - exact Hb.
  - apply Hh. exact Hb.
Qed.

Lemma preserves_when (c : bool) (m : M unit) :
  preserves P m -> preserves P (when c m).
Proof. intro Hm. destruct c; [exact Hm | apply preserves_ret]. Qed.

Lemma preserves_forEachFrom {A} (l : list A) (f : A -> nat -> M unit) :
  (forall x i, preserves P (f x i)) -> forall i, preserves P (forEachFrom l i f).
Proof.
  intro Hf. induction l as [| x r IH]; intro i; simpl.
  - apply preserves_ret.
  - apply preserves_bind; [apply Hf | intros _; apply IH].
Qed.

Lemma preserves_forEach {A} (l : list A) (f : A -> nat -> M unit) :
  (forall x i, preserves P (f x i)) -> preserves P (forEach l f).
Proof. intro Hf. apply preserves_forEachFrom. exact Hf. Qed.

Lemma preserves_reduce1M {A} (f : A -> A -> A) (l : list A) :
  preserves P (reduce1M f l).
Proof.
  unfold reduce1M. destruct (reduce1 f l); [apply preserves_ret | apply preserves_throw].
Qed.

Lemma preserves_groupItems (l : list LineItem) :
  forall g, preserves P (groupItems l g).
Proof.
  induction l as [| item r IH]; intro g; simpl.
  - apply preserves_ret.
  - apply preserves_bind; [| intro g'; apply IH].
    unfold groupItem. destruct (ownProperty g _); [apply preserves_ret |].
    destruct (inheritedKey _); [apply preserves_throw | apply preserves_ret].
Qed.

(** The nine ways in which the checks write to [validation] *)
Hypothesis P_pushError : forall i, preserves P (pushError i).
Hypothesis P_pushWarning : forall i, preserves P (pushWarning i).
Hypothesis P_setMathVerification : preserves P setMathVerification.
Hypothesis P_setTaxValidation : preserves P setTaxValidation.
Hypothesis P_setTotalCheck : preserves P setTotalCheck.
Hypothesis P_setDateValidation : preserves P setDateValidation.
Hypothesis P_setPatternAnalysis : preserves P setPatternAnalysis.

Ltac preserve :=
  repeat first
    [ apply preserves_ret | apply preserves_getBill | apply preserves_throw
    | apply P_pushError | apply P_pushWarning | apply P_setMathVerification
    | apply P_setTaxValidation | apply P_setTotalCheck
    | apply P_setDateValidation | apply P_setPatternAnalysis
    | apply preserves_reduce1M | apply preserves_groupItems
    | apply preserves_when
    | apply preserves_forEach; intros
    | apply preserves_tryCatch; [| intro]
    | apply preserves_bind; [| intro]
    | match goal with
      | |- preserves _ (let '(_, _) := ?x in _) => destruct x
      | |- preserves _ (if ?c then _ else _) => destruct c
      | |- preserves _ (match ?x with _ => _ end) => destruct x
      end
    | progress cbv beta zeta ].

Lemma validateMathematicalAccuracy_preserves : preserves P validateMathematicalAccuracy.
Proof. unfold validateMathematicalAccuracy. preserve. Qed.

Lemma validateTaxCalculations_preserves : preserves P validateTaxCalculations.
Proof. unfold validateTaxCalculations, findClosestTaxRate. preserve. Qed.

Lemma validateTotalAmount_preserves : preserves P validateTotalAmount.
Proof. unfold validateTotalAmount. preserve. Qed.

Lemma validateDateLogic_preserves env : preserves P (validateDateLogic env).
Proof. unfold validateDateLogic. preserve. Qed.

Lemma analyzePatterns_preserves : preserves P analyzePatterns.
Proof.
  unfold analyzePatterns, detectDuplicateItems, detectPriceOutliers,
    analyzeQuantityPatterns, detectSuspiciousRounding.
  preserve.
Qed.

Lemma validateBusinessLogic_preserves : preserves P validateBusinessLogic.
Proof.
  unfold validateBusinessLogic, validateItemCombinations, validatePricingConsistency.
  preserve.
Qed.

Lemma detectAnomalies_preserves env : preserves P (detectAnomalies env).
Proof.
  unfold detectAnomalies, checkBenfordsLaw, checkTimingAnomalies. preserve.
Qed.

Lemma runAlgorithms_preserves env : preserves P (runAlgorithms env).
Proof.
  unfold runAlgorithms.
  repeat first
    [ apply validateMathematicalAccuracy_preserves
    | apply validateTaxCalculations_preserves
    | apply validateTotalAmount_preserves
    | apply validateDateLogic_preserves
    | apply analyzePatterns_preserves
    | apply validateBusinessLogic_preserves
    | apply detectAnomalies_preserves
    | apply preserves_bind; [| intro] ].
Qed.
End Preservation.

Lemma preserves_returned {A} (P : Store -> Prop) (m : M A) st a st1 :
  preserves P m -> m st = Returned a st1 -> P st -> P st1.
Proof. intros Hm E H. specialize (Hm st H). rewrite E in Hm. exact Hm. Qed.

Lemma preserves_thrown {A} (P : Store -> Prop) (m : M A) st e st1 :
  preserves P m -> m st = Thrown e st1 -> P st -> P st1.
Proof. intros Hm E H. specialize (Hm st H). rewrite E in Hm. exact Hm. Qed.

(** Unfolding the operations of the store, and splitting on the tests *)
Ltac run_store :=
  cbv [tryCatch bind getBill when pushError pushWarning updateValidation ret
       setMathVerification setTaxValidation setTotalCheck setDateValidation
       setPatternAnalysis setIsValid setConfidenceScore storeOf throw];
  cbv beta iota zeta.

Ltac split_tests :=
  repeat match goal with
         | |- context [if ?c then _ else _] => destruct c
         | |- context [match ?x with Some _ => _ | None => _ end] => destruct x
         end.

(** ** The checks that catch their own exceptions *)

Lemma tryCatch_neverThrows (body : M unit) (handler : Exn -> M unit) :
  (forall e, neverThrows (handler e)) -> neverThrows (tryCatch body handler).
Proof.
  intros H st. unfold tryCatch. destruct (body st) as [a st1 | e st1].
  - exists a, st1. reflexivity.
  - apply H.
Qed.

Lemma pushWarning_neverThrows (i : Issue) : neverThrows (pushWarning i).
Proof. intro st. eexists. eexists. reflexivity. Qed.

Lemma validateMathematicalAccuracy_neverThrows : neverThrows validateMathematicalAccuracy.
Proof. apply tryCatch_neverThrows. intro e. apply pushWarning_neverThrows. Qed.

Lemma validateTaxCalculations_neverThrows : neverThrows validateTaxCalculations.
Proof. apply tryCatch_neverThrows. intro e. apply pushWarning_neverThrows. Qed.

Lemma validateTotalAmount_neverThrows : neverThrows validateTotalAmount.
Proof. apply tryCatch_neverThrows. intro e. apply pushWarning_neverThrows. Qed.

Lemma validateDateLogic_neverThrows env : neverThrows (validateDateLogic env).
Proof. apply tryCatch_neverThrows. intro e. apply pushWarning_neverThrows. Qed.

Lemma analyzePatterns_neverThrows : neverThrows analyzePatterns.
Proof. apply tryCatch_neverThrows. intro e. apply pushWarning_neverThrows. Qed.

Lemma detectAnomalies_neverThrows env : neverThrows (detectAnomalies env).
Proof.
  apply tryCatch_neverThrows. intros e st. exists tt, st. reflexivity.
Qed.

(** ** What the checks leave in place *)

(** No check writes to the bill. *)
Lemma runAlgorithms_frame env (b : Receipt) :
  preserves (fun st => billData st = b) (runAlgorithms env).
Proof.
  apply runAlgorithms_preserves; unfold preserves; intros;
    match goal with H : billData _ = _ |- _ => exact H end.
Qed.

(** An entry of [errors] stays there. *)
Lemma runAlgorithms_keeps_error env (i : Issue) :
  preserves (fun st => In i (errors (validation st))) (runAlgorithms env).
Proof.
  apply runAlgorithms_preserves; unfold preserves; intros;
    match goal with H : In _ _ |- _ => first [exact H | simpl; apply in_or_app; left; exact H] end.
Qed.

(** A flag that is set stays set. *)
Lemma setters_keep_flag (f : AlgorithmResults -> option bool) (m : M unit) :
  In f [mathVerification; taxValidation; totalCheck; dateValidation;
        patternAnalysis] ->
  In m [setMathVerification; setTaxValidation; setTotalCheck;
        setDateValidation; setPatternAnalysis] ->
  preserves (fun st => flagIs f (validation st)) m.
Proof.
  intros Hf Hm st H. unfold flagIs in *. simpl in Hf, Hm.
  repeat (destruct Hf as [<- | Hf];
          [ repeat (destruct Hm as [<- | Hm];
                    [first [exact H | reflexivity] |]);
            contradiction |]).
  contradiction.
Qed.

Lemma each_check_keeps_flag env (f : AlgorithmResults -> option bool) (m : M unit) :
  In f [mathVerification; taxValidation; totalCheck; dateValidation;
        patternAnalysis] ->
  In m [validateMathematicalAccuracy; validateTaxCalculations; validateTotalAmount;
        validateDateLogic env; analyzePatterns; validateBusinessLogic;
        detectAnomalies env] ->
  preserves (fun st => flagIs f (validation st)) m.
Proof.
  intros Hf Hm.
  assert (Hp : forall i, preserves (fun st => flagIs f (validation st)) (pushError i)
               /\ preserves (fun st => flagIs f (validation st)) (pushWarning i)).
  { intro i. split; intros st H; exact H. }
  simpl in Hm.
  repeat (destruct Hm as [<- | Hm];
          [ first [ apply validateMathematicalAccuracy_preserves
                  | apply validateTaxCalculations_preserves
                  | apply validateTotalAmount_preserves
                  | apply validateDateLogic_preserves
                  | apply analyzePatterns_preserves
                  | apply validateBusinessLogic_preserves
                  | apply detectAnomalies_preserves ];
            try (intro i; apply Hp);
            apply (setters_keep_flag f _ Hf); simpl; tauto |]).
  contradiction.
Qed.

(** The date check ends by setting its flag, on every path. *)
Lemma validateDateLogic_sets_flag env st :
  flagIs dateValidation (validation (storeOf (validateDateLogic env st))).
Proof.
  unfold validateDateLogic, flagIs. run_store.
  destruct (date (billData st)); split_tests; reflexivity.
Qed.

(** So does the pattern check: none of its four parts throws. *)
Lemma analyzePatterns_sets_flag st :
  flagIs patternAnalysis (validation (storeOf (analyzePatterns st))).
Proof.
  unfold analyzePatterns, detectDuplicateItems, detectPriceOutliers,
    analyzeQuantityPatterns, detectSuspiciousRounding, flagIs.
  run_store. split_tests; reflexivity.
Qed.

(** ** The shape of a run *)

Lemma runChecks_returned env st0 v st :
  runChecks env st0 = Returned v st ->
  exists st7,
    runAlgorithms env st0 = Returned tt st7
    /\ billData st = billData st7
    /\ errors v = errors (validation st7)
    /\ warnings v = warnings (validation st7)
    /\ algorithmResults v = algorithmResults (validation st7)
    /\ isValid v = (List.length (errors (validation st7)) =? 0)%nat
    /\ confidenceScore v = Z.max 0 (deductedScore env (validation st7)).
Proof.
  unfold runChecks. intro H.
  apply bind_returned in H as ([] & st7 & H1 & H2).
  exists st7. split; [exact H1 |].
  revert H2. run_store. intro H2. injection H2 as <- <-.
  repeat split; reflexivity.
Qed.

Lemma runChecks_thrown env st0 e st :
  runChecks env st0 = Thrown e st -> runAlgorithms env st0 = Thrown e st.
Proof.
  unfold runChecks. intro H.
  apply bind_thrown in H as [H | (a & st7 & _ & H)]; [exact H |].
  revert H. run_store. discriminate.
Qed.

(** An exception that leaves the checks comes out of the business-logic
    check: the other six have a handler of their own. *)
Lemma runAlgorithms_thrown env st0 e st :
  runAlgorithms env st0 = Thrown e st ->
  exists st5, validateBusinessLogic st5 = Thrown e st.
Proof.
  unfold runAlgorithms. intro H.
  apply bind_thrown in H as [H | (a1 & st1 & _ & H)].
  { destruct (validateMathematicalAccuracy_neverThrows st0) as (a & s & E).
    rewrite E in H. discriminate H. }
  apply bind_thrown in H as [H | (a2 & st2 & _ & H)].
  { destruct (validateTaxCalculations_neverThrows st1) as (a & s & E).
    rewrite E in H. discriminate H. }
  apply bind_thrown in H as [H | (a3 & st3 & _ & H)].
  { destruct (validateTotalAmount_neverThrows st2) as (a & s & E).
    rewrite E in H. discriminate H. }
  apply bind_thrown in H as [H | (a4 & st4 & _ & H)].
  { destruct (validateDateLogic_neverThrows env st3) as (a & s & E).
    rewrite E in H. discriminate H. }
  apply bind_thrown in H as [H | (a5 & st5 & _ & H)].
  { destruct (analyzePatterns_neverThrows st4) as (a & s & E).
    rewrite E in H. discriminate H. }
  apply bind_thrown in H as [H | (a6 & st6 & _ & H)].
  { exists st5. exact H. }
  destruct (detectAnomalies_neverThrows env st6) as (a & s & E).
  rewrite E in H. discriminate H.
Qed.

(** The stores between the seven checks of a run that returns *)
Lemma runAlgorithms_returned env st0 st7 :
  runAlgorithms env st0 = Returned tt st7 ->
  exists st1 st2 st3 st4 st5 st6,
    validateMathematicalAccuracy st0 = Returned tt st1
    /\ validateTaxCalculations st1 = Returned tt st2
    /\ validateTotalAmount st2 = Returned tt st3
    /\ validateDateLogic env st3 = Returned tt st4
    /\ analyzePatterns st4 = Returned tt st5
    /\ validateBusinessLogic st5 = Returned tt st6
    /\ detectAnomalies env st6 = Returned tt st7.
Proof.
  unfold runAlgorithms. intro H.
  apply bind_returned in H as ([] & st1 & H1 & H).
  apply bind_returned in H as ([] & st2 & H2 & H).
  apply bind_returned in H as ([] & st3 & H3 & H).
  apply bind_returned in H as ([] & st4 & H4 & H).
  apply bind_returned in H as ([] & st5 & H5 & H).
  apply bind_returned in H as ([] & st6 & H6 & H).
  exists st1, st2, st3, st4, st5, st6. repeat split; assumption.
Qed.

Lemma result_returned env bill v st :
  runChecks env (initialStore bill) = Returned v st -> result env bill = v.
Proof. unfold result, validateBill. intros ->. reflexivity. Qed.

Lemma result_thrown env bill e st :
  runChecks env (initialStore bill) = Thrown e st ->
  result env bill = validationError.
Proof. unfold result, validateBill. intros ->. reflexivity. Qed.

(* ================================================================== *)
(** * C8: the bill is not written to *)
(* ================================================================== *)

(** C8.  [validateBill] leaves its argument as it found it: the bill after
    the call equals the bill before it, field by field, and the object
    returned is built from the literal in the function, so that a second
    call on the bill returns an equal object. *)
Theorem C8_validateBill_does_not_mutate_its_input :
  forall env bill,
    billAfter env bill = bill
    /\ (let b := billAfter env bill in
        date b = date bill /\ storeName b = storeName bill
        /\ storeAddress b = storeAddress bill /\ billNumber b = billNumber bill
        /\ items b = items bill /\ subtotal b = subtotal bill
        /\ tax b = tax bill /\ taxRate b = taxRate bill
        /\ discount b = discount bill /\ total b = total bill
        /\ currency b = currency bill /\ rawText b = rawText bill)
    /\ result env (billAfter env bill) = result env bill.
Proof.
  intros env bill.
  assert (E : billAfter env bill = bill).
  { unfold billAfter, validateBill.
    destruct (runChecks env (initialStore bill)) as [v st | e st] eqn:R; simpl.
    - apply runChecks_returned in R as (st7 & R & Hb & _).
      rewrite Hb.
      exact (preserves_returned _ _ _ _ _ (runAlgorithms_frame env bill) R eq_refl).
    - apply runChecks_thrown in R.
      exact (preserves_thrown _ _ _ _ _ (runAlgorithms_frame env bill) R eq_refl). }
  rewrite E. repeat split; reflexivity.
Qed.

(* ================================================================== *)
(** * C10: two flags that are always set *)
(* ================================================================== *)

(** C10.  When the checks run to their end without an exception reaching
    [validateBill], the object returned has [dateValidation] and
    [patternAnalysis] set to [true], whatever the bill: also when the date
    check has reported a date in the future, and when the pattern checks
    have pushed warnings. *)
Theorem C10_date_and_pattern_flags_are_always_true :
  forall env bill,
    (exists v st, runChecks env (initialStore bill) = Returned v st) ->
    flagIs dateValidation (result env bill)
    /\ flagIs patternAnalysis (result env bill).
Proof.
  intros env bill (v & st & R).
  rewrite (result_returned _ _ _ _ R).
  apply runChecks_returned in R as (st7 & R & _ & _ & _ & Hr & _).
  apply runAlgorithms_returned in R
    as (st1 & st2 & st3 & st4 & st5 & st6 & _ & _ & _ & H4 & H5 & H6 & H7).
  unfold flagIs. rewrite Hr.
  assert (D4 : flagIs dateValidation (validation st4)).
  { pose proof (validateDateLogic_sets_flag env st3) as D. rewrite H4 in D. exact D. }
  assert (P5 : flagIs patternAnalysis (validation st5)).
  { pose proof (analyzePatterns_sets_flag st4) as D. rewrite H5 in D. exact D. }
  assert (keep : forall f m s s',
             In f [mathVerification; taxValidation; totalCheck; dateValidation;
                   patternAnalysis] ->
             In m [validateMathematicalAccuracy; validateTaxCalculations;
                   validateTotalAmount; validateDateLogic env; analyzePatterns;
                   validateBusinessLogic; detectAnomalies env] ->
             m s = Returned tt s' ->
             flagIs f (validation s) -> flagIs f (validation s')).
  { intros f m s s' Hf Hm E Hi.
    exact (preserves_returned _ _ _ _ _ (each_check_keeps_flag env f m Hf Hm) E Hi). }
  split.
  - apply (keep dateValidation (detectAnomalies env) _ _
                ltac:(simpl; tauto) ltac:(simpl; tauto) H7).
    apply (keep dateValidation validateBusinessLogic _ _
                ltac:(simpl; tauto) ltac:(simpl; tauto) H6).
    apply (keep dateValidation analyzePatterns _ _
                ltac:(simpl; tauto) ltac:(simpl; tauto) H5).
    exact D4.
  - apply (keep patternAnalysis (detectAnomalies env) _ _
                ltac:(simpl; tauto) ltac:(simpl; tauto) H7).
    apply (keep patternAnalysis validateBusinessLogic _ _
                ltac:(simpl; tauto) ltac:(simpl; tauto) H6).
    exact P5.
Qed.

(** A bill dated two days ahead gets the future-date error; both flags are
    set all the same. *)
Lemma C10_witness :
  (exists v st, runChecks exampleEnv (initialStore datedInTwoDays) = Returned v st)
  /\ errors (result exampleEnv datedInTwoDays) = [futureDate]
  /\ flagIs dateValidation (result exampleEnv datedInTwoDays)
  /\ flagIs patternAnalysis (result exampleEnv datedInTwoDays).
Proof.
  assert (H : exists v st,
             runChecks exampleEnv (initialStore datedInTwoDays) = Returned v st).
  { eexists. eexists. vm_compute. reflexivity. }
  split; [exact H |].
  split; [vm_compute; reflexivity |].
  exact (C10_date_and_pattern_flags_are_always_true exampleEnv datedInTwoDays H).
Defined.

(* ================================================================== *)
(** * C6: exceptions inside [validateBill] *)
(* ================================================================== *)

(** C6, as stated, fails on a bill of ten items priced 0.50: inside the
    anomaly check [checkBenfordsLaw] throws a TypeError (it reduces an
    empty array), yet the call returns an ordinary result, valid and with
    a positive score, not the [VALIDATION_ERROR] result. *)
Lemma C6_counterexample :
  checkBenfordsLaw (beforeAnomalies exampleEnv tenHalves)
  = Thrown (TypeError "Reduce of empty array with no initial value")
           (beforeAnomalies exampleEnv tenHalves)
  /\ errors (result exampleEnv tenHalves) = []
  /\ isValid (result exampleEnv tenHalves) = true
  /\ confidenceScore (result exampleEnv tenHalves) = 95.
Proof. vm_compute. repeat split; reflexivity. Qed.

(** C6, amended.  [validateBill] never raises, for any bill and also for
    the bill with all fields at their defaults.  Six of the seven checks
    handle their own exceptions and always return; an exception that leaves
    the checks comes from [validateBusinessLogic], the one check without a
    handler, and the [catch] block of [validateBill] turns it into the
    result with exactly one [VALIDATION_ERROR] of high severity, score 0
    and [isValid = false]. *)
Theorem C6_validateBill_contains_exceptions :
  forall env bill,
    (exists v st, validateBill env bill = Returned v st)
    /\ (exists v st, runChecks env (initialStore allDefault) = Returned v st)
    /\ (neverThrows validateMathematicalAccuracy
        /\ neverThrows validateTaxCalculations
        /\ neverThrows validateTotalAmount
        /\ neverThrows (validateDateLogic env)
        /\ neverThrows analyzePatterns
        /\ neverThrows (detectAnomalies env))
    /\ (forall e st,
          runChecks env (initialStore bill) = Thrown e st ->
          (exists st5, validateBusinessLogic st5 = Thrown e st)
          /\ errors (result env bill) = [issue VALIDATION_ERROR high None]
          /\ warnings (result env bill) = []
          /\ confidenceScore (result env bill) = 0
          /\ isValid (result env bill) = false).
Proof.
  intros env bill.
  split.
  { unfold validateBill.
    destruct (runChecks env (initialStore bill)) as [v st | e st];
      eexists; eexists; reflexivity. }
  split.
  { eexists. eexists. vm_compute. reflexivity. }
  split.
  { repeat split.
    - apply validateMathematicalAccuracy_neverThrows.
    - apply validateTaxCalculations_neverThrows.
    - apply validateTotalAmount_neverThrows.
    - apply validateDateLogic_neverThrows.
    - apply analyzePatterns_neverThrows.
    - apply detectAnomalies_neverThrows. }
  intros e st R.
  rewrite (result_thrown _ _ _ _ R).
  split; [| repeat split; reflexivity].
  apply runChecks_thrown in R.
  exact (runAlgorithms_thrown _ _ _ _ R).
Qed.

(** An item named "Constructor" makes the business-logic check throw. *)
Lemma C6_witness :
  runChecks exampleEnv (initialStore constructorBill)
  = Thrown (TypeError "duplicateItems[key].push is not a function")
           (storeOf (runChecks exampleEnv (initialStore constructorBill)))
  /\ errors (result exampleEnv constructorBill) = [issue VALIDATION_ERROR high None]
  /\ confidenceScore (result exampleEnv constructorBill) = 0
  /\ isValid (result exampleEnv constructorBill) = false.
Proof.
  assert (R : runChecks exampleEnv (initialStore constructorBill)
              = Thrown (TypeError "duplicateItems[key].push is not a function")
                       (storeOf (runChecks exampleEnv (initialStore constructorBill)))).
  { vm_compute. reflexivity. }
  split; [exact R |].
  destruct (C6_validateBill_contains_exceptions exampleEnv constructorBill)
    as (_ & _ & _ & H).
  destruct (H _ _ R) as (_ & He & _ & Hs & Hv).
  repeat split; assumption.
Defined.

(* ================================================================== *)
(** * C3: the math check *)
(* ================================================================== *)

Lemma item_loop (l : list LineItem) :
  forall i st,
  exists st',
    forEachFrom l i
      (fun item index =>
         when (gt (Math_abs (quantity item * unitPrice item - price item)%float)
                  0.01%float)
              (pushError (issue MATH_ERROR medium (Some (F_itemPrice index))))) st
    = Returned tt st'
    /\ addsErrors st st' (itemErrors l i).
Proof.
  induction l as [| item r IH]; intros i st; simpl.
  - exists st. unfold addsErrors. rewrite app_nil_r. repeat split; reflexivity.
  - unfold bind at 1. unfold itemDeviation.
    destruct (gt _ 0.01%float); simpl.
    + destruct (IH (S i)
                  {| billData := billData st;
                     validation := withErrors (validation st)
                                     (errors (validation st) ++ [itemMismatch i]) |})
        as (st' & E & Hb & He & Hw & Hr).
      exists st'. split; [exact E |].
      unfold addsErrors. simpl in *. rewrite He, <- app_assoc.
      repeat split; assumption.
    + destruct (IH (S i) st) as (st' & E & H). exists st'. split; assumption.
Qed.

Lemma itemErrors_In (l : list LineItem) :
  forall i k,
    In (itemMismatch k) (itemErrors l i) <->
    exists item, (i <= k)%nat /\ nth_error l (k - i) = Some item
                 /\ gt (itemDeviation item) 0.01%float = true.
Proof.
  induction l as [| item r IH]; intros i k; simpl.
  - split; [contradiction |]. intros (x & _ & H & _).
    destruct (k - i)%nat; discriminate H.
  - rewrite in_app_iff, IH. split.
    + intros [H | (x & Hle & Hn & Hg)].
      * destruct (gt (itemDeviation item) 0.01%float) eqn:G; [| contradiction].
        destruct H as [H | []]. injection H as <-.
        exists item. rewrite Nat.sub_diag. repeat split; [lia | exact G].
      * exists x. split; [lia |]. split; [| exact Hg].
        replace (k - i)%nat with (S (k - S i)) by lia. exact Hn.
    + intros (x & Hle & Hn & Hg).
      destruct (Nat.eq_dec k i) as [-> | Hne].
      * rewrite Nat.sub_diag in Hn. injection Hn as ->.
        left. rewrite Hg. left. reflexivity.
      * right. exists x. split; [lia |]. split; [| exact Hg].
        replace (k - i)%nat with (S (k - S i)) in Hn by lia. exact Hn.
Qed.

Lemma itemErrors_medium (l : list LineItem) :
  forall i, ~ In subtotalMismatch (itemErrors l i).
Proof.
  induction l as [| item r IH]; intros i; simpl; [tauto |].
  rewrite in_app_iff. intros [H | H]; [| exact (IH _ H)].
  destruct (gt _ _); [| contradiction]. destruct H as [H | []]. discriminate H.
Qed.

Lemma subtotalMismatch_In (b : Receipt) :
  In subtotalMismatch (mathErrors b) <-> gt (subtotalDeviation b) 0.01%float = true.
Proof.
  unfold mathErrors. rewrite in_app_iff. split.
  - intros [H | H]; [| destruct (itemErrors_medium _ _ H)].
    destruct (gt _ _); [reflexivity | contradiction].
  - intros ->. left. left. reflexivity.
Qed.

Lemma itemMismatch_In (b : Receipt) (k : nat) (item : LineItem) :
  nth_error (items b) k = Some item ->
  (In (itemMismatch k) (mathErrors b) <-> gt (itemDeviation item) 0.01%float = true).
Proof.
  intro Hn. unfold mathErrors. rewrite in_app_iff, itemErrors_In, Nat.sub_0_r.
  split.
  - intros [H | (x & _ & Hx & Hg)].
    + destruct (gt _ _); [| contradiction]. destruct H as [H | []]. discriminate H.
    + rewrite Hn in Hx. injection Hx as <-. exact Hg.
  - intro Hg. right. exists item. repeat split; [lia | exact Hn | exact Hg].
Qed.

Lemma validateMathematicalAccuracy_spec st :
  exists st',
    validateMathematicalAccuracy st = Returned tt st'
    /\ billData st' = billData st
    /\ errors (validation st') = errors (validation st) ++ mathErrors (billData st)
    /\ warnings (validation st') = warnings (validation st)
    /\ mathVerification (algorithmResults (validation st'))
       = (if gt (subtotalDeviation (billData st)) 0.01%float
          then mathVerification (algorithmResults (validation st))
          else Some true).
Proof.
  unfold validateMathematicalAccuracy, mathErrors, subtotalDeviation, forEach.
  unfold tryCatch, bind at 1, getBill. cbv beta iota zeta.
  unfold bind at 1.
  destruct (gt (Math_abs (sumPrices (items (billData st)) - subtotal (billData st))%float)
               0.01%float); simpl.
  - match goal with
    | |- context [forEachFrom ?l ?i ?f ?s] =>
      destruct (item_loop l i s) as (st' & E & Hb & He & Hw & Hr)
    end.
    rewrite E. exists st'. simpl in *. rewrite He, <- app_assoc, Hr.
    repeat split; assumption.
  - match goal with
    | |- context [forEachFrom ?l ?i ?f ?s] =>
      destruct (item_loop l i s) as (st' & E & Hb & He & Hw & Hr)
    end.
    rewrite E. exists st'. simpl in *. rewrite Hr.
    repeat split; assumption.
Qed.

(** The math check returns, leaves the warnings as they are and appends to
    [errors] one [MATH_ERROR] of high severity exactly when the Number
    [|sum of item prices - subtotal|] is greater than the Number [0.01], and
    for each item one [MATH_ERROR] of medium severity, carrying the item's
    index, exactly when the Number [|quantity * unitPrice - price|] is. *)
Lemma math_check_reports_above_tolerance :
  forall st,
    let b := billData st in
    (exists st',
        validateMathematicalAccuracy st = Returned tt st'
        /\ errors (validation st') = errors (validation st) ++ mathErrors b
        /\ warnings (validation st') = warnings (validation st))
    /\ (In subtotalMismatch (mathErrors b)
        <-> gt (subtotalDeviation b) 0.01%float = true)
    /\ (forall index item,
          nth_error (items b) index = Some item ->
          (In (itemMismatch index) (mathErrors b)
           <-> gt (itemDeviation item) 0.01%float = true)).
Proof.
  intros st b.
  split.
  { destruct (validateMathematicalAccuracy_spec st) as (st' & E & _ & He & Hw & _).
    exists st'. repeat split; assumption. }
  split; [apply subtotalMismatch_In |].
  intros index item Hn. apply itemMismatch_In. exact Hn.
Qed.

(** Differences that are the Numbers 0.01 and 0.011: a bag at 0.01 or at
    0.011 on a subtotal of 0. *)
Example deviations_of_a_bag :
  subtotalDeviation offByPaisa = 0.01%float
  /\ itemDeviation paisa = 0.01%float
  /\ mathErrors offByPaisa = []
  /\ subtotalDeviation offByMore = 0.011%float
  /\ itemDeviation paisaMore = 0.011%float
  /\ mathErrors offByMore = [subtotalMismatch; itemMismatch 0].
Proof. repeat split; reflexivity. Qed.

(** The deviation is the binary64 difference.  For the printed amounts
    85.00 and 85.01 it is a little more than 0.01, and the check reports
    them; for 0.01 and 0 it is 0.01, and the check does not. *)
Remark deviation_of_printed_amounts :
  subtotalDeviation printedPaisaApart = 0.010000000000005116%float
  /\ In subtotalMismatch (mathErrors printedPaisaApart)
  /\ subtotalDeviation offByPaisa = 0.01%float
  /\ mathErrors offByPaisa = [].
Proof.
  split; [reflexivity |]. split; [left; reflexivity |].
  split; reflexivity.
Qed.

(** C3, at amounts one paisa apart.  One unit at 85.00 is charged 85.01 and
    the subtotal is printed as 85.00, so both deviations are one paisa,
    which the specification and the comment on [tolerance] in the source
    ("1 paisa tolerance") let pass.  The differences that the code computes
    are the Number 0.010000000000005116, which is greater than the Number
    0.01: the check appends the error of high severity for the subtotal and
    the error of medium severity for the item and leaves [mathVerification]
    at [false], and [validateBill] returns an invalid bill with
    these two errors and a score of 60.  At 350.00 and 350.01 the computed
    differences are 0.009999999999990905 and the same check reports
    nothing. *)
Theorem C3_one_paisa_apart_is_reported :
  (price riceOnePaisaOff = parseFloat (str "85.01")
   /\ unitPrice riceOnePaisaOff = parseFloat (str "85.00")
   /\ subtotal onePaisaApart = parseFloat (str "85.00")
   /\ sumPrices (items onePaisaApart) = parseFloat (str "85.01"))
  /\ subtotalDeviation onePaisaApart = 0.010000000000005116%float
  /\ itemDeviation riceOnePaisaOff = 0.010000000000005116%float
  /\ (exists st',
        validateMathematicalAccuracy (initialStore onePaisaApart) = Returned tt st'
        /\ errors (validation st') = [subtotalMismatch; itemMismatch 0]
        /\ mathVerification (algorithmResults (validation st')) = Some false)
  /\ errors (result exampleEnv onePaisaApart) = [subtotalMismatch; itemMismatch 0]
  /\ mathVerification (algorithmResults (result exampleEnv onePaisaApart))
     = Some false
  /\ isValid (result exampleEnv onePaisaApart) = false
  /\ confidenceScore (result exampleEnv onePaisaApart) = 60
  /\ subtotalDeviation onePaisaApartAt350 = 0.009999999999990905%float
  /\ itemDeviation teaOnePaisaOff = 0.009999999999990905%float
  /\ errors (result exampleEnv onePaisaApartAt350) = []
  /\ mathVerification (algorithmResults (result exampleEnv onePaisaApartAt350))
     = Some true.
Proof.
  split; [repeat split; vm_compute; reflexivity |].
  split; [vm_compute; reflexivity |].
  split; [vm_compute; reflexivity |].
  split.
  { eexists. split; [vm_compute; reflexivity |]. split; reflexivity. }
  repeat split; vm_compute; reflexivity.
Qed.

(* ================================================================== *)
(** * Order and subtraction of Numbers *)
(* ================================================================== *)

Lemma SFcompare_Lt_trans a b c :
  SFcompare a b = Some Lt -> SFcompare b c = Some Lt -> SFcompare a c = Some Lt.
Proof.
  destruct a as [sa | sa | | sa ma ea], b as [sb | sb | | sb mb eb],
           c as [sc | sc | | sc mc ec]; simpl;
    try discriminate;
    try (destruct sa, sb, sc; simpl; intros; congruence).
  change (PosDef.Pos.compare_cont Eq ma mb) with (Pos.compare ma mb).
  change (PosDef.Pos.compare_cont Eq mb mc) with (Pos.compare mb mc).
  change (PosDef.Pos.compare_cont Eq ma mc) with (Pos.compare ma mc).
  destruct sa, sb, sc; simpl; intros H1 H2; try congruence;
    destruct (Z.compare_spec ea eb), (Z.compare_spec eb ec), (Z.compare_spec ea ec);
    subst; try lia; try congruence;
    destruct (Pos.compare_spec ma mb), (Pos.compare_spec mb mc),
             (Pos.compare_spec ma mc);
    subst; simpl in *; try lia; congruence.
Qed.

Lemma SFcompare_irrefl a : SFcompare a a <> Some Lt.
Proof.
  destruct a as [s | s | | s m e]; simpl;
    try (destruct s; discriminate); try discriminate.
  change (PosDef.Pos.compare_cont Eq m m) with (Pos.compare m m).
  rewrite Z.compare_refl, Pos.compare_refl. destruct s; discriminate.
Qed.

Lemma lt_trans (x y z : number) :
  lt x y = true -> lt y z = true -> lt x z = true.
Proof.
  unfold lt. rewrite !ltb_spec. unfold SFltb.
  destruct (SFcompare (Prim2SF x) (Prim2SF y)) as [[] |] eqn:E1; try discriminate.
  destruct (SFcompare (Prim2SF y) (Prim2SF z)) as [[] |] eqn:E2; try discriminate.
  intros _ _. rewrite (SFcompare_Lt_trans _ _ _ E1 E2). reflexivity.
Qed.

Lemma lt_irrefl (x : number) : lt x x = false.
Proof.
  unfold lt. rewrite ltb_spec. unfold SFltb.
  destruct (SFcompare (Prim2SF x) (Prim2SF x)) as [[] |] eqn:E; try reflexivity.
  destruct (SFcompare_irrefl _ E).
Qed.


(* ================================================================== *)
(** * C2: the tax check *)
(* ================================================================== *)

(** The scan of [findClosestTaxRate] keeps a rate to which no rate seen so
    far is strictly nearer. *)
Lemma closest_scan (a : number) (l : list number) :
  forall (seen : list number) (c : number),
    In c seen ->
    (forall r, In r seen ->
               lt (Math_abs (r - a)%float) (Math_abs (c - a)%float) = false) ->
    In (fold_left (closerRate a) l c) (seen ++ l)
    /\ (forall r, In r (seen ++ l) ->
                  lt (Math_abs (r - a)%float)
                     (Math_abs (fold_left (closerRate a) l c - a)%float) = false).
Proof.
  induction l as [| x l IH]; intros seen c Hc Hmin; simpl.
  - rewrite app_nil_r. split; assumption.
  - replace (seen ++ x :: l) with ((seen ++ [x]) ++ l)
      by (rewrite <- app_assoc; reflexivity).
    apply IH.
    + unfold closerRate. apply in_or_app.
      destruct (lt _ _); [right; left; reflexivity | left; exact Hc].
    + intros r Hr. unfold closerRate.
      destruct (lt (Math_abs (x - a)%float) (Math_abs (c - a)%float)) eqn:E.
      * apply in_app_or in Hr as [Hr | [<- | []]]; [| apply lt_irrefl].
        destruct (lt (Math_abs (r - a)%float) (Math_abs (x - a)%float)) eqn:E2;
          [| reflexivity].
        rewrite <- (Hmin r Hr). symmetry. exact (lt_trans _ _ _ E2 E).
      * apply in_app_or in Hr as [Hr | [<- | []]]; [exact (Hmin r Hr) | exact E].
Qed.

Lemma closestRateTo_nearest (a : number) :
  In (closestRateTo a) indianTaxRates
  /\ (forall r, In r indianTaxRates ->
                lt (Math_abs (r - a)%float)
                   (Math_abs (closestRateTo a - a)%float) = false).
Proof.
  unfold closestRateTo, indianTaxRates, reduce1.
  apply (closest_scan a [5; 12; 18; 28]%float [0%float] 0%float).
  - left. reflexivity.
  - intros r [<- | []]. apply lt_irrefl.
Qed.

Lemma findClosestTaxRate_returns (a : number) st :
  findClosestTaxRate a st = Returned (closestRateTo a) st.
Proof. reflexivity. Qed.

Lemma validateTaxCalculations_spec st :
  let b := billData st in
  exists st',
    validateTaxCalculations st = Returned tt st'
    /\ billData st' = b
    /\ errors (validation st')
       = errors (validation st)
         ++ (if strictEq (tax b) 0%float then [] else taxErrors b)
    /\ warnings (validation st')
       = warnings (validation st)
         ++ (if strictEq (tax b) 0%float then [issue TAX_ERROR low None] else [])
    /\ (strictEq (tax b) 0%float = true ->
        flagIs taxValidation (validation st')).
Proof.
  intro b. subst b.
  unfold validateTaxCalculations, taxErrors, rateDeviation, taxDeviation,
    actualTaxRateOf, flagIs.
  unfold tryCatch, bind at 1, getBill. cbv beta iota zeta.
  destruct (strictEq (tax (billData st)) 0%float).
  - eexists. split; [reflexivity |]. simpl. rewrite app_nil_r.
    repeat split; reflexivity.
  - unfold bind at 1. rewrite findClosestTaxRate_returns.
    unfold bind at 1.
    destruct (gt (Math_abs _) 0.5%float); simpl;
      unfold bind, when; destruct (gt (Math_abs _) 0.01%float); simpl;
      (eexists; split; [reflexivity |]); simpl;
      rewrite ?app_nil_r, <- ?app_assoc;
      (repeat split; try reflexivity; discriminate).
Qed.

(* ================================================================== *)
(** * The score, and what reaches the result *)
(* ================================================================== *)

Lemma fold_left_minus {A} (f : A -> Z) (l : list A) :
  forall s, fold_left (fun score x => score - f x) l s = s - sumOver f l.
Proof.
  induction l as [| x r IH]; intro s; simpl; [lia |]. rewrite IH. lia.
Qed.

Lemma deductedScore_sum env v :
  deductedScore env v
  = 100 - sumOver errorPoints (errors v) - sumOver (warningPoints env) (warnings v).
Proof.
  unfold deductedScore.
  rewrite (fold_left_minus (warningPoints env)), (fold_left_minus errorPoints).
  reflexivity.
Qed.

Lemma sumOver_app {A} (f : A -> Z) (l1 l2 : list A) :
  sumOver f (l1 ++ l2) = sumOver f l1 + sumOver f l2.
Proof. induction l1 as [| x r IH]; simpl; [reflexivity | rewrite IH; lia]. Qed.

Lemma sumOver_nonneg {A} (f : A -> Z) (l : list A) :
  (forall x, 0 <= f x) -> 0 <= sumOver f l.
Proof.
  intro Hf. induction l as [| x r IH]; simpl; [lia |]. specialize (Hf x). lia.
Qed.

Lemma sumOver_incl {A} (f : A -> Z) (l' : list A) :
  (forall x, 0 <= f x) ->
  forall l, NoDup l' -> incl l' l -> sumOver f l' <= sumOver f l.
Proof.
  intro Hf. induction l' as [| a r IH]; intros l Hnd Hin; simpl.
  - apply sumOver_nonneg. exact Hf.
  - inversion Hnd as [| ? ? Ha Hr]; subst.
    destruct (in_split a l (Hin a (or_introl eq_refl))) as (l1 & l2 & ->).
    assert (Hsub : incl r (l1 ++ l2)).
    { intros x Hx. specialize (Hin x (or_intror Hx)).
      apply in_app_or in Hin as [H | [H | H]].
      - apply in_or_app. left. exact H.
      - subst x. contradiction.
      - apply in_or_app. right. exact H. }
    specialize (IH (l1 ++ l2) Hr Hsub).
    rewrite sumOver_app in *. simpl. lia.
Qed.

Lemma errorPoints_nonneg i : 0 <= errorPoints i.
Proof. unfold errorPoints. destruct (severity i); simpl; lia. Qed.

Lemma warningPoints_nonneg env i :
  0 <= lowWarningDeduction env -> 0 <= warningPoints env i.
Proof. intro H. unfold warningPoints. destruct (severity i); simpl; lia. Qed.

(** Distinct errors in the list cost at least their deductions. *)
Lemma score_bound env v (l : list Issue) :
  0 <= lowWarningDeduction env ->
  NoDup l -> incl l (errors v) ->
  calculateConfidenceScore env v <= Z.max 0 (100 - sumOver errorPoints l).
Proof.
  intros Hlw Hnd Hin. unfold calculateConfidenceScore.
  rewrite deductedScore_sum.
  pose proof (sumOver_incl errorPoints l errorPoints_nonneg _ Hnd Hin).
  pose proof (sumOver_nonneg (warningPoints env) (warnings v)
                (fun i => warningPoints_nonneg env i Hlw)).
  lia.
Qed.

Lemma each_check_keeps_error env (i : Issue) (m : M unit) :
  In m [validateMathematicalAccuracy; validateTaxCalculations; validateTotalAmount;
        validateDateLogic env; analyzePatterns; validateBusinessLogic;
        detectAnomalies env] ->
  preserves (fun st => In i (errors (validation st))) m.
Proof.
  intro Hm. simpl in Hm.
  repeat (destruct Hm as [<- | Hm];
          [ first [ apply validateMathematicalAccuracy_preserves
                  | apply validateTaxCalculations_preserves
                  | apply validateTotalAmount_preserves
                  | apply validateDateLogic_preserves
                  | apply analyzePatterns_preserves
                  | apply validateBusinessLogic_preserves
                  | apply detectAnomalies_preserves ];
            unfold preserves; intros;
            match goal with
            | H : In _ _ |- _ =>
              first [exact H | simpl; apply in_or_app; left; exact H]
            end |]).
  contradiction.
Qed.

Lemma each_check_frame env (b : Receipt) (m : M unit) :
  In m [validateMathematicalAccuracy; validateTaxCalculations; validateTotalAmount;
        validateDateLogic env; analyzePatterns; validateBusinessLogic;
        detectAnomalies env] ->
  preserves (fun st => billData st = b) m.
Proof.
  intro Hm. simpl in Hm.
  repeat (destruct Hm as [<- | Hm];
          [ first [ apply validateMathematicalAccuracy_preserves
                  | apply validateTaxCalculations_preserves
                  | apply validateTotalAmount_preserves
                  | apply validateDateLogic_preserves
                  | apply analyzePatterns_preserves
                  | apply validateBusinessLogic_preserves
                  | apply detectAnomalies_preserves ];
            unfold preserves; intros;
            match goal with H : billData _ = _ |- _ => exact H end |]).
  contradiction.
Qed.

(** A run that returns: the stores after the first four checks hold the
    caller's bill, every error in one of them is in the result, and the
    result's [isValid] and [confidenceScore] are computed from its lists. *)
Lemma run_stores env bill v st :
  runChecks env (initialStore bill) = Returned v st ->
  exists st1 st2 st3 st4,
    validateMathematicalAccuracy (initialStore bill) = Returned tt st1
    /\ validateTaxCalculations st1 = Returned tt st2
    /\ validateTotalAmount st2 = Returned tt st3
    /\ validateDateLogic env st3 = Returned tt st4
    /\ billData st1 = bill /\ billData st2 = bill /\ billData st3 = bill
    /\ (forall i, In i (errors (validation st1)) \/ In i (errors (validation st2))
                  \/ In i (errors (validation st3)) \/ In i (errors (validation st4)) ->
                  In i (errors v))
    /\ isValid v = (List.length (errors v) =? 0)%nat
    /\ confidenceScore v = calculateConfidenceScore env v.
Proof.
  intro R.
  apply runChecks_returned in R as (st7 & R & _ & He & Hw & _ & Hv & Hs).
  apply runAlgorithms_returned in R
    as (st1 & st2 & st3 & st4 & st5 & st6 & H1 & H2 & H3 & H4 & H5 & H6 & H7).
  exists st1, st2, st3, st4.
  assert (keep : forall i m s s',
             In m [validateMathematicalAccuracy; validateTaxCalculations;
                   validateTotalAmount; validateDateLogic env; analyzePatterns;
                   validateBusinessLogic; detectAnomalies env] ->
             m s = Returned tt s' ->
             In i (errors (validation s)) -> In i (errors (validation s'))).
  { intros i m s s' Hm E Hi.
    exact (preserves_returned _ _ _ _ _ (each_check_keeps_error env i m Hm) E Hi). }
  assert (frame : forall m s s',
             In m [validateMathematicalAccuracy; validateTaxCalculations;
                   validateTotalAmount; validateDateLogic env; analyzePatterns;
                   validateBusinessLogic; detectAnomalies env] ->
             m s = Returned tt s' -> billData s = bill -> billData s' = bill).
  { intros m s s' Hm E Hb.
    exact (preserves_returned _ _ _ _ _ (each_check_frame env bill m Hm) E Hb). }
  assert (B1 : billData st1 = bill)
    by (apply (frame validateMathematicalAccuracy _ _ ltac:(simpl; tauto) H1);
        reflexivity).
  assert (B2 : billData st2 = bill)
    by (apply (frame validateTaxCalculations _ _ ltac:(simpl; tauto) H2); exact B1).
  assert (B3 : billData st3 = bill)
    by (apply (frame validateTotalAmount _ _ ltac:(simpl; tauto) H3); exact B2).
  repeat split; try assumption.
  - intros i Hi. rewrite He.
    pose proof (keep i validateTaxCalculations _ _ ltac:(simpl; tauto) H2) as K2.
    pose proof (keep i validateTotalAmount _ _ ltac:(simpl; tauto) H3) as K3.
    pose proof (keep i (validateDateLogic env) _ _ ltac:(simpl; tauto) H4) as K4.
    pose proof (keep i analyzePatterns _ _ ltac:(simpl; tauto) H5) as K5.
    pose proof (keep i validateBusinessLogic _ _ ltac:(simpl; tauto) H6) as K6.
    pose proof (keep i (detectAnomalies env) _ _ ltac:(simpl; tauto) H7) as K7.
    tauto.
  - rewrite Hv, He. reflexivity.
  - rewrite Hs. unfold calculateConfidenceScore, deductedScore.
    rewrite He, Hw. reflexivity.
Qed.

Lemma validateTotalAmount_spec st :
  let b := billData st in
  exists st',
    validateTotalAmount st = Returned tt st'
    /\ billData st' = b
    /\ errors (validation st')
       = errors (validation st)
         ++ (if gt (totalDeviation b) 0.01%float then [totalMismatch] else [])
         ++ (if lt (total b) 0%float then [totalMismatch] else [])
    /\ totalCheck (algorithmResults (validation st'))
       = (if gt (totalDeviation b) 0.01%float
          then totalCheck (algorithmResults (validation st))
          else Some true)
    /\ mathVerification (algorithmResults (validation st'))
       = mathVerification (algorithmResults (validation st)).
Proof.
  intro b. subst b. unfold validateTotalAmount, totalDeviation.
  unfold tryCatch, bind at 1, getBill. cbv beta iota zeta.
  destruct (gt (Math_abs _) 0.01%float);
    unfold bind, when;
    destruct (lt (total (billData st)) 0%float);
    destruct (gt (total (billData st)) 100000%float); simpl;
    (eexists; split; [reflexivity |]); simpl;
    rewrite ?app_nil_r, <- ?app_assoc; repeat split; reflexivity.
Qed.




(* ================================================================== *)
(** * C1: scenario 2 *)
(* ================================================================== *)

(** Scenario 1 is clean: no error, no warning, score 100, every flag set. *)
Example scenario1_is_clean :
  result exampleEnv scenario1
  = {| isValid := true; errors := []; warnings := []; confidenceScore := 100;
       algorithmResults :=
         {| mathVerification := Some true; taxValidation := Some true;
            totalCheck := Some true; dateValidation := Some true;
            patternAnalysis := Some true |} |}.
Proof. vm_compute. reflexivity. Qed.

(** C1, as stated, fails: the bill of scenario 2 scores 35, not 75. *)
Lemma C1_counterexample :
  errors (result exampleEnv scenario2) = [subtotalMismatch; taxMismatch; totalMismatch]
  /\ warnings (result exampleEnv scenario2) = []
  /\ confidenceScore (result exampleEnv scenario2) = 35
  /\ confidenceScore (result exampleEnv scenario2) <> 75.
Proof. vm_compute. repeat split; try reflexivity. discriminate. Qed.

Lemma scenario2_deviations (b : Receipt) (item : LineItem) :
  items b = [item] -> price item = 85%float ->
  subtotal b = 90%float -> tax b = 4.25%float ->
  discount b = 0%float -> total b = 89.25%float ->
  gt (subtotalDeviation b) 0.01%float = true
  /\ strictEq (tax b) 0%float = false
  /\ taxErrors b = [taxMismatch]
  /\ gt (totalDeviation b) 0.01%float = true.
Proof.
  intros Hi Hp Hs Ht Hd Hto.
  unfold subtotalDeviation, taxErrors, rateDeviation, taxDeviation,
    actualTaxRateOf, totalDeviation, sumPrices.
  rewrite Hi, Hs, Ht, Hd, Hto. simpl fold_left. rewrite Hp.
  vm_compute. repeat split; reflexivity.
Qed.

(** C1, amended.  The score is 100 less 25, 15 and 5 for each error of
    high, medium and low severity and less 10 and 5 for each warning of
    high and medium severity.  On the bill of scenario 2 (one item of
    quantity 1 at 85, subtotal printed as 90, tax 4.25, no discount, total
    89.25) the printed subtotal fails three checks, not one: the call
    returns [isValid = false] and a score of 35 at most, and when the
    checks run to their end the errors include the [MATH_ERROR] of high
    severity, a [TAX_ERROR] of medium severity (5 per cent of 90 is 4.50)
    and a [TOTAL_ERROR] of high severity (90 + 4.25 is not 89.25). *)
Theorem C1_scenario2_fails_three_checks :
  forall env b item,
    items b = [item] ->
    quantity item = 1%float -> unitPrice item = 85%float -> price item = 85%float ->
    subtotal b = 90%float -> tax b = 4.25%float ->
    discount b = 0%float -> total b = 89.25%float ->
    0 <= lowWarningDeduction env ->
    isValid (result env b) = false
    /\ confidenceScore (result env b) <= 35
    /\ ((exists v s, runChecks env (initialStore b) = Returned v s) ->
        In subtotalMismatch (errors (result env b))
        /\ In taxMismatch (errors (result env b))
        /\ In totalMismatch (errors (result env b))
        /\ confidenceScore (result env b)
           = Z.max 0 (100 - sumOver errorPoints (errors (result env b))
                      - sumOver (warningPoints env) (warnings (result env b))))
    /\ (errorDeduction high = 25 /\ errorDeduction medium = 15
        /\ errorDeduction low = 5
        /\ warningDeduction env high = 10 /\ warningDeduction env medium = 5).
Proof.
  intros env b item Hi Hq Hu Hp Hs Ht Hd Hto Hlw.
  destruct (scenario2_deviations b item Hi Hp Hs Ht Hd Hto) as (D1 & Z2 & D2 & D3).
  assert (Hrun : forall v s,
             runChecks env (initialStore b) = Returned v s ->
             In subtotalMismatch (errors v) /\ In taxMismatch (errors v)
             /\ In totalMismatch (errors v)
             /\ isValid v = false /\ confidenceScore v <= 35
             /\ confidenceScore v
                = Z.max 0 (100 - sumOver errorPoints (errors v)
                           - sumOver (warningPoints env) (warnings v))).
  { intros v s R.
    apply run_stores in R
      as (st1 & st2 & st3 & st4 & H1 & H2 & H3 & _ & B1 & B2 & _ & Hkeep & Hv & Hscore).
    destruct (validateMathematicalAccuracy_spec (initialStore b))
      as (s1 & E1 & _ & He1 & _).
    rewrite E1 in H1. injection H1 as ->.
    destruct (validateTaxCalculations_spec st1) as (s2 & E2 & _ & He2 & _).
    rewrite E2 in H2. injection H2 as ->.
    destruct (validateTotalAmount_spec st2) as (s3 & E3 & _ & He3 & _).
    rewrite E3 in H3. injection H3 as ->.
    simpl in He1. rewrite B1, Z2, D2 in He2. rewrite B2, D3 in He3.
    assert (I1 : In subtotalMismatch (errors v)).
    { apply Hkeep. left. rewrite He1. apply subtotalMismatch_In. exact D1. }
    assert (I2 : In taxMismatch (errors v)).
    { apply Hkeep. right. left. rewrite He2. apply in_or_app. right. left. reflexivity. }
    assert (I3 : In totalMismatch (errors v)).
    { apply Hkeep. right. right. left. rewrite He3.
      apply in_or_app. right. left. reflexivity. }
    repeat split; try assumption.
    - rewrite Hv. destruct (errors v); [destruct I1 | reflexivity].
    - rewrite Hscore.
      pose proof (score_bound env v [subtotalMismatch; taxMismatch; totalMismatch] Hlw)
        as Hb.
      simpl in Hb. apply Hb.
      + repeat constructor; simpl; intuition discriminate.
      + intros x [<- | [<- | [<- | []]]]; assumption.
    - rewrite Hscore. unfold calculateConfidenceScore.
      rewrite deductedScore_sum. reflexivity. }
  split; [| split; [| split]].
  - destruct (runChecks env (initialStore b)) as [v s | e s] eqn:R.
    + rewrite (result_returned _ _ _ _ R). apply (Hrun v s eq_refl).
    + rewrite (result_thrown _ _ _ _ R). reflexivity.
  - destruct (runChecks env (initialStore b)) as [v s | e s] eqn:R.
    + rewrite (result_returned _ _ _ _ R). apply (Hrun v s eq_refl).
    + rewrite (result_thrown _ _ _ _ R). simpl. lia.
  - intros (v & s & R). rewrite (result_returned _ _ _ _ R).
    destruct (Hrun v s R) as (I1 & I2 & I3 & _ & _ & Hsc).
    repeat split; assumption.
  - repeat split; reflexivity.
Qed.

Lemma C1_witness :
  isValid (result exampleEnv scenario2) = false
  /\ confidenceScore (result exampleEnv scenario2) <= 35
  /\ In subtotalMismatch (errors (result exampleEnv scenario2))
  /\ In taxMismatch (errors (result exampleEnv scenario2))
  /\ In totalMismatch (errors (result exampleEnv scenario2)).
Proof.
  assert (L : 0 <= lowWarningDeduction exampleEnv) by (vm_compute; discriminate).
  assert (R : exists v s,
             runChecks exampleEnv (initialStore scenario2) = Returned v s).
  { eexists. eexists. vm_compute. reflexivity. }
  destruct (C1_scenario2_fails_three_checks exampleEnv scenario2 rice
              eq_refl eq_refl eq_refl eq_refl eq_refl eq_refl eq_refl eq_refl L)
    as (Hv & Hs & Hr & _).
  destruct (Hr R) as (I1 & I2 & I3 & _).
  repeat split; assumption.
Defined.

(* ================================================================== *)
(** * C4: dates in the future *)
(* ================================================================== *)

Lemma future_iff env (t : Z) :
  ltQ (daysDifference env (Some t)) (-1) = true <-> now env - t < - msPerDay.
Proof.
  unfold ltQ, daysDifference, Qltb, Qle_bool, msPerDay. simpl.
  rewrite negb_true_iff, Z.leb_gt. lia.
Qed.

Lemma tomorrow_is_not_future env (offset : Z) :
  ltQ (daysDifference env (Some (startOfTomorrow offset (now env)))) (-1) = false.
Proof.
  destruct (ltQ _ (-1)) eqn:E; [| reflexivity].
  apply future_iff in E. unfold startOfTomorrow, msPerDay in E.
  change (1000 * 60 * 60 * 24) with 86400000 in E.
  pose proof (Z.div_mod (now env + offset) 86400000 ltac:(lia)) as Hd.
  pose proof (Z.mod_pos_bound (now env + offset) 86400000 ltac:(lia)) as Hm.
  lia.
Qed.

Lemma validateDateLogic_spec env st :
  let b := billData st in
  date b <> [] ->
  exists st',
    validateDateLogic env st = Returned tt st'
    /\ billData st' = b
    /\ errors (validation st')
       = errors (validation st)
         ++ (if ltQ (daysDifferenceOf env b) (-1) then [futureDate] else []).
Proof.
  intros b Hd. subst b.
  unfold validateDateLogic, daysDifferenceOf.
  unfold tryCatch, bind at 1, getBill. cbv beta iota zeta.
  destruct (date (billData st)) as [| c r] eqn:Ed; [contradiction |].
  unfold bind, when.
  destruct (ltQ _ (-1)); [| destruct (gtQ _ maxBillAge)];
    match goal with
    | |- context [(?c && gt ?x ?y)%bool] => destruct (c && gt x y)%bool
    end; simpl;
    (eexists; split; [reflexivity |]); simpl;
    rewrite ?app_nil_r; split; reflexivity.
Qed.

Lemma future_of_midnight env (d : Z) :
  ltQ (daysDifference env (Some (midnightUTC d))) (-1) = true
  <-> utcDay (now env) + 2 <= d.
Proof.
  rewrite future_iff. unfold midnightUTC, utcDay, msPerDay.
  change (1000 * 60 * 60 * 24) with 86400000.
  pose proof (Z.div_mod (now env) 86400000 ltac:(lia)) as Hd.
  pose proof (Z.mod_pos_bound (now env) 86400000 ltac:(lia)) as Hm.
  lia.
Qed.

(** C4, as stated, fails: a bill dated tomorrow gets no error at all and is
    valid.  The clock stands at noon UTC on 2025-06-16, which is 18:00 local
    time, and the bill is dated 2025-06-17, tomorrow on both calendars. *)
Lemma C4_counterexample :
  parseDate exampleEnv (date datedTomorrow)
  = Some (midnightUTC (utcDay (now exampleEnv) + 1))
  /\ utcDay (now exampleEnv) = localDay exampleEnv (now exampleEnv)
  /\ errors (result exampleEnv datedTomorrow) = []
  /\ isValid (result exampleEnv datedTomorrow) = true.
Proof. vm_compute. repeat split; reflexivity. Qed.

(** C4, amended.  On a bill that has a date, the date check appends to
    [errors] one error of type [DATE_ERROR] and high severity exactly when
    [daysDiff = (today - billDate) / one day < -1], that is when the instant
    read from the bill's date lies more than a day after the clock;
    [validateBill] then returns [isValid = false].  A date that is not
    understood gets no such error.  A date-only string is read as the start
    of its day in UTC: the error is raised exactly when that day is two
    days or more after the clock's day in UTC.  So a bill dated tomorrow on
    the UTC calendar never gets the error, and a bill dated tomorrow on the
    local calendar gets it exactly when the local calendar is a day ahead
    of UTC at the time of validation.  No issue of type [FUTURE_DATE] is
    involved. *)
Theorem C4_future_date_fires_beyond_one_day :
  forall env st,
    let b := billData st in
    date b <> [] ->
    (exists st',
        validateDateLogic env st = Returned tt st'
        /\ errors (validation st')
           = errors (validation st)
             ++ (if ltQ (daysDifferenceOf env b) (-1) then [futureDate] else []))
    /\ (forall t, parseDate env (date b) = Some t ->
                  (ltQ (daysDifferenceOf env b) (-1) = true
                   <-> now env - t < - msPerDay))
    /\ (parseDate env (date b) = None -> ltQ (daysDifferenceOf env b) (-1) = false)
    /\ (forall d, parseDate env (date b) = Some (midnightUTC d) ->
                  (ltQ (daysDifferenceOf env b) (-1) = true
                   <-> utcDay (now env) + 2 <= d))
    /\ (parseDate env (date b) = Some (midnightUTC (utcDay (now env) + 1)) ->
        ltQ (daysDifferenceOf env b) (-1) = false)
    /\ (parseDate env (date b)
        = Some (midnightUTC (localDay env (now env) + 1)) ->
        (ltQ (daysDifferenceOf env b) (-1) = true
         <-> utcDay (now env) < localDay env (now env)))
    /\ (ltQ (daysDifferenceOf env b) (-1) = true ->
        isValid (result env b) = false
        /\ ((exists v s, runChecks env (initialStore b) = Returned v s) ->
            In futureDate (errors (result env b))))
    /\ type futureDate = DATE_ERROR /\ severity futureDate = high.
Proof.
  intros env st b Hd.
  split.
  { destruct (validateDateLogic_spec env st Hd) as (st' & E & _ & He).
    exists st'. split; assumption. }
  split.
  { intros t Ht. unfold daysDifferenceOf. rewrite Ht. apply future_iff. }
  split.
  { intro Ht. unfold daysDifferenceOf. rewrite Ht. reflexivity. }
  split.
  { intros d Ht. unfold daysDifferenceOf. rewrite Ht. apply future_of_midnight. }
  split.
  { intro Ht. unfold daysDifferenceOf. rewrite Ht.
    destruct (ltQ _ (-1)) eqn:E; [| reflexivity].
    apply future_of_midnight in E. lia. }
  split.
  { intro Ht. unfold daysDifferenceOf. rewrite Ht, future_of_midnight. lia. }
  split; [| split; reflexivity].
  intro Hf.
  assert (Hrun : forall v s,
             runChecks env (initialStore b) = Returned v s ->
             In futureDate (errors v) /\ isValid v = false).
  { intros v s R.
    apply run_stores in R
      as (st1 & st2 & st3 & st4 & _ & _ & _ & H4 & _ & _ & B3 & Hkeep & Hv & _).
    assert (Hd3 : date (billData st3) <> []) by (rewrite B3; exact Hd).
    destruct (validateDateLogic_spec env st3 Hd3) as (s4 & E4 & _ & He4).
    rewrite E4 in H4. injection H4 as ->.
    rewrite B3 in He4. fold b in He4. rewrite Hf in He4.
    assert (I : In futureDate (errors v)).
    { apply Hkeep. right. right. right. rewrite He4.
      apply in_or_app. right. left. reflexivity. }
    split; [exact I |].
    rewrite Hv. destruct (errors v); [destruct I | reflexivity]. }
  destruct (runChecks env (initialStore b)) as [v s | e s] eqn:R.
  - rewrite (result_returned _ _ _ _ R).
    destruct (Hrun v s eq_refl) as (I & Hv).
    split; [exact Hv | intros _; exact I].
  - rewrite (result_thrown _ _ _ _ R). split; [reflexivity |].
    intros (v & s' & H). discriminate H.
Qed.

(** At noon UTC, 18:00 local time, the bill dated tomorrow gets no error.
    At 20:30 UTC, which is 02:00 of the next day in a zone five and a half
    hours ahead, the bill that carries tomorrow's local date, 2025-06-18,
    gets the error and is invalid. *)
Lemma C4_witness :
  (date datedTomorrow <> []
   /\ parseDate exampleEnv (date datedTomorrow)
      = Some (midnightUTC (localDay exampleEnv (now exampleEnv) + 1))
   /\ ltQ (daysDifferenceOf exampleEnv datedTomorrow) (-1) = false)
  /\ (date datedInTwoDays <> []
      /\ parseDate afterMidnightEnv (date datedInTwoDays)
         = Some (midnightUTC (localDay afterMidnightEnv (now afterMidnightEnv) + 1))
      /\ utcDay (now afterMidnightEnv) < localDay afterMidnightEnv (now afterMidnightEnv)
      /\ ltQ (daysDifferenceOf afterMidnightEnv datedInTwoDays) (-1) = true
      /\ isValid (result afterMidnightEnv datedInTwoDays) = false
      /\ In futureDate (errors (result afterMidnightEnv datedInTwoDays))).
Proof.
  assert (D1 : date datedTomorrow <> []) by (vm_compute; discriminate).
  assert (D2 : date datedInTwoDays <> []) by (vm_compute; discriminate).
  assert (P1 : parseDate exampleEnv (date datedTomorrow)
               = Some (midnightUTC (utcDay (now exampleEnv) + 1)))
    by (vm_compute; reflexivity).
  assert (P2 : parseDate afterMidnightEnv (date datedInTwoDays)
               = Some (midnightUTC
                         (localDay afterMidnightEnv (now afterMidnightEnv) + 1)))
    by (vm_compute; reflexivity).
  assert (A : utcDay (now afterMidnightEnv)
              < localDay afterMidnightEnv (now afterMidnightEnv))
    by (vm_compute; reflexivity).
  destruct (C4_future_date_fires_beyond_one_day exampleEnv
              (initialStore datedTomorrow) D1) as (_ & _ & _ & _ & T & _).
  destruct (C4_future_date_fires_beyond_one_day afterMidnightEnv
              (initialStore datedInTwoDays) D2) as (_ & _ & _ & _ & _ & L & F & _).
  assert (R : exists v s,
             runChecks afterMidnightEnv (initialStore datedInTwoDays)
             = Returned v s).
  { eexists. eexists. vm_compute. reflexivity. }
  split.
  - split; [exact D1 |]. split; [vm_compute; reflexivity |]. exact (T P1).
  - split; [exact D2 |]. split; [exact P2 |]. split; [exact A |].
    pose proof (proj2 (L P2) A) as Hl.
    split; [exact Hl |].
    destruct (F Hl) as (Hv & Hi). split; [exact Hv | exact (Hi R)].
Defined.

(* ================================================================== *)
(** * What a match consumes and captures *)
(* ================================================================== *)




Lemma consumed_reaches (l : jsstring) (p q : Pos) :
  reaches l p q -> consumed p q = l.
Proof.
  intros (Ha & Hb). unfold consumed. rewrite Hb, Ha, length_app, length_rev.
  replace (List.length l + List.length (before p) - List.length (before p))%nat
    with (List.length l + 0)%nat by lia.
  rewrite firstn_app_2. simpl. apply app_nil_r.
Qed.






(* ================================================================== *)
(** * C9: the quantity of a parsed item *)
(* ================================================================== *)




Lemma filterMap_In {A B} (f : A -> option B) (l : list A) (y : B) :
  In y (filterMap f l) -> exists x, In x l /\ f x = Some y.
Proof.
  induction l as [| x r IH]; simpl; [contradiction |].
  destruct (f x) as [z |] eqn:E.
  - intros [<- | H].
    + exists x. split; [left; reflexivity | exact E].
    + destruct (IH H) as (x' & Hx & Hf). exists x'. split; [right |]; assumption.
  - intro H. destruct (IH H) as (x' & Hx & Hf). exists x'. split; [right |]; assumption.
Qed.

Lemma In_firstn {A} (n : nat) (l : list A) (x : A) : In x (firstn n l) -> In x l.
Proof.
  intro H. rewrite <- (firstn_skipn n l). apply in_or_app. left. exact H.
Qed.

Lemma In_skipn {A} (n : nat) (l : list A) (x : A) : In x (skipn n l) -> In x l.
Proof.
  intro H. rewrite <- (firstn_skipn n l). apply in_or_app. right. exact H.
Qed.





(* ================================================================== *)
(** * C7: [parseBillData] on strings and on [null] *)
(* ================================================================== *)

(** Every item of the parsed bill is read from a line of the text. *)
Lemma items_come_from_lines env text b item :
  parsesTo env text b ->
  In item (items b) ->
  exists line, In line (preprocessText text) /\ parseItemLine line = Some item.
Proof.
  intros Hp Hi.
  unfold parsesTo, parseBillData, parseBody in Hp. cbv beta iota zeta in Hp.
  injection Hp as <-.
  cbv beta iota zeta delta [items] in Hi. unfold extractItems in Hi.
  destruct (itemSection _ _ _ _ _) as (from & to) in Hi.
  apply filterMap_In in Hi as (line & Hl & Hf).
  exists line. split; [| exact Hf].
  unfold slice in Hl. apply In_firstn, In_skipn in Hl. exact Hl.
Qed.

(** Lines without a price give no item and leave the totals as they are. *)
Lemma filterMap_nothing {A B} (f : A -> option B) (l : list A) :
  (forall x, In x l -> f x = None) -> filterMap f l = [].
Proof.
  induction l as [| x r IH]; intro H; [reflexivity |].
  simpl. rewrite (H x (or_introl eq_refl)). apply IH.
  intros y Hy. apply H. right. exact Hy.
Qed.

Lemma extractItems_without_prices (lines : list jsstring) :
  (forall line, In line lines -> extractPriceFromLine line = None) ->
  extractItems lines = [].
Proof.
  intro H. unfold extractItems.
  destruct (itemSection _ _ _ _ _) as (from & to).
  apply filterMap_nothing. intros line Hl.
  unfold slice in Hl. apply In_firstn, In_skipn in Hl.
  unfold parseItemLine. rewrite (H line Hl). reflexivity.
Qed.

Lemma extractTotalsFromLine_without_price (line : jsstring) (b : Totals) :
  extractPriceFromLine line = None -> extractTotalsFromLine line b = b.
Proof.
  intro H. unfold extractTotalsFromLine, positivePrice. rewrite H.
  cbv beta zeta.
  repeat match goal with
         | |- context [if ?c then b else b] => destruct c
         end;
    reflexivity.
Qed.

Lemma extractFinancialTotals_without_prices (lines : list jsstring) (b : Totals) :
  (forall line, In line lines -> extractPriceFromLine line = None) ->
  extractFinancialTotals lines b = b.
Proof.
  unfold extractFinancialTotals. revert b.
  induction lines as [| l r IH]; intros b H; [reflexivity |].
  simpl. rewrite (extractTotalsFromLine_without_price l b (H l (or_introl eq_refl))).
  apply IH. intros line Hl. apply H. right. exact Hl.
Qed.

(** C7, as stated, fails in its last part: what [parseBillData] throws on
    [null] is a plain [Error], whose name is "Error" and whose message is
    "Bill parsing failed: " followed by the message of the [TypeError]
    caught; [PARSE_ERROR] appears neither as the name nor in the message. *)
Lemma C7_counterexample :
  exists e,
    parseBillData exampleEnv VNull = Raised e
    /\ nameOf e = "Error"%string
    /\ nameOf e <> "PARSE_ERROR"%string
    /\ messageOf e
       = "Bill parsing failed: Cannot read properties of null (reading 'split')"%string
    /\ includes (str (messageOf e)) (str "PARSE_ERROR") = false.
Proof.
  eexists. split; [reflexivity |]. split; [reflexivity |].
  split; [discriminate |]. split; [reflexivity |]. vm_compute. reflexivity.
Qed.

(** C7, amended.  For every string [parseBillData] returns a bill.  Each
    field of it is what its extractor finds in the lines of the text, the
    amounts being completed and rounded by [calculateDerivedValues]; the
    text is kept in [rawText].  Every item is read from a line of the text.
    What is not found is left empty or zero: a text in which no line has a
    price gives no items and amounts of zero, and a text without a line
    that is not blank gives the empty bill.  The three item lines of the
    example give their three items.  The conversion of a date, the one step
    that could throw inside, is made only on a valid date.  The call raises
    only when the argument is [null] or [undefined], and what it raises is
    an [Error] whose message is "Bill parsing failed: " followed by the
    message of the exception caught. *)
Theorem C7_parseBillData_returns_on_every_string :
  forall env,
    (forall text,
        let lines := preprocessText text in
        let totals := calculateDerivedValues (extractItems lines) (printedTotals text) in
        parseBillData env (VString text)
        = Normal {| date := extractDate env lines;
                    storeName := extractStoreName lines;
                    storeAddress := extractStoreAddress lines;
                    billNumber := extractBillNumber lines;
                    items := extractItems lines;
                    subtotal := t_subtotal totals; tax := t_tax totals;
                    taxRate := t_taxRate totals; discount := t_discount totals;
                    total := t_total totals;
                    currency := detectCurrency text; rawText := text |})
    /\ (forall text b item,
          parsesTo env text b -> In item (items b) ->
          exists line, In line (preprocessText text) /\ parseItemLine line = Some item)
    /\ (forall text b,
          parsesTo env text b ->
          (forall line, In line (preprocessText text) ->
                        extractPriceFromLine line = None) ->
          items b = [] /\ subtotal b = 0%float /\ tax b = 0%float
          /\ taxRate b = 0%float /\ discount b = 0%float /\ total b = 0%float)
    /\ (forall text,
          preprocessText text = [] ->
          parseBillData env (VString text)
          = Normal {| date := []; storeName := []; storeAddress := [];
                      billNumber := []; items := []; subtotal := 0; tax := 0;
                      taxRate := 0; discount := 0; total := 0;
                      currency := detectCurrency text; rawText := text |})
    /\ parseBillData env (VString threeItemsText)
       = Normal {| date := []; storeName := str "Rice Basmati 2 kg ₹85.00";
                   storeAddress := []; billNumber := [];
                   items := [ {| name := str "Rice Basmati"; quantity := 2;
                                 unitPrice := 42.5; price := 85 |};
                              {| name := str "Eggs"; quantity := 12;
                                 unitPrice := 105.04; price := 1260.5 |};
                              {| name := str "Bread"; quantity := 1;
                                 unitPrice := 30; price := 30 |} ];
                   subtotal := 1375.5; tax := 0; taxRate := 0; discount := 0;
                   total := 1375.5; currency := str "₹";
                   rawText := threeItemsText |}
    /\ (forall dateString t,
          parseDate env dateString = Some t ->
          toISODate (parseDate env dateString) = Normal (isoDate t)
          /\ formatDate env dateString = isoDate t)
    /\ (forall dateString,
          parseDate env dateString = None -> formatDate env dateString = dateString)
    /\ parseBillData env VNull
       = Raised (Error "Bill parsing failed: Cannot read properties of null (reading 'split')")
    /\ parseBillData env VUndefined
       = Raised (Error "Bill parsing failed: Cannot read properties of undefined (reading 'split')")
    /\ (forall v e,
          parseBillData env v = Raised e ->
          (v = VNull \/ v = VUndefined)
          /\ nameOf e = "Error"%string
          /\ e = Error ("Bill parsing failed: "
                        ++ match v with
                           | VNull => "Cannot read properties of null (reading 'split')"
                           | _ => "Cannot read properties of undefined (reading 'split')"
                           end)).
Proof.
  intro env.
  split; [intro text; reflexivity |].
  split; [intros text b item; apply items_come_from_lines |].
  split.
  { intros text b Hp H.
    unfold parsesTo, parseBillData, parseBody in Hp. cbv beta iota zeta in Hp.
    injection Hp as <-. cbn [items subtotal tax taxRate discount total].
    rewrite (extractItems_without_prices _ H),
            (extractFinancialTotals_without_prices _ _ H).
    repeat split; vm_compute; reflexivity. }
  split.
  { intros text H. unfold parseBillData, parseBody. cbv beta iota zeta.
    rewrite H. reflexivity. }
  split; [vm_compute; reflexivity |].
  split.
  { intros s t Ht. unfold formatDate. rewrite Ht. split; reflexivity. }
  split.
  { intros s Ht. unfold formatDate. rewrite Ht. reflexivity. }
  split; [reflexivity |]. split; [reflexivity |].
  intros v e H. destruct v as [| | text]; simpl in H.
  - injection H as <-. split; [left; reflexivity | split; reflexivity].
  - injection H as <-. split; [right; reflexivity | split; reflexivity].
  - discriminate H.
Qed.

(** A text that is not a bill, and [null] *)
Lemma C7_witness :
  (exists b, parsesTo exampleEnv (text ["hello world"]%string) b
             /\ storeName b = str "hello world"
             /\ items b = [] /\ total b = 0%float)
  /\ exists m, parseBillData exampleEnv VNull = Raised (Error ("Bill parsing failed: " ++ m)).
Proof.
  destruct (C7_parseBillData_returns_on_every_string exampleEnv)
    as (S & _ & Z & _ & _ & _ & _ & N & _ & F).
  split.
  - eexists. split; [exact (S (text ["hello world"]%string)) |].
    split; [vm_compute; reflexivity |].
    assert (P : forall line,
               In line (preprocessText (text ["hello world"]%string)) ->
               extractPriceFromLine line = None).
    { intros line [<- | []]. vm_compute. reflexivity. }
    destruct (Z _ _ (S (text ["hello world"]%string)) P) as (Hi & _ & _ & _ & _ & Ht).
    split; [exact Hi | exact Ht].
  - destruct (F VNull _ N) as (_ & _ & Hm). eexists. rewrite N. reflexivity.
Defined.

(* ================================================================== *)
(** * C5: from the parser to the validator *)
(* ================================================================== *)

(** A flag that is set after the first or after the third check is set in
    the result. *)
Lemma run_flags env bill v st :
  runChecks env (initialStore bill) = Returned v st ->
  exists st1 st2 st3,
    validateMathematicalAccuracy (initialStore bill) = Returned tt st1
    /\ validateTaxCalculations st1 = Returned tt st2
    /\ validateTotalAmount st2 = Returned tt st3
    /\ billData st2 = bill
    /\ (forall f,
          In f [mathVerification; taxValidation; totalCheck; dateValidation;
                patternAnalysis] ->
          flagIs f (validation st1) \/ flagIs f (validation st3) ->
          flagIs f v).
Proof.
  intro R.
  pose proof (run_stores _ _ _ _ R)
    as (s1 & s2 & s3 & s4 & G1 & G2 & G3 & _ & _ & B2 & _).
  apply runChecks_returned in R as (st7 & R & _ & _ & _ & Hr & _).
  apply runAlgorithms_returned in R
    as (st1 & st2 & st3 & st4 & st5 & st6 & H1 & H2 & H3 & H4 & H5 & H6 & H7).
  rewrite G1 in H1. injection H1 as <-.
  rewrite G2 in H2. injection H2 as <-.
  rewrite G3 in H3. injection H3 as <-.
  exists s1, s2, s3. repeat split; try assumption.
  intros f Hf Hflag. unfold flagIs. rewrite Hr.
  assert (keep : forall m s s',
             In m [validateMathematicalAccuracy; validateTaxCalculations;
                   validateTotalAmount; validateDateLogic env; analyzePatterns;
                   validateBusinessLogic; detectAnomalies env] ->
             m s = Returned tt s' ->
             flagIs f (validation s) -> flagIs f (validation s')).
  { intros m s s' Hm E Hi.
    exact (preserves_returned _ _ _ _ _ (each_check_keeps_flag env f m Hf Hm) E Hi). }
  pose proof (keep validateTaxCalculations _ _ ltac:(simpl; tauto) G2) as K2.
  pose proof (keep validateTotalAmount _ _ ltac:(simpl; tauto) G3) as K3.
  pose proof (keep (validateDateLogic env) _ _ ltac:(simpl; tauto) H4) as K4.
  pose proof (keep analyzePatterns _ _ ltac:(simpl; tauto) H5) as K5.
  pose proof (keep validateBusinessLogic _ _ ltac:(simpl; tauto) H6) as K6.
  pose proof (keep (detectAnomalies env) _ _ ltac:(simpl; tauto) H7) as K7.
  unfold flagIs in *. tauto.
Qed.


Lemma parsed_fields env text b :
  parsesTo env text b ->
  let c := calculateDerivedValues (extractItems (preprocessText text))
                                  (printedTotals text) in
  items b = extractItems (preprocessText text)
  /\ subtotal b = t_subtotal c
  /\ tax b = t_tax c
  /\ discount b = t_discount c
  /\ total b = t_total c.
Proof.
  unfold parsesTo, parseBillData, parseBody. cbv beta iota zeta.
  intro H. injection H as <-. repeat split; reflexivity.
Qed.




(* ================================================================== *)
(** * Further properties of [validateBill] *)
(* ================================================================== *)

(** X1.  The object that [validateBill] returns is valid exactly when its
    list of errors is empty, whether the checks returned or the [catch]
    block built the object; warnings do not make a bill invalid. *)
Theorem validateBill_valid_iff_no_errors :
  forall env b, isValid (result env b) = true <-> errors (result env b) = [].
Proof.
  intros env b.
  destruct (runChecks env (initialStore b)) as [v st | e st] eqn:R.
  - rewrite (result_returned _ _ _ _ R).
    apply runChecks_returned in R as (st7 & _ & _ & He & _ & _ & Hv & _).
    rewrite Hv, He. destruct (errors (validation st7)); simpl; split; congruence.
  - rewrite (result_thrown _ _ _ _ R). simpl. split; discriminate.
Qed.

(** ** The entries that are pushed *)

Lemma known_pushError (i : Issue) :
  emittedError i = true ->
  preserves (fun st => knownIssues (validation st)) (pushError i).
Proof.
  intros H st (He & Hw). split; simpl; [| exact Hw].
  rewrite forallb_app, He. simpl. rewrite H. reflexivity.
Qed.

Lemma known_pushWarning (i : Issue) :
  emittedWarning i = true ->
  preserves (fun st => knownIssues (validation st)) (pushWarning i).
Proof.
  intros H st (He & Hw). split; simpl; [exact He |].
  rewrite forallb_app, Hw. simpl. rewrite H. reflexivity.
Qed.

Lemma known_setter (m : M unit) :
  In m [setMathVerification; setTaxValidation; setTotalCheck;
        setDateValidation; setPatternAnalysis] ->
  preserves (fun st => knownIssues (validation st)) m.
Proof.
  intros Hm st H. simpl in Hm.
  repeat (destruct Hm as [<- | Hm]; [exact H |]). contradiction.
Qed.

Lemma known_check env (m : M unit) :
  In m [validateMathematicalAccuracy; validateTaxCalculations; validateTotalAmount;
        validateDateLogic env; analyzePatterns; validateBusinessLogic;
        detectAnomalies env] ->
  preserves (fun st => knownIssues (validation st)) m.
Proof.
  intro Hm. simpl in Hm.
  repeat (destruct Hm as [<- | Hm];
          [ unfold validateMathematicalAccuracy, validateTaxCalculations,
              findClosestTaxRate, validateTotalAmount, validateDateLogic,
              analyzePatterns, detectDuplicateItems, detectPriceOutliers,
              analyzeQuantityPatterns, detectSuspiciousRounding,
              validateBusinessLogic, validateItemCombinations,
              validatePricingConsistency, detectAnomalies, checkBenfordsLaw,
              checkTimingAnomalies;
            repeat first
              [ apply preserves_ret | apply preserves_getBill | apply preserves_throw
              | apply known_pushError; reflexivity
              | apply known_pushWarning; reflexivity
              | apply known_setter; simpl; tauto
              | apply preserves_reduce1M | apply preserves_groupItems
              | apply preserves_when
              | apply preserves_forEach; intros
              | apply preserves_tryCatch; [| intro]
              | apply preserves_bind; [| intro]
              | match goal with
                | |- preserves _ (let '(_, _) := ?x in _) => destruct x
                | |- preserves _ (if ?c then _ else _) => destruct c
                | |- preserves _ (match ?x with _ => _ end) => destruct x
                end
              | progress cbv beta zeta ] |]).
  contradiction.
Qed.

Lemma runAlgorithms_known env :
  preserves (fun st => knownIssues (validation st)) (runAlgorithms env).
Proof.
  unfold runAlgorithms.
  repeat first
    [ apply (known_check env); simpl; tauto
    | apply preserves_bind; [| intro] ].
Qed.

Lemma result_known env b : knownIssues (result env b).
Proof.
  destruct (runChecks env (initialStore b)) as [v st | e st] eqn:R.
  - rewrite (result_returned _ _ _ _ R).
    apply runChecks_returned in R as (st7 & R & _ & He & Hw & _).
    unfold knownIssues. rewrite He, Hw.
    apply (preserves_returned _ _ _ _ _ (runAlgorithms_known env) R).
    split; reflexivity.
  - rewrite (result_thrown _ _ _ _ R). split; reflexivity.
Qed.

(** X2.  Every entry of [errors] in the object that [validateBill] returns
    has severity high or medium and one of five types; every entry of
    [warnings] has severity low or medium and one of eight types.  The
    types [PRICE_ERROR] and [FUTURE_DATE] of the schema are never
    written; a date in the future is an error of type [DATE_ERROR]. *)
Theorem validateBill_writes_known_entries :
  forall env b,
    Forall (fun e => (severity e = high \/ severity e = medium)
                     /\ In (type e) [MATH_ERROR; TAX_ERROR; TOTAL_ERROR; DATE_ERROR;
                                     VALIDATION_ERROR])
           (errors (result env b))
    /\ Forall (fun w => (severity w = low \/ severity w = medium)
                        /\ In (type w) [MATH_ERROR; TAX_ERROR; TOTAL_ERROR; DATE_ERROR;
                                        OLD_DATE; DUPLICATE_ITEMS; PRICE_OUTLIER;
                                        SUSPICIOUS_PATTERN])
              (warnings (result env b)).
Proof.
  intros env b. destruct (result_known env b) as (He & Hw).
  rewrite forallb_forall in He, Hw.
  split; apply Forall_forall; intros i Hi.
  - specialize (He i Hi). unfold emittedError in He.
    destruct (severity i), (type i); simpl in *; try discriminate; tauto.
  - specialize (Hw i Hi). unfold emittedWarning in Hw.
    destruct (severity i), (type i); simpl in *; try discriminate; tauto.
Qed.

Lemma known_errors_cost (l : list Issue) :
  forallb emittedError l = true -> l <> [] -> 15 <= sumOver errorPoints l.
Proof.
  destruct l as [| i r]; [contradiction |]. intros H _.
  change (sumOver errorPoints (i :: r)) with (errorPoints i + sumOver errorPoints r).
  simpl in H. apply andb_true_iff in H as (Hi & _).
  pose proof (sumOver_nonneg errorPoints r errorPoints_nonneg).
  unfold emittedError in Hi. unfold errorPoints at 1.
  destruct (severity i); simpl in Hi; try discriminate Hi; simpl errorDeduction; lia.
Qed.

(** X3.  When a low warning costs no negative number of points, the score
    of the object returned is at most 100, and at most 85 when the bill is
    not valid: every error that a check pushes has severity high or
    medium, which cost 25 and 15 points. *)
Theorem invalid_bill_scores_at_most_85 :
  forall env b,
    0 <= lowWarningDeduction env ->
    confidenceScore (result env b) <= 100
    /\ (isValid (result env b) = false -> confidenceScore (result env b) <= 85).
Proof.
  intros env b Hlw. pose proof (result_known env b) as (Hk & _). revert Hk.
  destruct (runChecks env (initialStore b)) as [v st | e st] eqn:R.
  - rewrite (result_returned _ _ _ _ R).
    apply runChecks_returned in R as (st7 & _ & _ & He & Hw & _ & Hv & Hs).
    rewrite Hs, Hv, He, deductedScore_sum. intro Hk.
    pose proof (sumOver_nonneg errorPoints (errors (validation st7))
                  errorPoints_nonneg).
    pose proof (sumOver_nonneg (warningPoints env) (warnings (validation st7))
                  (fun i => warningPoints_nonneg env i Hlw)).
    split; [lia |]. intro Hn.
    assert (errors (validation st7) <> []).
    { intro E. rewrite E in Hn. discriminate Hn. }
    pose proof (known_errors_cost _ Hk ltac:(assumption)). lia.
  - rewrite (result_thrown _ _ _ _ R). intros _. simpl. split; [lia |]. intros _. lia.
Qed.

Lemma invalid_bill_scores_at_most_85_witness :
  0 <= lowWarningDeduction exampleEnv
  /\ isValid (result exampleEnv scenario3) = false
  /\ confidenceScore (result exampleEnv scenario3) <= 85.
Proof.
  assert (L : 0 <= lowWarningDeduction exampleEnv) by (vm_compute; discriminate).
  split; [exact L |]. split; [vm_compute; reflexivity |].
  apply (invalid_bill_scores_at_most_85 exampleEnv scenario3 L).
  vm_compute. reflexivity.
Defined.

(** ** The business-logic check *)

Lemma keeps_error_pricing (i : Issue) :
  preserves (fun st => In i (errors (validation st)))
            (validateItemCombinations ;; validatePricingConsistency).
Proof.
  assert (Hw : forall w, preserves (fun st => In i (errors (validation st)))
                                   (pushWarning w)).
  { intros w st H. exact H. }
  unfold validateItemCombinations, validatePricingConsistency.
  repeat first
    [ apply preserves_ret | apply preserves_getBill | apply Hw
    | apply preserves_groupItems | apply preserves_when
    | apply preserves_forEach; intros
    | apply preserves_bind; [| intro]
    | match goal with
      | |- preserves _ (let '(_, _) := ?x in _) => destruct x
      | |- preserves _ (if ?c then _ else _) => destruct c
      end
    | progress cbv beta zeta ].
Qed.

(** A total below 1 puts the error of the business-logic check into
    [errors], whether the rest of the check returns or throws. *)
Lemma validateBusinessLogic_total st :
  lt (total (billData st)) 1%float = true ->
  In totalBelowOne (errors (validation (storeOf (validateBusinessLogic st)))).
Proof.
  intro H. unfold validateBusinessLogic.
  unfold bind at 1, getBill. cbv beta iota. rewrite H.
  unfold bind at 1, when, pushError, updateValidation. cbv beta iota.
  apply (keeps_error_pricing totalBelowOne).
  simpl. apply in_or_app. right. left. reflexivity.
Qed.

(** The store in which the business-logic check starts holds the bill. *)
Lemma run_to_business env b st0 st7 :
  billData st0 = b ->
  runAlgorithms env st0 = Returned tt st7 ->
  exists st5 st6,
    billData st5 = b
    /\ validateBusinessLogic st5 = Returned tt st6
    /\ detectAnomalies env st6 = Returned tt st7.
Proof.
  intros Hb R.
  apply runAlgorithms_returned in R
    as (st1 & st2 & st3 & st4 & st5 & st6 & H1 & H2 & H3 & H4 & H5 & H6 & H7).
  exists st5, st6. split; [| split; assumption].
  assert (frame : forall m s s',
             In m [validateMathematicalAccuracy; validateTaxCalculations;
                   validateTotalAmount; validateDateLogic env; analyzePatterns;
                   validateBusinessLogic; detectAnomalies env] ->
             m s = Returned tt s' -> billData s = b -> billData s' = b).
  { intros m s s' Hm E Hs.
    exact (preserves_returned _ _ _ _ _ (each_check_frame env b m Hm) E Hs). }
  apply (frame analyzePatterns _ _ ltac:(simpl; tauto) H5).
  apply (frame (validateDateLogic env) _ _ ltac:(simpl; tauto) H4).
  apply (frame validateTotalAmount _ _ ltac:(simpl; tauto) H3).
  apply (frame validateTaxCalculations _ _ ltac:(simpl; tauto) H2).
  apply (frame validateMathematicalAccuracy _ _ ltac:(simpl; tauto) H1).
  exact Hb.
Qed.

(** X4.  A bill whose total is below 1 is never valid: the business-logic
    check pushes a [TOTAL_ERROR] of high severity, which stays in the
    result, unless the check throws and the [catch] block answers.  The
    bill without any data, whose total is 0, is such a bill. *)
Theorem total_below_one_is_invalid :
  forall env b,
    lt (total b) 1%float = true ->
    isValid (result env b) = false
    /\ (In totalBelowOne (errors (result env b))
        \/ result env b = validationError).
Proof.
  intros env b Ht.
  destruct (runChecks env (initialStore b)) as [v st | e st] eqn:R.
  - rewrite (result_returned _ _ _ _ R).
    apply runChecks_returned in R as (st7 & R & _ & He & _ & _ & Hv & _).
    destruct (run_to_business env b (initialStore b) st7 eq_refl R)
      as (st5 & st6 & B5 & H6 & H7).
    assert (Hi : In totalBelowOne (errors (validation st7))).
    { apply (preserves_returned _ _ _ _ _
               (each_check_keeps_error env totalBelowOne (detectAnomalies env)
                  ltac:(simpl; tauto)) H7).
      rewrite <- B5 in Ht. pose proof (validateBusinessLogic_total st5 Ht) as K.
      rewrite H6 in K. exact K. }
    rewrite Hv, He. split; [| left; exact Hi].
    destruct (errors (validation st7)); [destruct Hi | reflexivity].
  - rewrite (result_thrown _ _ _ _ R). split; [reflexivity | right; reflexivity].
Qed.

Lemma total_below_one_is_invalid_witness :
  lt (total allDefault) 1%float = true
  /\ isValid (result exampleEnv allDefault) = false
  /\ (In totalBelowOne (errors (result exampleEnv allDefault))
      \/ result exampleEnv allDefault = validationError).
Proof.
  split; [reflexivity |].
  apply (total_below_one_is_invalid exampleEnv allDefault). reflexivity.
Defined.

(* ================================================================== *)
(** * Equality and case of strings *)
(* ================================================================== *)

Lemma char_eqb_eq (a b : char) : char_eqb a b = true <-> a = b.
Proof. unfold char_eqb. apply N.eqb_eq. Qed.

Lemma jsstring_eqb_eq (a b : jsstring) : jsstring_eqb a b = true <-> a = b.
Proof.
  revert b. induction a as [| x a IH]; intros [| y b]; simpl;
    try (split; [discriminate | discriminate]).
  - split; reflexivity.
  - rewrite andb_true_iff, char_eqb_eq, IH. split.
    + intros (-> & ->). reflexivity.
    + intro H. injection H as -> ->. split; reflexivity.
Qed.

Lemma jsstring_eqb_refl (a : jsstring) : jsstring_eqb a a = true.
Proof. apply jsstring_eqb_eq. reflexivity. Qed.

Lemma jsstring_eqb_neq (a b : jsstring) : jsstring_eqb a b = false <-> a <> b.
Proof.
  split.
  - intros H E. apply jsstring_eqb_eq in E. congruence.
  - intro H. destruct (jsstring_eqb a b) eqn:E; [| reflexivity].
    apply jsstring_eqb_eq in E. contradiction.
Qed.

(** No code unit of a string in lower case is an ASCII capital. *)
Lemma lowerIn_above (t : list (N * N * N * N)) (c : N) :
  forallb (fun e => let '(lo, _, _, target) := e in (90 <? lo)%N && (90 <? target)%N) t
  = true ->
  (90 < c)%N -> (90 < lowerIn t c)%N.
Proof.
  induction t as [| [[[lo hi] step] target] r IH]; simpl; intros H Hc; [exact Hc |].
  apply andb_true_iff in H as (H & Hr).
  apply andb_true_iff in H as (H1 & H2). apply N.ltb_lt in H1, H2.
  destruct (c <? lo)%N; [exact Hc |].
  destruct (c <=? hi)%N; [| exact (IH Hr Hc)].
  destruct (_ =? 0)%N; [lia | exact Hc].
Qed.

Lemma simpleLower_not_upper (c : N) : isUpper (simpleLower c) = false.
Proof.
  unfold simpleLower.
  assert (E : lowerCaseTable = (65, 90, 1, 97)%N :: tl lowerCaseTable) by reflexivity.
  assert (A : forallb (fun e => let '(lo, _, _, target) := e in
                                (90 <? lo)%N && (90 <? target)%N) (tl lowerCaseTable)
              = true) by (vm_compute; reflexivity).
  rewrite E. generalize dependent (tl lowerCaseTable). intros rest _ A.
  cbn [lowerIn]. unfold isUpper, between.
  destruct (c <? 65)%N eqn:L1.
  - apply N.ltb_lt in L1. apply andb_false_iff. left. apply N.leb_gt. exact L1.
  - apply N.ltb_ge in L1. destruct (c <=? 90)%N eqn:L2.
    + rewrite N.mod_1_r. cbn [N.eqb]. apply andb_false_iff. right. apply N.leb_gt. lia.
    + apply N.leb_gt in L2. pose proof (lowerIn_above rest c A L2) as H.
      apply andb_false_iff. right. apply N.leb_gt. exact H.
Qed.

Lemma lowerPoints_not_upper (l : list N) :
  forall bef, forallb (fun x => negb (isUpper x)) (lowerPoints bef l) = true.
Proof.
  induction l as [| c r IH]; intro bef; [reflexivity |].
  cbn [lowerPoints]. rewrite forallb_app, IH, andb_true_r.
  unfold lowerPoint.
  destruct (c =? 304)%N; [reflexivity |].
  destruct (c =? 931)%N; [destruct (isFinalSigma bef r); reflexivity |].
  cbn [forallb]. rewrite simpleLower_not_upper. reflexivity.
Qed.

Lemma fromCodePoints_not_upper (l : list N) :
  forallb (fun x => negb (isUpper x)) l = true ->
  forallb (fun x => negb (isUpper x)) (fromCodePoints l) = true.
Proof.
  unfold fromCodePoints. induction l as [| p r IH]; [reflexivity |].
  cbn [forallb flat_map]. intro H. apply andb_true_iff in H as (Hp & Hr).
  rewrite forallb_app, (IH Hr), andb_true_r. unfold codeUnits.
  destruct (p <? 65536)%N; cbn [forallb].
  - rewrite Hp. reflexivity.
  - unfold isUpper, between.
    replace (55296 + (p - 65536) / 1024 <=? 90)%N with false
      by (symmetry; apply N.leb_gt;
          apply N.lt_le_trans with 55296%N; [reflexivity | apply N.le_add_r]).
    replace (56320 + (p - 65536) mod 1024 <=? 90)%N with false
      by (symmetry; apply N.leb_gt;
          apply N.lt_le_trans with 56320%N; [reflexivity | apply N.le_add_r]).
    rewrite !andb_false_r. reflexivity.
Qed.

Lemma toLowerCase_not_upper (s : jsstring) :
  forallb (fun x => negb (isUpper x)) (toLowerCase s) = true.
Proof. apply fromCodePoints_not_upper, lowerPoints_not_upper. Qed.

(** Of the properties of [Object.prototype], two are written without a
    capital: these are the keys that a name in lower case can be. *)
Lemma inheritedKey_lower (s : jsstring) :
  inheritedKey (toLowerCase s) = true
  <-> toLowerCase s = str "constructor" \/ toLowerCase s = str "__proto__".
Proof.
  split.
  - unfold inheritedKey, objectPrototypeKeys. intro H.
    pose proof (toLowerCase_not_upper s) as L.
    simpl existsb in H.
    repeat (apply orb_true_iff in H as [H | H];
            [ apply jsstring_eqb_eq in H;
              first [ left; exact H | right; exact H
                    | rewrite H in L; vm_compute in L; discriminate L ] |]).
    discriminate H.
  - intros [-> | ->]; reflexivity.
Qed.

(* ================================================================== *)
(** * The exception of the pricing check *)
(* ================================================================== *)

Lemma ownProperty_key (g : Groups) (key : jsstring) (l : list LineItem) :
  ownProperty g key = Some l -> In key (map fst g).
Proof.
  induction g as [| [k x] r IH]; simpl; [discriminate |].
  destruct (jsstring_eqb k key) eqn:E.
  - intros _. left. apply jsstring_eqb_eq. exact E.
  - intro H. right. exact (IH H).
Qed.

Lemma pushTo_keys (g : Groups) (key : jsstring) (item : LineItem) :
  map fst (pushTo g key item) = map fst g.
Proof.
  induction g as [| [k x] r IH]; simpl; [reflexivity |].
  destruct (jsstring_eqb k key); simpl; [reflexivity | rewrite IH; reflexivity].
Qed.

(** The grouping throws at the first item named after a property of
    [Object.prototype], and returns when there is none; the keys of the
    groups are never such names. *)
Lemma groupItems_outcome (l : list LineItem) :
  forall (g : Groups) (st : Store),
    (forall k, In k (map fst g) -> inheritedKey k = false) ->
    if existsb namedAfterPrototype l
    then groupItems l g st
         = Thrown (TypeError "duplicateItems[key].push is not a function") st
    else exists g', groupItems l g st = Returned g' st.
Proof.
  induction l as [| item r IH]; intros g st Hg; simpl.
  - exists g. reflexivity.
  - unfold bind, groupItem, namedAfterPrototype at 1.
    destruct (ownProperty g (toLowerCase (name item))) as [x |] eqn:O.
    + rewrite (Hg _ (ownProperty_key _ _ _ O)). simpl.
      apply IH. rewrite pushTo_keys. exact Hg.
    + destruct (inheritedKey (toLowerCase (name item))) eqn:K; simpl.
      * reflexivity.
      * apply IH. intros k Hk. rewrite map_app in Hk.
        apply in_app_or in Hk as [Hk | [<- | []]]; [exact (Hg k Hk) | exact K].
Qed.

Lemma forEachFrom_returns {A} (f : A -> nat -> M unit) (l : list A) :
  (forall x i st, exists st', f x i st = Returned tt st') ->
  forall i st, exists st', forEachFrom l i f st = Returned tt st'.
Proof.
  intro Hf. induction l as [| x r IH]; intros i st; simpl.
  - exists st. reflexivity.
  - unfold bind. destruct (Hf x i st) as (st1 & ->). apply IH.
Qed.

Lemma validatePricingConsistency_outcome (st : Store) :
  if existsb namedAfterPrototype (items (billData st))
  then exists e, validatePricingConsistency st = Thrown e st
  else exists st', validatePricingConsistency st = Returned tt st'.
Proof.
  pose proof (groupItems_outcome (items (billData st)) [] st
                ltac:(intros k [])) as H.
  destruct (existsb namedAfterPrototype (items (billData st)));
    unfold validatePricingConsistency; unfold bind at 1, getBill; cbv beta iota;
    unfold bind at 1.
  - rewrite H. eexists. reflexivity.
  - destruct H as (g' & ->). apply forEachFrom_returns.
    intros [key group] i s.
    destruct (1 <? List.length group)%nat; [| exists s; reflexivity].
    unfold when. destruct (1 <? _)%nat; eexists; reflexivity.
Qed.

(** The two steps of the business-logic check before the pricing check
    return and leave the bill in the store. *)
Lemma validateBusinessLogic_steps (st : Store) :
  exists st',
    billData st' = billData st
    /\ validateBusinessLogic st = validatePricingConsistency st'.
Proof.
  unfold validateBusinessLogic, validateItemCombinations.
  unfold bind at 1, getBill. cbv beta iota.
  unfold bind at 1, when at 1.
  destruct (lt (total (billData st)) 1%float);
    unfold pushError, updateValidation, ret; cbv beta iota;
    unfold bind at 1; unfold bind at 1; cbv beta iota;
    unfold when at 1;
    match goal with
    | |- context [if ?c then pushWarning _ else _] => destruct c
    end;
    unfold pushWarning, updateValidation, ret; cbv beta iota;
    (eexists; split; [| reflexivity]); reflexivity.
Qed.

Lemma validateBusinessLogic_outcome (st : Store) :
  if existsb namedAfterPrototype (items (billData st))
  then exists e st', validateBusinessLogic st = Thrown e st'
  else exists st', validateBusinessLogic st = Returned tt st'.
Proof.
  destruct (validateBusinessLogic_steps st) as (s & B & ->).
  pose proof (validatePricingConsistency_outcome s) as H. rewrite B in H.
  destruct (existsb namedAfterPrototype (items (billData st))).
  - destruct H as (e & H). exists e, s. exact H.
  - exact H.
Qed.

(** The five checks before the business-logic check return, and leave the
    bill in the store. *)
Lemma run_until_business env (st0 : Store) :
  exists st5,
    billData st5 = billData st0
    /\ runAlgorithms env st0 = (validateBusinessLogic ;; detectAnomalies env) st5.
Proof.
  assert (frame : forall m s s',
             In m [validateMathematicalAccuracy; validateTaxCalculations;
                   validateTotalAmount; validateDateLogic env; analyzePatterns;
                   validateBusinessLogic; detectAnomalies env] ->
             m s = Returned tt s' -> billData s = billData st0 ->
             billData s' = billData st0).
  { intros m s s' Hm E Hs.
    exact (preserves_returned _ _ _ _ _ (each_check_frame env _ m Hm) E Hs). }
  destruct (validateMathematicalAccuracy_neverThrows st0) as ([] & st1 & H1).
  destruct (validateTaxCalculations_neverThrows st1) as ([] & st2 & H2).
  destruct (validateTotalAmount_neverThrows st2) as ([] & st3 & H3).
  destruct (validateDateLogic_neverThrows env st3) as ([] & st4 & H4).
  destruct (analyzePatterns_neverThrows st4) as ([] & st5 & H5).
  exists st5. split.
  - apply (frame analyzePatterns _ _ ltac:(simpl; tauto) H5).
    apply (frame (validateDateLogic env) _ _ ltac:(simpl; tauto) H4).
    apply (frame validateTotalAmount _ _ ltac:(simpl; tauto) H3).
    apply (frame validateTaxCalculations _ _ ltac:(simpl; tauto) H2).
    apply (frame validateMathematicalAccuracy _ _ ltac:(simpl; tauto) H1).
    reflexivity.
  - unfold runAlgorithms.
    unfold bind at 1. rewrite H1. unfold bind at 1. rewrite H2.
    unfold bind at 1. rewrite H3. unfold bind at 1. rewrite H4.
    unfold bind at 1. rewrite H5. reflexivity.
Qed.

(** A run of the checks throws exactly when an item is named after a
    property of [Object.prototype]. *)
Lemma runChecks_outcome env (b : Receipt) :
  if existsb namedAfterPrototype (items b)
  then exists e st, runChecks env (initialStore b) = Thrown e st
  else exists v st, runChecks env (initialStore b) = Returned v st
                    /\ flagIs dateValidation v.
Proof.
  destruct (run_until_business env (initialStore b)) as (st5 & B5 & R).
  pose proof (validateBusinessLogic_outcome st5) as H. rewrite B5 in H.
  simpl billData in H.
  destruct (existsb namedAfterPrototype (items b)).
  - destruct H as (e & st' & H). exists e, st'.
    unfold runChecks. unfold bind at 1. rewrite R.
    unfold bind at 1. rewrite H. reflexivity.
  - destruct H as (st6 & H).
    destruct (detectAnomalies_neverThrows env st6) as ([] & st7 & H7).
    assert (R7 : runAlgorithms env (initialStore b) = Returned tt st7).
    { rewrite R. unfold bind. rewrite H. exact H7. }
    eexists. eexists. split.
    + unfold runChecks. unfold bind at 1. rewrite R7. reflexivity.
    + apply runAlgorithms_returned in R7
        as (s1 & s2 & s3 & s4 & s5 & s6 & H1 & H2 & H3 & H4 & H5 & H6 & K7).
      assert (keep : forall m s s',
                 In m [validateMathematicalAccuracy; validateTaxCalculations;
                       validateTotalAmount; validateDateLogic env; analyzePatterns;
                       validateBusinessLogic; detectAnomalies env] ->
                 m s = Returned tt s' ->
                 flagIs dateValidation (validation s) ->
                 flagIs dateValidation (validation s')).
      { intros m s s' Hm E Hi.
        exact (preserves_returned _ _ _ _ _
                 (each_check_keeps_flag env dateValidation m
                    ltac:(simpl; tauto) Hm) E Hi). }
      unfold flagIs. simpl.
      apply (keep (detectAnomalies env) _ _ ltac:(simpl; tauto) K7).
      apply (keep validateBusinessLogic _ _ ltac:(simpl; tauto) H6).
      apply (keep analyzePatterns _ _ ltac:(simpl; tauto) H5).
      pose proof (validateDateLogic_sets_flag env s3) as F. rewrite H4 in F.
      exact F.
Qed.

(** X5.  [validateBill] answers with the object of its [catch] block, the
    single [VALIDATION_ERROR] with score 0 and no flags, exactly when the
    name of some item is, in lower case, "constructor" or "__proto__":
    the pricing check reads such a key of its empty object as the
    inherited property and calls [push] on it.  On every other bill the
    seven checks return. *)
Theorem validateBill_fails_exactly_on_prototype_names :
  forall env b,
    result env b = validationError
    <-> exists item,
          In item (items b)
          /\ (toLowerCase (name item) = str "constructor"
              \/ toLowerCase (name item) = str "__proto__").
Proof.
  intros env b. pose proof (runChecks_outcome env b) as H.
  destruct (existsb namedAfterPrototype (items b)) eqn:E.
  - destruct H as (e & st & R). rewrite (result_thrown _ _ _ _ R).
    split; [intros _ | reflexivity].
    apply existsb_exists in E as (item & Hi & Hn).
    exists item. split; [exact Hi |]. apply inheritedKey_lower. exact Hn.
  - destruct H as (v & st & R & F). rewrite (result_returned _ _ _ _ R).
    split.
    + intros ->. discriminate F.
    + intros (item & Hi & Hn). apply inheritedKey_lower in Hn.
      assert (existsb namedAfterPrototype (items b) = true)
        by (apply existsb_exists; exists item; split; assumption).
      congruence.
Qed.

(* ================================================================== *)
(** * The check of first digits *)
(* ================================================================== *)

(** X6.  [checkBenfordsLaw] leaves the store as it found it when the bill
    has at most twenty items, whether it returns or throws: its warning
    asks for more than twenty first digits, and there is at most one per
    item.  Twenty items of 85 rupees raise nothing, twenty-one do. *)
Theorem benford_needs_more_than_twenty_items :
  forall st,
    (List.length (items (billData st)) <= 20)%nat ->
    storeOf (checkBenfordsLaw st) = st.
Proof.
  intros st H. unfold checkBenfordsLaw. unfold bind at 1, getBill. cbv beta iota.
  destruct (_ <? 10)%nat; [reflexivity |].
  unfold bind, reduce1M.
  match goal with
  | |- context [reduce1 ?f ?l] => destruct (reduce1 f l) as [d |]
  end; [| reflexivity].
  unfold ret, when.
  match goal with
  | |- context [(20 <? ?n)%nat] =>
    replace (20 <? n)%nat with false
  end.
  - rewrite andb_false_r. reflexivity.
  - symmetry. apply Nat.ltb_ge.
    etransitivity; [apply filter_length_le |]. rewrite length_map. exact H.
Qed.

Lemma benford_needs_more_than_twenty_items_witness :
  (List.length (items (billData (initialStore twentyRice))) <= 20)%nat
  /\ storeOf (checkBenfordsLaw (initialStore twentyRice)) = initialStore twentyRice
  /\ warnings (validation (storeOf (checkBenfordsLaw (initialStore twentyOneRice))))
     = [issue SUSPICIOUS_PATTERN low None].
Proof.
  assert (L : (List.length (items (billData (initialStore twentyRice))) <= 20)%nat)
    by (vm_compute; repeat constructor).
  split; [exact L |].
  split; [exact (benford_needs_more_than_twenty_items _ L) |].
  vm_compute. reflexivity.
Defined.

(* ================================================================== *)
(** * Duplicate items *)
(* ================================================================== *)

Lemma indexOfFrom_first (p r : list jsstring) (x : jsstring) :
  ~ In x p -> forall n, indexOfFrom (p ++ x :: r) x n = Some (n + List.length p)%nat.
Proof.
  induction p as [| y p IH]; intros Hn n; simpl.
  - rewrite jsstring_eqb_refl. f_equal. lia.
  - destruct (jsstring_eqb y x) eqn:E.
    + apply jsstring_eqb_eq in E. destruct Hn. left. exact E.
    + rewrite IH; [f_equal; lia |]. intro H. apply Hn. right. exact H.
Qed.

Lemma indexOfFrom_earlier (p r : list jsstring) (x : jsstring) :
  In x p ->
  forall n, exists j, indexOfFrom (p ++ r) x n = Some j /\ (j < n + List.length p)%nat.
Proof.
  induction p as [| y p IH]; intros Hi n; simpl; [destruct Hi |].
  destruct (jsstring_eqb y x) eqn:E.
  - exists n. split; [reflexivity | lia].
  - destruct Hi as [-> | Hi]; [rewrite jsstring_eqb_refl in E; discriminate E |].
    destruct (IH Hi (S n)) as (j & -> & Hj). exists j. split; [reflexivity | lia].
Qed.

(** The filter of [detectDuplicateItems] keeps the names that occur at an
    earlier index: it keeps nothing exactly when no name occurs twice. *)
Lemma duplicates_none (l : list jsstring) :
  forall (p r : list jsstring),
    l = p ++ r -> NoDup p ->
    (filterIndexed (fun name index =>
                      match indexOf l name with
                      | Some i => negb (Nat.eqb i index)
                      | None => true
                      end) r (List.length p) = []
     <-> NoDup l).
Proof.
  intros p r. revert p. induction r as [| x r IH]; intros p El Hp; simpl.
  - rewrite app_nil_r in El. subst l. tauto.
  - destruct (in_dec (list_eq_dec N.eq_dec) x p) as [Hi | Hn].
    + destruct (indexOfFrom_earlier p (x :: r) x Hi 0) as (j & Ej & Hj).
      unfold indexOf. rewrite El, Ej.
      replace (Nat.eqb j (List.length p)) with false
        by (symmetry; apply Nat.eqb_neq; lia).
      simpl. split; [discriminate |].
      intro Hd. exfalso. apply NoDup_remove_2 in Hd. apply Hd.
      apply in_or_app. left. exact Hi.
    + unfold indexOf at 1. rewrite El at 1.
      rewrite (indexOfFrom_first p r x Hn 0). simpl.
      rewrite Nat.eqb_refl. simpl.
      replace (S (List.length p)) with (List.length (p ++ [x]))
        by (rewrite length_app; simpl; lia).
      apply IH.
      * rewrite El, <- app_assoc. reflexivity.
      * apply NoDup_app; [exact Hp | repeat constructor; intros [] |].
        intros y Hy [<- | []]. exact (Hn Hy).
Qed.

(** X7.  [detectDuplicateItems] returns, and pushes its one warning
    exactly when two items have the same name once the names are put in
    lower case and trimmed; however many names repeat, the warning is
    pushed once.  It writes nothing else. *)
Theorem duplicate_warning_iff_repeated_name :
  forall st,
    exists st',
      detectDuplicateItems st = Returned tt st'
      /\ billData st' = billData st
      /\ errors (validation st') = errors (validation st)
      /\ (NoDup (comparedNames (billData st)) ->
          warnings (validation st') = warnings (validation st))
      /\ (~ NoDup (comparedNames (billData st)) ->
          warnings (validation st') = warnings (validation st) ++ [duplicateWarning]).
Proof.
  intro st. unfold detectDuplicateItems. unfold bind, getBill. cbv beta iota zeta.
  pose proof (duplicates_none (comparedNames (billData st)) []
                (comparedNames (billData st)) eq_refl (NoDup_nil _)) as H.
  unfold comparedNames in *. simpl List.length in H.
  match goal with
  | |- context [filterIndexed ?f ?l 0%nat] =>
    destruct (filterIndexed f l 0%nat) as [| d ds]
  end; simpl; eexists; (split; [reflexivity |]); simpl;
    repeat split; try reflexivity.
  - intro Hn. destruct Hn. apply H. reflexivity.
  - intro Hd. apply H in Hd. discriminate Hd.
Qed.

(* ================================================================== *)
(** * A date that cannot be read *)
(* ================================================================== *)

(** X8.  When the bill has a date that the engine does not read (an
    Invalid Date), the date check pushes neither an error nor a warning
    and sets its flag, and the check of the hour pushes nothing either:
    every comparison with NaN is false. *)
Theorem unreadable_date_raises_nothing :
  forall env st,
    date (billData st) <> [] ->
    parseDate env (date (billData st)) = None ->
    exists st',
      validateDateLogic env st = Returned tt st'
      /\ billData st' = billData st
      /\ errors (validation st') = errors (validation st)
      /\ warnings (validation st') = warnings (validation st)
      /\ flagIs dateValidation (validation st')
      /\ checkTimingAnomalies env st' = Returned tt st'.
Proof.
  intros env st Hd Hp.
  unfold validateDateLogic, checkTimingAnomalies, flagIs.
  unfold tryCatch, bind, getBill. cbv beta iota zeta.
  destruct (date (billData st)) as [| c r] eqn:E; [contradiction |].
  rewrite Hp. simpl. eexists. split; [reflexivity |]. simpl.
  rewrite E, Hp. simpl. repeat split; reflexivity.
Qed.

Lemma unreadable_date_raises_nothing_witness :
  date (billData (initialStore datedSoon)) <> []
  /\ parseDate exampleEnv (date (billData (initialStore datedSoon))) = None
  /\ (exists st',
        validateDateLogic exampleEnv (initialStore datedSoon) = Returned tt st'
        /\ warnings (validation st') = []
        /\ flagIs dateValidation (validation st'))
  /\ result exampleEnv datedSoon = result exampleEnv scenario1.
Proof.
  assert (D : date (billData (initialStore datedSoon)) <> [])
    by (vm_compute; discriminate).
  assert (P : parseDate exampleEnv (date (billData (initialStore datedSoon))) = None)
    by (vm_compute; reflexivity).
  split; [exact D |]. split; [exact P |]. split.
  - destruct (unreadable_date_raises_nothing exampleEnv _ D P)
      as (st' & E & _ & _ & Hw & Hf & _).
    exists st'. split; [exact E |]. split; [exact Hw | exact Hf].
  - vm_compute. reflexivity.
Defined.

(** Two names that differ in case and in a trailing space are the same
    name for the check. *)
Example riceTwice_is_a_duplicate :
  ~ NoDup (comparedNames riceTwice)
  /\ warnings (validation (storeOf (detectDuplicateItems (initialStore riceTwice))))
     = [duplicateWarning].
Proof.
  split; [| vm_compute; reflexivity].
  intro H. apply NoDup_cons_iff in H as (H & _). apply H. left. vm_compute. reflexivity.
Qed.

(* ================================================================== *)
(** * Tax on a subtotal of zero *)
(* ================================================================== *)

Lemma positive_shape (t : number) :
  gt t 0%float = true ->
  Prim2SF t = S754_infinity false \/ exists m e, Prim2SF t = S754_finite false m e.
Proof.
  unfold gt. rewrite ltb_spec.
  replace (Prim2SF 0%float) with (S754_zero false) by (vm_compute; reflexivity).
  unfold SFltb. destruct (Prim2SF t) as [s | s | | s m e]; simpl; try discriminate;
    destruct s; try discriminate; intros _; [left | right; exists m, e]; reflexivity.
Qed.

Lemma zero_shape (s : number) :
  strictEq s 0%float = true -> exists sg, Prim2SF s = S754_zero sg.
Proof.
  unfold strictEq. rewrite eqb_spec.
  replace (Prim2SF 0%float) with (S754_zero false) by (vm_compute; reflexivity).
  unfold SFeqb. destruct (Prim2SF s) as [sg | sg | | sg m e]; simpl;
    try discriminate; try (destruct sg; discriminate).
  intros _. exists sg. reflexivity.
Qed.

(** Dividing a positive tax by a subtotal of zero gives an infinite rate. *)
Lemma rate_on_zero_subtotal (s t : number) :
  strictEq s 0%float = true -> gt t 0%float = true ->
  exists sg, Prim2SF (t / s * 100)%float = S754_infinity sg.
Proof.
  intros Hs Ht. destruct (zero_shape s Hs) as (sg & Es).
  rewrite mul_spec, div_spec, Es.
  replace (Prim2SF 100%float) with (S754_finite false 7036874417766400 (-46))
    by (vm_compute; reflexivity).
  destruct (positive_shape t Ht) as [-> | (m & e & ->)]; simpl;
    eexists; reflexivity.
Qed.

(** An infinite rate is more than half a point away from every rate of
    the list. *)
Lemma infinite_rate_deviates (a r : number) (sg : bool) :
  Prim2SF a = S754_infinity sg -> In r indianTaxRates ->
  gt (Math_abs (a - r)%float) 0.5%float = true.
Proof.
  intros Ea Hr. unfold gt, Math_abs. rewrite ltb_spec, abs_spec, sub_spec, Ea.
  simpl in Hr.
  repeat (destruct Hr as [<- | Hr]; [destruct sg; vm_compute; reflexivity |]).
  destruct Hr.
Qed.

(** X9.  A bill that prints a positive tax on a subtotal of zero is never
    valid: the actual rate, tax divided by subtotal, is infinite, no rate
    of the list is within half a point of it, and the tax check pushes its
    [TAX_ERROR]. *)
Theorem tax_on_zero_subtotal_is_invalid :
  forall env b,
    strictEq (subtotal b) 0%float = true ->
    gt (tax b) 0%float = true ->
    isValid (result env b) = false
    /\ (In taxMismatch (errors (result env b))
        \/ result env b = validationError).
Proof.
  intros env b Hs Ht.
  assert (Hz : strictEq (tax b) 0%float = false).
  { destruct (positive_shape _ Ht) as [E | (m & e & E)];
      unfold strictEq; rewrite eqb_spec, E; reflexivity. }
  assert (Hi : In taxMismatch (taxErrors b)).
  { unfold taxErrors, rateDeviation, actualTaxRateOf.
    destruct (rate_on_zero_subtotal _ _ Hs Ht) as (sg & Ea).
    rewrite (infinite_rate_deviates _ _ sg Ea
               (proj1 (closestRateTo_nearest _))).
    left. reflexivity. }
  destruct (runChecks env (initialStore b)) as [v st | e st] eqn:R.
  - rewrite (result_returned _ _ _ _ R).
    destruct (run_stores _ _ _ _ R)
      as (st1 & st2 & st3 & st4 & H1 & H2 & _ & _ & B1 & _ & _ & Hk & Hv & _).
    destruct (validateTaxCalculations_spec st1) as (st2' & E & _ & He & _).
    rewrite H2 in E. injection E as <-. rewrite B1, Hz in He.
    assert (In taxMismatch (errors v)).
    { apply Hk. right. left. rewrite He. apply in_or_app. right. exact Hi. }
    split; [| left; assumption].
    rewrite Hv. destruct (errors v); [contradiction | reflexivity].
  - rewrite (result_thrown _ _ _ _ R). split; [reflexivity | right; reflexivity].
Qed.

Lemma tax_on_zero_subtotal_is_invalid_witness :
  strictEq (subtotal taxOnNothing) 0%float = true
  /\ gt (tax taxOnNothing) 0%float = true
  /\ isValid (result exampleEnv taxOnNothing) = false
  /\ In taxMismatch (errors (result exampleEnv taxOnNothing)).
Proof.
  split; [reflexivity |]. split; [reflexivity |].
  destruct (tax_on_zero_subtotal_is_invalid exampleEnv taxOnNothing
              eq_refl eq_refl) as (Hv & Hi).
  split; [exact Hv |].
  destruct Hi as [Hi | Hi]; [exact Hi |].
  vm_compute in Hi. discriminate Hi.
Defined.

(* ================================================================== *)
(** * BillParser: the item section *)
(* ================================================================== *)

Lemma itemSection_step (line : jsstring) (rest : list jsstring) (i : nat)
      (inItemSection : bool) (itemStartIndex : option nat) (itemEndIndex : nat) :
  itemSection (line :: rest) i inItemSection itemStartIndex itemEndIndex
  = let starts := negb inItemSection && opensSection line in
    if (inItemSection || starts) && closesSection line
    then (if starts then Some i else itemStartIndex, i)
    else itemSection rest (S i) (inItemSection || starts)
                     (if starts then Some i else itemStartIndex) itemEndIndex.
Proof.
  unfold closesSection. cbv zeta. rewrite andb_assoc. reflexivity.
Qed.

(** Before a line opens the section the loop keeps its state; a line that
    opens the section and closes it ends the loop with both bounds at its
    index. *)
Lemma itemSection_opens (pre rest : list jsstring) (line : jsstring) :
  forallb (fun l => negb (opensSection l)) pre = true ->
  opensSection line = true -> closesSection line = true ->
  forall i e,
    itemSection (pre ++ line :: rest) i false None e
    = (Some (i + List.length pre)%nat, (i + List.length pre)%nat).
Proof.
  intros Hpre Ho Hc. induction pre as [| l pre IH]; intros i e.
  - simpl app. rewrite itemSection_step. cbv zeta. rewrite Ho, Hc. simpl.
    rewrite Nat.add_0_r. reflexivity.
  - simpl in Hpre. apply andb_true_iff in Hpre as (Hl & Hpre).
    apply negb_true_iff in Hl.
    simpl app. rewrite itemSection_step. cbv zeta. rewrite Hl. simpl.
    rewrite (IH Hpre). f_equal; [f_equal |]; lia.
Qed.

(** X10.  When the first line that opens the item section also closes it,
    [extractItems] returns no item at all, whatever follows: the section
    is the empty range from that line to that line.  A separator line of
    [====] or [----] is in both lists of keywords, so a receipt whose items
    come after such a line, as in the texts of [mockExtractText], has no
    items for the parser. *)
Theorem no_items_when_the_opening_line_closes_the_section :
  forall (pre rest : list jsstring) (line : jsstring),
    forallb (fun l => negb (opensSection l)) pre = true ->
    opensSection line = true ->
    closesSection line = true ->
    extractItems (pre ++ line :: rest) = [].
Proof.
  intros pre rest line Hpre Ho Hc. unfold extractItems.
  rewrite (itemSection_opens pre rest line Hpre Ho Hc). simpl.
  unfold slice. rewrite Nat.sub_diag. reflexivity.
Qed.

Lemma no_items_when_the_opening_line_closes_the_section_witness :
  mockReceiptLines
  = firstn 3 mockReceiptLines ++ separatorLine :: skipn 4 mockReceiptLines
  /\ forallb (fun l => negb (opensSection l)) (firstn 3 mockReceiptLines) = true
  /\ opensSection separatorLine = true
  /\ closesSection separatorLine = true
  /\ extractItems mockReceiptLines = []
  /\ itemsOf exampleEnv mockReceiptText = [].
Proof.
  assert (E : mockReceiptLines
              = firstn 3 mockReceiptLines ++ separatorLine :: skipn 4 mockReceiptLines)
    by (vm_compute; reflexivity).
  assert (H1 : forallb (fun l => negb (opensSection l)) (firstn 3 mockReceiptLines)
               = true)
    by (vm_compute; reflexivity).
  assert (H2 : opensSection separatorLine = true) by (vm_compute; reflexivity).
  assert (H3 : closesSection separatorLine = true) by (vm_compute; reflexivity).
  assert (H4 : extractItems mockReceiptLines = []).
  { rewrite E.
    exact (no_items_when_the_opening_line_closes_the_section _ _ _ H1 H2 H3). }
  split; [exact E |]. split; [exact H1 |]. split; [exact H2 |].
  split; [exact H3 |]. split; [exact H4 |].
  exact H4.
Defined.

(* ================================================================== *)
(** * BillParser: the printed subtotal *)
(* ================================================================== *)

Lemma includes_app_r (a s needle : jsstring) :
  includes s needle = true -> includes (a ++ s) needle = true.
Proof.
  intro H. induction a as [| x a IH]; simpl; [exact H |].
  rewrite IH. apply orb_true_r.
Qed.

Lemma startsWith_app (a b s : jsstring) :
  startsWith (a ++ b) s = true ->
  exists s', s = a ++ s' /\ startsWith b s' = true.
Proof.
  revert s. induction a as [| x a IH]; intros s; simpl.
  - intro H. exists s. split; [reflexivity | exact H].
  - destruct s as [| y s]; [discriminate |].
    rewrite andb_true_iff, char_eqb_eq. intros (-> & H).
    destruct (IH s H) as (s' & -> & Hs). exists s'. split; [reflexivity | exact Hs].
Qed.

Lemma includes_nil (needle : jsstring) :
  includes [] needle = true -> needle = [].
Proof. simpl. rewrite orb_false_r. destruct needle; [reflexivity | discriminate]. Qed.

(** A string that includes a word includes each end of the word. *)
Lemma includes_suffix (a b s : jsstring) :
  includes s (a ++ b) = true -> includes s b = true.
Proof.
  induction s as [| x s IH].
  - intro H. apply includes_nil in H. apply app_eq_nil in H as (_ & ->). reflexivity.
  - intro H. simpl in H. apply orb_true_iff in H as [H | H].
    + change (startsWith (a ++ b) (x :: s) = true) in H.
      apply startsWith_app in H as (s' & E & Hs). rewrite E.
      apply includes_app_r. destruct s'; simpl; rewrite Hs; reflexivity.
    + simpl. rewrite (IH H). apply orb_true_r.
Qed.

Lemma subtotal_keywords_need_amount (lowerLine : jsstring) :
  includes lowerLine (str "amount") = false ->
  someKeyword ["subtotal"; "sub total"; "sub-total"; "amount"]%string lowerLine
  && negb (includes lowerLine (str "tax"))
  && negb (includes lowerLine (str "total")) = false.
Proof.
  intro Ha. destruct (includes lowerLine (str "total")) eqn:T.
  - apply andb_false_r.
  - assert (N : forall a, includes lowerLine (a ++ str "total") = false).
    { intro a. destruct (includes lowerLine (a ++ str "total")) eqn:E;
        [| reflexivity].
      apply includes_suffix in E. congruence. }
    unfold someKeyword. simpl existsb.
    change (str "subtotal") with (str "sub" ++ str "total").
    change (str "sub total") with (str "sub " ++ str "total").
    change (str "sub-total") with (str "sub-" ++ str "total").
    rewrite !N, Ha. reflexivity.
Qed.

Lemma extractTotalsFromLine_subtotal (line : jsstring) (b : Totals) :
  includes (toLowerCase line) (str "amount") = false ->
  t_subtotal (extractTotalsFromLine line b) = t_subtotal b.
Proof.
  intro Ha. unfold extractTotalsFromLine. cbv beta zeta.
  rewrite (subtotal_keywords_need_amount _ Ha).
  repeat match goal with
         | |- context [if ?c then _ else _] => destruct c
         | |- context [match ?x with Some _ => _ | None => _ end] => destruct x
         end; reflexivity.
Qed.

(** The loop of [extractFinancialTotals] leaves the subtotal as it was
    when no line contains "amount". *)
Lemma extractFinancialTotals_subtotal (lines : list jsstring) :
  forall b : Totals,
    (forall line, In line lines ->
                  includes (toLowerCase line) (str "amount") = false) ->
    t_subtotal (extractFinancialTotals lines b) = t_subtotal b.
Proof.
  unfold extractFinancialTotals.
  induction lines as [| line rest IH]; intros b H; simpl; [reflexivity |].
  rewrite IH.
  - apply extractTotalsFromLine_subtotal. apply H. left. reflexivity.
  - intros l Hl. apply H. right. exact Hl.
Qed.

(** X11.  The parser takes the subtotal from lines that contain "amount"
    only: the other three keywords of the subtotal, "subtotal", "sub total"
    and "sub-total", contain "total", and a line that contains "total" is
    excluded.  On a text without such a line nothing is read, and the
    subtotal of the bill is the sum of the prices of its items, rounded to
    two decimals, whatever a line "Subtotal: ..." says. *)
Theorem printed_subtotal_is_read_from_amount_lines_only :
  forall env text b,
    parsesTo env text b ->
    (forall line, In line (preprocessText text) ->
                  includes (toLowerCase line) (str "amount") = false) ->
    t_subtotal (printedTotals text) = 0%float
    /\ subtotal b = roundTo2 (sumPrices (items b)).
Proof.
  intros env text b Hp H.
  assert (P : t_subtotal (printedTotals text) = 0%float).
  { unfold printedTotals. rewrite (extractFinancialTotals_subtotal _ _ H).
    reflexivity. }
  split; [exact P |].
  destruct (parsed_fields env text b Hp) as (Ei & Es & _).
  rewrite Es, Ei. unfold calculateDerivedValues. cbv zeta. simpl t_subtotal.
  rewrite P. change (strictEq 0%float 0%float) with true.
  destruct (extractItems (preprocessText text)); reflexivity.
Qed.

Lemma printed_subtotal_is_read_from_amount_lines_only_witness :
  parsesTo exampleEnv mockReceiptText mockReceiptBill
  /\ (forall line, In line (preprocessText mockReceiptText) ->
                   includes (toLowerCase line) (str "amount") = false)
  /\ In (str "Subtotal: ₹350.00") (preprocessText mockReceiptText)
  /\ t_subtotal (printedTotals mockReceiptText) = 0%float
  /\ subtotal mockReceiptBill = roundTo2 (sumPrices (items mockReceiptBill))
  /\ subtotal mockReceiptBill = 0%float.
Proof.
  assert (P : parsesTo exampleEnv mockReceiptText mockReceiptBill)
    by (unfold parsesTo; vm_compute; reflexivity).
  assert (H : forall line, In line (preprocessText mockReceiptText) ->
                           includes (toLowerCase line) (str "amount") = false).
  { assert (F : forallb (fun line => negb (includes (toLowerCase line) (str "amount")))
                        (preprocessText mockReceiptText) = true)
      by (vm_compute; reflexivity).
    intros line Hl. rewrite forallb_forall in F. apply negb_true_iff, F, Hl. }
  destruct (printed_subtotal_is_read_from_amount_lines_only
              exampleEnv mockReceiptText mockReceiptBill P H) as (H1 & H2).
  split; [exact P |]. split; [exact H |].
  split; [vm_compute; tauto |].
  split; [exact H1 |]. split; [exact H2 |].
  vm_compute. reflexivity.
Defined.

(** The first text of [mockExtractText] gives the parser no item and no
    subtotal, and the validator then finds a tax on a subtotal of zero. *)
Example mock_receipt_is_rejected :
  items mockReceiptBill = []
  /\ tax mockReceiptBill = 17.5%float
  /\ total mockReceiptBill = 367.5%float
  /\ isValid (result exampleEnv mockReceiptBill) = false
  /\ dataIsValid (validateParsedData mockReceiptBill) = false.
Proof. repeat split; vm_compute; reflexivity. Qed.

(* ================================================================== *)
(** * Trimming *)
(* ================================================================== *)

Lemma trimStart_suffix (s : jsstring) : exists w, s = w ++ trimStart s.
Proof.
  induction s as [| c r (w & IH)]; simpl.
  - exists []. reflexivity.
  - destruct (isWhiteSpace c).
    + exists (c :: w). simpl. rewrite <- IH. reflexivity.
    + exists []. reflexivity.
Qed.

Lemma trimStart_head (s : jsstring) (c : char) (r : jsstring) :
  trimStart s = c :: r -> isWhiteSpace c = false.
Proof.
  induction s as [| x s IH]; simpl; [discriminate |].
  destruct (isWhiteSpace x) eqn:E; [exact IH |].
  intro H. injection H as <- _. exact E.
Qed.

Lemma trimStart_fixed (s : jsstring) :
  match s with
  | c :: _ => isWhiteSpace c = false
  | [] => True
  end -> trimStart s = s.
Proof. destruct s as [| c r]; simpl; [reflexivity | intros ->; reflexivity]. Qed.

Lemma trimStart_idempotent (s : jsstring) : trimStart (trimStart s) = trimStart s.
Proof.
  apply trimStart_fixed. destruct (trimStart s) as [| c r] eqn:E; [exact I |].
  exact (trimStart_head _ _ _ E).
Qed.

(** What [trim] returns starts and ends with a code unit that is not white
    space: trimming it again changes nothing. *)
Lemma trim_idempotent (s : jsstring) : trim (trim s) = trim s.
Proof.
  unfold trim, trimEnd.
  set (t := trimStart s). set (u := rev (trimStart (rev t))).
  assert (Hu : trimStart u = u).
  { apply trimStart_fixed. destruct u as [| c r] eqn:E; [exact I |].
    destruct (trimStart_suffix (rev t)) as (w & Hw).
    assert (Ht : t = u ++ rev w).
    { rewrite <- (rev_involutive t), Hw, rev_app_distr. reflexivity. }
    rewrite E in Ht. simpl in Ht. exact (trimStart_head s c _ Ht). }
  rewrite Hu. unfold u. rewrite rev_involutive, trimStart_idempotent. reflexivity.
Qed.

Lemma trim_ends (s : jsstring) :
  match trim s with
  | c :: _ => isWhiteSpace c = false
  | [] => True
  end
  /\ match rev (trim s) with
     | c :: _ => isWhiteSpace c = false
     | [] => True
     end.
Proof.
  split.
  - pose proof (trim_idempotent s) as H. unfold trim at 1 in H.
    destruct (trim s) as [| c r] eqn:E; [exact I |].
    unfold trimEnd in H.
    destruct (trimStart (c :: r)) as [| c' r'] eqn:E'.
    + simpl in H. discriminate H.
    + pose proof (trimStart_head _ _ _ E') as Hc.
      simpl in E'. destruct (isWhiteSpace c) eqn:W; [| reflexivity].
      exfalso.
      destruct (trimStart_suffix (rev (c' :: r'))) as (w & Hw).
      assert (L : (List.length (c :: r) <= List.length r)%nat).
      { rewrite <- H at 1. rewrite length_rev.
        apply (f_equal (@List.length _)) in Hw.
        rewrite length_app, length_rev in Hw.
        destruct (trimStart_suffix r) as (w' & Hw').
        apply (f_equal (@List.length _)) in Hw'. rewrite length_app, E' in Hw'.
        lia. }
      simpl in L. lia.
  - unfold trim, trimEnd. rewrite rev_involutive.
    destruct (trimStart (rev (trimStart s))) as [| c r] eqn:E; [exact I |].
    exact (trimStart_head _ _ _ E).
Qed.

(* ================================================================== *)
(** * BillParser: the names of the items *)
(* ================================================================== *)

Lemma parseItemLine_name (line : jsstring) (item : LineItem) :
  parseItemLine line = Some item ->
  (exists s, name item = trim s) /\ (2 <= List.length (name item))%nat.
Proof.
  unfold parseItemLine.
  destruct (extractPriceFromLine line) as [price |]; [| discriminate].
  destruct (negb (truthy price)); [discriminate |].
  cbv zeta.
  match goal with
  | |- context [(List.length ?d <? 2)%nat] =>
    destruct (List.length d <? 2)%nat eqn:L; [discriminate |];
      intro H; injection H as <-; simpl; split;
      [eexists; reflexivity | apply Nat.ltb_ge in L; exact L]
  end.
Qed.

(** X12.  The name of every item of a parsed bill has at least two code
    units, and neither starts nor ends with white space: trimming it
    changes nothing. *)
Theorem item_names_are_trimmed_and_not_short :
  forall env text b item,
    parsesTo env text b ->
    In item (items b) ->
    (2 <= List.length (name item))%nat
    /\ trim (name item) = name item
    /\ (forall c r, name item = c :: r -> isWhiteSpace c = false)
    /\ (forall c r, rev (name item) = c :: r -> isWhiteSpace c = false).
Proof.
  intros env text b item Hp Hi.
  destruct (parsed_fields env text b Hp) as (E & _). rewrite E in Hi.
  unfold extractItems in Hi.
  destruct (itemSection _ _ _ _ _) as (from & to) in Hi.
  apply filterMap_In in Hi as (line & _ & Hf).
  destruct (parseItemLine_name line item Hf) as ((s & Hs) & Hl).
  split; [exact Hl |]. rewrite Hs.
  split; [apply trim_idempotent |].
  pose proof (trim_ends s) as (H1 & H2).
  split; intros c r Hc; rewrite Hc in *; assumption.
Qed.

Lemma item_names_are_trimmed_and_not_short_witness :
  parsesTo exampleEnv threeItemsText threeItemsBill
  /\ map name (items threeItemsBill)
     = [str "Rice Basmati"; str "Eggs"; str "Bread"]
  /\ forall item, In item (items threeItemsBill) ->
                  (2 <= List.length (name item))%nat
                  /\ trim (name item) = name item.
Proof.
  assert (P : parsesTo exampleEnv threeItemsText threeItemsBill)
    by (unfold parsesTo; vm_compute; reflexivity).
  split; [exact P |]. split; [vm_compute; reflexivity |].
  intros item Hi.
  destruct (item_names_are_trimmed_and_not_short exampleEnv threeItemsText
              threeItemsBill item P Hi) as (H1 & H2 & _).
  split; assumption.
Defined.

(* ================================================================== *)
(** * BillParser: the store's name and address *)
(* ================================================================== *)

(** X13.  The store name that [extractStoreName] returns is empty or one of
    the first three lines, whole, and then longer than three code units;
    the address that [extractStoreAddress] returns is empty or one of the
    lines, whole. *)
Theorem store_name_and_address_are_whole_lines :
  forall lines,
    (extractStoreName lines = []
     \/ (In (extractStoreName lines) (firstn 3 lines)
         /\ (3 < List.length (extractStoreName lines))%nat))
    /\ (extractStoreAddress lines = []
        \/ In (extractStoreAddress lines) lines).
Proof.
  intro lines. split.
  - unfold extractStoreName. cbv zeta.
    match goal with
    | |- context [find ?f ?l] => destruct (find f l) as [line |] eqn:F
    end.
    + right. apply find_some in F as (Hi & Hf). split; [exact Hi |].
      apply andb_true_iff in Hf as (Hf & _).
      apply andb_true_iff in Hf as (Hf & _). apply Nat.ltb_lt in Hf. lia.
    + destruct lines as [| first rest]; [left; reflexivity |].
      destruct (3 <? List.length first)%nat eqn:L; [| left; reflexivity].
      right. split; [left; reflexivity | apply Nat.ltb_lt; exact L].
  - unfold extractStoreAddress. cbv zeta.
    match goal with
    | |- context [find ?f ?l] => destruct (find f l) as [line |] eqn:F
    end.
    + right. apply find_some in F as (Hi & _). exact Hi.
    + match goal with
      | |- context [find ?f ?l] => destruct (find f l) as [line |] eqn:G
      end.
      * right. apply find_some in G as (Hi & _). exact Hi.
      * left. reflexivity.
Qed.

(* ================================================================== *)
(** * BillParser: the language *)
(* ================================================================== *)

(** The search for one code unit of a class finds a match, without
    captures, exactly when the subject has such a code unit. *)
Lemma searchFrom_Chars (f : char -> bool) (n : nat) :
  forall p,
    (List.length (after p) <= n)%nat ->
    if existsb f (after p)
    then exists m, searchFrom (Chars f) n p = Some m /\ captures m = []
    else searchFrom (Chars f) n p = None.
Proof.
  induction n as [| n IH]; intros p Hn.
  - destruct (after p) as [| x rest] eqn:Ea; [| simpl in Hn; lia].
    simpl. unfold matchAt. simpl. rewrite Ea. reflexivity.
  - destruct (after p) as [| x rest] eqn:Ea.
    + simpl. unfold matchAt, advance. simpl. rewrite Ea. reflexivity.
    + simpl existsb. unfold searchFrom; fold searchFrom.
      unfold matchAt. simpl matchRegex. rewrite Ea.
      destruct (f x) eqn:Ef; simpl orb.
      * eexists. split; reflexivity.
      * unfold advance. rewrite Ea.
        specialize (IH {| before := x :: before p; after := rest |}).
        simpl after in IH. apply IH. simpl in Hn. lia.
Qed.

Lemma matchLength_Chars (f : char -> bool) (text : jsstring) :
  matchLength (Chars f) text = if existsb f text then 1%nat else 0%nat.
Proof.
  unfold matchLength, exec.
  pose proof (searchFrom_Chars f (List.length text) (startOf text) (Nat.le_refl _))
    as H.
  simpl after in H. destruct (existsb f text).
  - destruct H as (m & -> & ->). reflexivity.
  - rewrite H. reflexivity.
Qed.

(** X14.  [detectLanguage] counts at most one match for each script, the
    patterns having no [g] flag: the answer is "english" as soon as the
    text has one ASCII letter, however much Devanagari it has, "hindi"
    when it has Devanagari and no ASCII letter, and "unknown" otherwise. *)
Theorem detectLanguage_is_english_with_one_letter :
  forall text,
    detectLanguage text
    = if existsb isLetter text then str "english"
      else if existsb isDevanagari text then str "hindi"
      else str "unknown".
Proof.
  intro text. unfold detectLanguage. cbv zeta. rewrite !matchLength_Chars.
  destruct (existsb isLetter text), (existsb isDevanagari text); reflexivity.
Qed.

(* ================================================================== *)
(** * BillParser: the cashier and the payment method *)
(* ================================================================== *)

Lemma startsWith_longer (needle s t : jsstring) :
  startsWith needle s = true -> startsWith needle (s ++ t) = true.
Proof.
  revert s. induction needle as [| a needle IH]; intros s; simpl; [reflexivity |].
  destruct s as [| b s]; [discriminate |]. simpl.
  rewrite !andb_true_iff. intros (H1 & H2). split; [exact H1 | exact (IH _ H2)].
Qed.

Lemma includes_app_l (s t needle : jsstring) :
  includes s needle = true -> includes (s ++ t) needle = true.
Proof.
  induction s as [| x s IH]; intro H.
  - apply includes_nil in H. subst needle. destruct t; reflexivity.
  - simpl in H. apply orb_true_iff in H as [H | H].
    + change (startsWith needle (x :: s) = true) in H.
      simpl app. simpl. rewrite orb_true_iff. left.
      exact (startsWith_longer needle (x :: s) t H).
    + simpl. rewrite (IH H). apply orb_true_r.
Qed.

Lemma startsWith_prefix (a b s : jsstring) :
  startsWith (a ++ b) s = true -> startsWith a s = true.
Proof.
  revert s. induction a as [| x a IH]; intros s; simpl; [reflexivity |].
  destruct s as [| y s]; [discriminate |].
  rewrite !andb_true_iff. intros (H1 & H2). split; [exact H1 | exact (IH _ H2)].
Qed.

Lemma includes_prefix (a b s : jsstring) :
  includes s (a ++ b) = true -> includes s a = true.
Proof.
  induction s as [| x s IH]; intro H.
  - apply includes_nil in H. apply app_eq_nil in H as (-> & _). reflexivity.
  - simpl in H. apply orb_true_iff in H as [H | H].
    + change (startsWith (a ++ b) (x :: s) = true) in H.
      simpl. rewrite orb_true_iff. left. exact (startsWith_prefix a b _ H).
    + simpl. rewrite (IH H). apply orb_true_r.
Qed.

(** A space separates what [toLowerCase] does before it from what it does
    after it: it is no surrogate, it is not cased and it is not case
    ignorable. *)
Lemma toCodePoints_space (t : jsstring) :
  toCodePoints (32%N :: t) = 32%N :: toCodePoints t.
Proof. destruct t; reflexivity. Qed.

Lemma toCodePoints_app_space (s t : jsstring) :
  toCodePoints (s ++ 32%N :: t) = toCodePoints s ++ 32%N :: toCodePoints t.
Proof.
  enough (H : toCodePoints (s ++ 32%N :: t) = toCodePoints s ++ 32%N :: toCodePoints t
              /\ forall c, toCodePoints ((c :: s) ++ 32%N :: t)
                           = toCodePoints (c :: s) ++ 32%N :: toCodePoints t)
    by exact (proj1 H).
  induction s as [| d r (IH1 & IH2)].
  - split; [apply toCodePoints_space |].
    intro c. change ((c :: []) ++ 32%N :: t) with (c :: 32%N :: t).
    change (toCodePoints (c :: 32%N :: t))
      with (if isHighSurrogate c && isLowSurrogate 32
            then ((c - 55296) * 1024 + (32 - 56320) + 65536)%N :: toCodePoints t
            else c :: toCodePoints (32%N :: t)).
    replace (isLowSurrogate 32) with false by reflexivity.
    rewrite andb_false_r, toCodePoints_space. reflexivity.
  - split; [apply IH2 |].
    intro c. change ((c :: d :: r) ++ 32%N :: t) with (c :: d :: (r ++ 32%N :: t)).
    change (toCodePoints (c :: d :: (r ++ 32%N :: t)))
      with (if isHighSurrogate c && isLowSurrogate d
            then ((c - 55296) * 1024 + (d - 56320) + 65536)%N
                 :: toCodePoints (r ++ 32%N :: t)
            else c :: toCodePoints ((d :: r) ++ 32%N :: t)).
    change (toCodePoints (c :: d :: r))
      with (if isHighSurrogate c && isLowSurrogate d
            then ((c - 55296) * 1024 + (d - 56320) + 65536)%N :: toCodePoints r
            else c :: toCodePoints (d :: r)).
    destruct (isHighSurrogate c && isLowSurrogate d).
    + rewrite IH1. reflexivity.
    + rewrite IH2. reflexivity.
Qed.

Lemma reachesCased_cons (c : N) (l : list N) :
  reachesCased (c :: l) = if isCaseIgnorable c then reachesCased l else isCased c.
Proof. unfold reachesCased. cbn [skipIgnorable]. destruct (isCaseIgnorable c); reflexivity. Qed.

Lemma reachesCased_space (l l' : list N) :
  reachesCased (l ++ 32%N :: l') = reachesCased l.
Proof.
  induction l as [| c r IH]; [reflexivity |].
  cbn [app]. rewrite !reachesCased_cons, IH. reflexivity.
Qed.

Lemma lowerPoints_before (l : list N) :
  forall b1 b2, reachesCased b1 = reachesCased b2 -> lowerPoints b1 l = lowerPoints b2 l.
Proof.
  induction l as [| c r IH]; intros b1 b2 H; [reflexivity |].
  cbn [lowerPoints]. rewrite (IH (c :: b1) (c :: b2)).
  - unfold lowerPoint, isFinalSigma. rewrite H. reflexivity.
  - rewrite !reachesCased_cons, H. reflexivity.
Qed.

Lemma lowerPoints_space (l l' : list N) :
  forall bef,
    lowerPoints bef (l ++ 32%N :: l')
    = lowerPoints bef l ++ 32%N :: lowerPoints [] l'.
Proof.
  induction l as [| c r IH]; intro bef.
  - cbn [app lowerPoints]. rewrite (lowerPoints_before l' (32%N :: bef) []) by reflexivity.
    reflexivity.
  - cbn [app lowerPoints]. rewrite IH, <- app_assoc. f_equal.
    unfold lowerPoint, isFinalSigma. rewrite reachesCased_space. reflexivity.
Qed.

Lemma toLowerCase_space (s t : jsstring) :
  toLowerCase (s ++ 32%N :: t) = toLowerCase s ++ 32%N :: toLowerCase t.
Proof.
  unfold toLowerCase, fromCodePoints.
  rewrite toCodePoints_app_space, lowerPoints_space, flat_map_app. reflexivity.
Qed.

Lemma toLowerCase_join (lines : list jsstring) :
  toLowerCase (join lines (str " ")) = join (map toLowerCase lines) (str " ").
Proof.
  induction lines as [| l rest IH]; [reflexivity |].
  destruct rest as [| l' rest']; [reflexivity |].
  change (join (l :: l' :: rest') (str " "))
    with (l ++ 32%N :: join (l' :: rest') (str " ")).
  rewrite toLowerCase_space, IH. reflexivity.
Qed.

Lemma join_In (lines : list jsstring) (sep line : jsstring) :
  In line lines -> exists pre post, join lines sep = pre ++ line ++ post.
Proof.
  induction lines as [| l rest IH]; intro H; [destruct H |].
  destruct H as [-> | H].
  - destruct rest as [| l' rest'].
    + exists [], []. simpl. rewrite app_nil_r. reflexivity.
    + exists [], (sep ++ join (l' :: rest') sep). reflexivity.
  - destruct rest as [| l' rest']; [destruct H |].
    destruct (IH H) as (pre & post & E).
    exists (l ++ sep ++ pre), post.
    change (join (l :: l' :: rest') sep) with (l ++ sep ++ join (l' :: rest') sep).
    rewrite E, <- !app_assoc. reflexivity.
Qed.

Lemma firstDefined_Some {A} (f : jsstring -> option A) (lines : list jsstring) (a : A) :
  firstDefined f lines = Some a -> exists line, In line lines /\ f line = Some a.
Proof.
  induction lines as [| l rest IH]; simpl; [discriminate |].
  destruct (f l) as [x |] eqn:E.
  - intro H. injection H as ->. exists l. split; [left; reflexivity | exact E].
  - intro H. destruct (IH H) as (line & Hi & Hf).
    exists line. split; [right; exact Hi | exact Hf].
Qed.

(** A line in which "cashier" is written makes the payment method "cash". *)
Lemma cashier_line_pays_cash (lines : list jsstring) (line : jsstring) :
  In line lines ->
  includes (toLowerCase line) (str "cashier") = true ->
  extractPaymentMethod lines = str "cash".
Proof.
  intros Hi Hc. unfold extractPaymentMethod. cbv beta zeta.
  rewrite toLowerCase_join.
  destruct (join_In (map toLowerCase lines) (str " ") (toLowerCase line)
                    (in_map toLowerCase lines line Hi)) as (pre & post & ->).
  replace (includes (pre ++ toLowerCase line ++ post) (str "cash")) with true;
    [reflexivity |].
  symmetry. apply includes_app_r, includes_app_l.
  change (str "cashier") with (str "cash" ++ str "ier") in Hc.
  exact (includes_prefix _ _ _ Hc).
Qed.

(** X15.  Whenever [extractMetadata] finds a cashier it reports the payment
    method "cash": the name is read from a line that contains "cashier",
    the payment method is looked for in all the lines joined, and "cash",
    the first method tried, is the beginning of "cashier".  A receipt that
    says "Cashier: Ravi" and "Paid by card" is paid in cash. *)
Theorem a_named_cashier_makes_the_payment_cash :
  forall lines ocrText,
    cashier (extractMetadata lines ocrText) <> [] ->
    paymentMethod (extractMetadata lines ocrText) = str "cash".
Proof.
  intros lines ocrText. simpl. unfold extractCashier.
  match goal with
  | |- context [firstDefined ?f lines] => destruct (firstDefined f lines) eqn:F
  end; [| intro H; destruct H; reflexivity].
  intros _. apply firstDefined_Some in F as (line & Hi & Hf).
  destruct (includes (toLowerCase line) (str "cashier")) eqn:C; [| discriminate Hf].
  exact (cashier_line_pays_cash lines line Hi C).
Qed.

Lemma a_named_cashier_makes_the_payment_cash_witness :
  cashier (extractMetadata cashierLines []) = str "Ravi"
  /\ cashier (extractMetadata cashierLines []) <> []
  /\ paymentMethod (extractMetadata cashierLines []) = str "cash".
Proof.
  assert (C : cashier (extractMetadata cashierLines []) <> [])
    by (vm_compute; discriminate).
  split; [vm_compute; reflexivity |]. split; [exact C |].
  exact (a_named_cashier_makes_the_payment_cash cashierLines [] C).
Defined.

(* ================================================================== *)
(** * The parser's self-check and the validator *)
(* ================================================================== *)

Lemma pushIf_nil (c : bool) (message : string) (l : list string) :
  pushIf c message l = [] -> c = false /\ l = [].
Proof.
  unfold pushIf. destruct c; [| intro H; split; [reflexivity | exact H]].
  intro H. apply app_eq_nil in H as (_ & H). discriminate H.
Qed.

(** A bill that passes the self-check has items, a positive total and a
    positive subtotal, and deviates in subtotal and total by no more than
    the tolerance. *)
Lemma validateParsedData_valid (b : Receipt) :
  dataIsValid (validateParsedData b) = true ->
  items b <> []
  /\ gt (subtotalDeviation b) 0.01%float = false
  /\ gt (totalDeviation b) 0.01%float = false.
Proof.
  unfold validateParsedData. cbv zeta. simpl dataIsValid. intro H.
  apply Nat.eqb_eq, length_zero_iff_nil in H.
  apply pushIf_nil in H as (_ & H). apply pushIf_nil in H as (_ & H).
  apply pushIf_nil in H as (Ht & H). apply pushIf_nil in H as (Hs & H).
  apply pushIf_nil in H as (_ & H). apply pushIf_nil in H as (_ & H).
  apply pushIf_nil in H as (Hi & _).
  split; [| split; [exact Hs | exact Ht]].
  intro E. rewrite E in Hi. discriminate Hi.
Qed.

(** X16.  The parser's self-check and the validator apply the same two
    tests to the subtotal and to the total.  A bill that
    [validateParsedData] finds valid gets [mathVerification] and
    [totalCheck] set by [validateBill], unless the validator ends in its
    [catch] block. *)
Theorem self_checked_bill_passes_math_and_total :
  forall env b,
    dataIsValid (validateParsedData b) = true ->
    result env b = validationError
    \/ (flagIs mathVerification (result env b)
        /\ flagIs totalCheck (result env b)).
Proof.
  intros env b H. destruct (validateParsedData_valid b H) as (_ & Hs & Ht).
  destruct (runChecks env (initialStore b)) as [v st | e st] eqn:R.
  - right. rewrite (result_returned _ _ _ _ R).
    destruct (run_flags _ _ _ _ R) as (st1 & st2 & st3 & H1 & H2 & H3 & B2 & K).
    split.
    + apply K; [simpl; tauto |]. left.
      destruct (validateMathematicalAccuracy_spec (initialStore b))
        as (s & E & _ & _ & _ & F).
      rewrite H1 in E. injection E as <-.
      simpl billData in F. rewrite Hs in F. exact F.
    + apply K; [simpl; tauto |]. right.
      destruct (validateTotalAmount_spec st2) as (s & E & _ & _ & F & _).
      rewrite H3 in E. injection E as <-.
      rewrite B2, Ht in F. exact F.
  - left. exact (result_thrown _ _ _ _ R).
Qed.

Lemma self_checked_bill_passes_math_and_total_witness :
  dataIsValid (validateParsedData scenario1) = true
  /\ flagIs mathVerification (result exampleEnv scenario1)
  /\ flagIs totalCheck (result exampleEnv scenario1).
Proof.
  split; [vm_compute; reflexivity |].
  destruct (self_checked_bill_passes_math_and_total exampleEnv scenario1)
    as [H | H].
  - vm_compute. reflexivity.
  - vm_compute in H. discriminate H.
  - exact H.
Defined.

(* ================================================================== *)
(** * server.js: validity and score *)
(* ================================================================== *)

(** X17.  In [validateBill] of server.js an error costs 20 points and a
    warning 5, there are at most three errors and two warnings, and so the
    score is at least 30 and the bill is valid exactly when its score is
    at least 90. *)
Theorem server_bill_is_valid_iff_score_at_least_90 :
  forall env b,
    (isValid (Server.validateBill env b) = true
     <-> 90 <= confidenceScore (Server.validateBill env b))
    /\ 30 <= confidenceScore (Server.validateBill env b) <= 100.
Proof.
  intros env b. unfold Server.validateBill. cbv zeta.
  repeat match goal with
         | |- context [if ?c then _ else _] => destruct c
         end;
    cbn; (split; [split; intro H; first [reflexivity | lia | discriminate H] | lia]).
Qed.

(* ================================================================== *)
(** * The two validators *)
(* ================================================================== *)

(** The checks after the math check leave [mathVerification] as it is, and
    the checks other than the total check leave [totalCheck] as it is. *)
Lemma later_checks_keep_mathVerification env (x : option bool) (m : M unit) :
  In m [validateTaxCalculations; validateTotalAmount; validateDateLogic env;
        analyzePatterns; validateBusinessLogic; detectAnomalies env] ->
  preserves (fun st => mathVerification (algorithmResults (validation st)) = x) m.
Proof.
  intro Hm. simpl in Hm.
  repeat (destruct Hm as [<- | Hm];
          [ first [ apply validateTaxCalculations_preserves
                  | apply validateTotalAmount_preserves
                  | apply validateDateLogic_preserves
                  | apply analyzePatterns_preserves
                  | apply validateBusinessLogic_preserves
                  | apply detectAnomalies_preserves ];
            unfold preserves; intros;
            match goal with H : mathVerification _ = _ |- _ => exact H end |]).
  contradiction.
Qed.

Lemma other_checks_keep_totalCheck env (x : option bool) (m : M unit) :
  In m [validateMathematicalAccuracy; validateTaxCalculations; validateDateLogic env;
        analyzePatterns; validateBusinessLogic; detectAnomalies env] ->
  preserves (fun st => totalCheck (algorithmResults (validation st)) = x) m.
Proof.
  intro Hm. simpl in Hm.
  repeat (destruct Hm as [<- | Hm];
          [ first [ apply validateMathematicalAccuracy_preserves
                  | apply validateTaxCalculations_preserves
                  | apply validateDateLogic_preserves
                  | apply analyzePatterns_preserves
                  | apply validateBusinessLogic_preserves
                  | apply detectAnomalies_preserves ];
            unfold preserves; intros;
            match goal with H : totalCheck _ = _ |- _ => exact H end |]).
  contradiction.
Qed.

(** On a run that returns, the two flags are the outcomes of the two
    tolerance tests. *)
Lemma math_and_total_flags env b v st :
  runChecks env (initialStore b) = Returned v st ->
  mathVerification (algorithmResults v)
  = Some (negb (gt (subtotalDeviation b) 0.01%float))
  /\ totalCheck (algorithmResults v)
     = Some (negb (gt (totalDeviation b) 0.01%float)).
Proof.
  intro R.
  destruct (run_stores _ _ _ _ R)
    as (s1 & s2 & s3 & s4 & G1 & G2 & G3 & _ & _ & B2 & _).
  apply runChecks_returned in R as (st7 & R & _ & _ & _ & Hr & _).
  apply runAlgorithms_returned in R
    as (st1 & st2 & st3 & st4 & st5 & st6 & H1 & H2 & H3 & H4 & H5 & H6 & H7).
  rewrite G1 in H1. injection H1 as <-.
  rewrite G2 in H2. injection H2 as <-.
  rewrite G3 in H3. injection H3 as <-.
  rewrite Hr.
  assert (keepM : forall x m s s',
             In m [validateTaxCalculations; validateTotalAmount;
                   validateDateLogic env; analyzePatterns; validateBusinessLogic;
                   detectAnomalies env] ->
             m s = Returned tt s' ->
             mathVerification (algorithmResults (validation s)) = x ->
             mathVerification (algorithmResults (validation s')) = x).
  { intros x m s s' Hm E Hx.
    exact (preserves_returned _ _ _ _ _
             (later_checks_keep_mathVerification env x m Hm) E Hx). }
  assert (keepT : forall x m s s',
             In m [validateMathematicalAccuracy; validateTaxCalculations;
                   validateDateLogic env; analyzePatterns; validateBusinessLogic;
                   detectAnomalies env] ->
             m s = Returned tt s' ->
             totalCheck (algorithmResults (validation s)) = x ->
             totalCheck (algorithmResults (validation s')) = x).
  { intros x m s s' Hm E Hx.
    exact (preserves_returned _ _ _ _ _
             (other_checks_keep_totalCheck env x m Hm) E Hx). }
  split.
  - apply (keepM _ (detectAnomalies env) _ _ ltac:(simpl; tauto) H7).
    apply (keepM _ validateBusinessLogic _ _ ltac:(simpl; tauto) H6).
    apply (keepM _ analyzePatterns _ _ ltac:(simpl; tauto) H5).
    apply (keepM _ (validateDateLogic env) _ _ ltac:(simpl; tauto) H4).
    apply (keepM _ validateTotalAmount _ _ ltac:(simpl; tauto) G3).
    apply (keepM _ validateTaxCalculations _ _ ltac:(simpl; tauto) G2).
    destruct (validateMathematicalAccuracy_spec (initialStore b))
      as (s & E & _ & _ & _ & F).
    rewrite G1 in E. injection E as <-. rewrite F. simpl billData.
    destruct (gt (subtotalDeviation b) 0.01%float); reflexivity.
  - apply (keepT _ (detectAnomalies env) _ _ ltac:(simpl; tauto) H7).
    apply (keepT _ validateBusinessLogic _ _ ltac:(simpl; tauto) H6).
    apply (keepT _ analyzePatterns _ _ ltac:(simpl; tauto) H5).
    apply (keepT _ (validateDateLogic env) _ _ ltac:(simpl; tauto) H4).
    destruct (validateTotalAmount_spec s2) as (s & E & _ & _ & F & _).
    rewrite G3 in E. injection E as <-. rewrite F, B2.
    assert (T2 : totalCheck (algorithmResults (validation s2)) = Some false).
    { apply (keepT _ validateTaxCalculations _ _ ltac:(simpl; tauto) G2).
      apply (keepT _ validateMathematicalAccuracy _ _ ltac:(simpl; tauto) G1).
      reflexivity. }
    rewrite T2. destruct (gt (totalDeviation b) 0.01%float); reflexivity.
Qed.

Lemma server_flags env b :
  mathVerification (algorithmResults (Server.validateBill env b))
  = Some (negb (gt (subtotalDeviation b) 0.01%float))
  /\ totalCheck (algorithmResults (Server.validateBill env b))
     = Some (negb (gt (totalDeviation b) 0.01%float)).
Proof.
  unfold Server.validateBill, subtotalDeviation, totalDeviation. cbv zeta.
  simpl algorithmResults. simpl mathVerification. simpl totalCheck.
  repeat match goal with
         | |- context [if ?c then _ else _] => destruct c
         end; split; reflexivity.
Qed.

(** X18.  The validation service and server.js agree on the subtotal and on
    the total: unless the service ends in its [catch] block, its flags
    [mathVerification] and [totalCheck] are those of [validateBill] of
    server.js, and each is the outcome of the one tolerance test, whatever
    the other checks find. *)
Theorem the_two_validators_agree_on_math_and_total :
  forall env b,
    result env b = validationError
    \/ (mathVerification (algorithmResults (result env b))
        = mathVerification (algorithmResults (Server.validateBill env b))
        /\ totalCheck (algorithmResults (result env b))
           = totalCheck (algorithmResults (Server.validateBill env b))
        /\ mathVerification (algorithmResults (result env b))
           = Some (negb (gt (subtotalDeviation b) 0.01%float))
        /\ totalCheck (algorithmResults (result env b))
           = Some (negb (gt (totalDeviation b) 0.01%float))).
Proof.
  intros env b.
  destruct (runChecks env (initialStore b)) as [v st | e st] eqn:R.
  - right. rewrite (result_returned _ _ _ _ R).
    destruct (math_and_total_flags _ _ _ _ R) as (Hm & Ht).
    destruct (server_flags env b) as (Sm & St).
    rewrite Sm, St. repeat split; assumption.
  - left. exact (result_thrown _ _ _ _ R).
Qed.

(* ================================================================== *)
(** * The identifier of a bill *)
(* ================================================================== *)

(** [n] code units of a class, one after the other *)
Lemma matchRegex_timesChars {R} (f : char -> bool) (n : nat) :
  forall (K : Pos -> list jsstring -> option R) (b a : jsstring) (c : list jsstring),
    matchRegex (times n (Chars f)) K {| before := b; after := a |} c
    = if (n <=? List.length a)%nat && forallb f (firstn n a)
      then K {| before := rev (firstn n a) ++ b; after := skipn n a |} c
      else None.
Proof.
  induction n as [| n IH]; intros K b a c.
  - reflexivity.
  - change (times (S n) (Chars f)) with (Seq (Chars f) (times n (Chars f))).
    destruct a as [| x a]; [reflexivity |].
    simpl matchRegex at 1. simpl after. simpl before.
    destruct (f x) eqn:Ef.
    + rewrite IH. simpl. rewrite Ef. simpl. rewrite <- app_assoc. reflexivity.
    + simpl. rewrite Ef. rewrite andb_false_r. reflexivity.
Qed.

Lemma searchFrom_O (r : Regex) (p : Pos) :
  searchFrom r 0 p = matchAt r p.
Proof. simpl. destruct (matchAt r p); reflexivity. Qed.

Lemma searchFrom_S (r : Regex) (n : nat) (p : Pos) :
  searchFrom r (S n) p
  = match matchAt r p with
    | Some m => Some m
    | None => match advance p with
              | Some p' => searchFrom r n p'
              | None => None
              end
    end.
Proof. reflexivity. Qed.

Lemma billIdPattern_later (n : nat) :
  forall p, before p <> [] -> searchFrom billIdPattern n p = None.
Proof.
  induction n as [| n IH]; intros p Hp.
  - simpl. unfold matchAt. simpl. destruct (before p); [contradiction | reflexivity].
  - unfold searchFrom; fold searchFrom.
    replace (matchAt billIdPattern p) with (@None Match)
      by (unfold matchAt; simpl; destruct (before p); [contradiction | reflexivity]).
    unfold advance. destruct (after p) as [| x r]; [reflexivity |].
    apply IH. simpl. discriminate.
Qed.

Lemma billIdPattern_test (s : jsstring) :
  test billIdPattern s = (Nat.eqb (List.length s) 24) && forallb isHexDigit s.
Proof.
  unfold test, exec.
  assert (E : matchAt billIdPattern (startOf s)
              = if (24 <=? List.length s)%nat && forallb isHexDigit (firstn 24 s)
                then match skipn 24 s with
                     | [] => Some {| matchStart := startOf s;
                                     matchEnd := {| before := rev (firstn 24 s) ++ [];
                                                    after := skipn 24 s |};
                                     captures := [] |}
                     | _ :: _ => None
                     end
                else None).
  { change (matchAt billIdPattern (startOf s))
      with (matchRegex (times 24 (Chars isHexDigit))
              (matchRegex (Seq Eol Eps)
                 (fun q c => Some {| matchStart := startOf s; matchEnd := q;
                                     captures := c |}))
              {| before := []; after := s |} []).
    rewrite matchRegex_timesChars.
    destruct ((24 <=? List.length s)%nat && forallb isHexDigit (firstn 24 s));
      [| reflexivity].
    generalize (skipn 24 s), (firstn 24 s). intros tl hd.
    destruct tl; reflexivity. }
  destruct (Nat.eqb (List.length s) 24) eqn:L.
  - apply Nat.eqb_eq in L.
    assert (F : firstn 24 s = s) by (apply firstn_all2; lia).
    assert (S0 : skipn 24 s = []) by (apply skipn_all2; lia).
    rewrite F, S0 in E.
    replace (24 <=? List.length s)%nat with true in E
      by (symmetry; apply Nat.leb_le; lia).
    simpl andb in *.
    destruct s as [| x r]; [discriminate L |].
    change (List.length (x :: r)) with (S (List.length r)) at 1.
    rewrite searchFrom_S, E.
    destruct (forallb isHexDigit (x :: r)); [reflexivity |].
    unfold advance. simpl after. cbv iota.
    rewrite billIdPattern_later; [reflexivity | simpl; discriminate].
  - simpl andb.
    assert (E' : matchAt billIdPattern (startOf s) = None).
    { rewrite E. destruct (24 <=? List.length s)%nat eqn:G; [| reflexivity].
      destruct (forallb isHexDigit (firstn 24 s)); [| reflexivity].
      simpl andb. cbv iota.
      destruct (skipn 24 s) eqn:K; [| reflexivity].
      exfalso. apply Nat.leb_le in G. apply Nat.eqb_neq in L.
      apply (f_equal (@List.length _)) in K. rewrite length_skipn in K.
      simpl in K. lia. }
    destruct s as [| x r].
    + change (List.length (@nil char)) with 0%nat.
      rewrite searchFrom_O, E'. reflexivity.
    + change (List.length (x :: r)) with (S (List.length r)).
      rewrite searchFrom_S, E'.
      unfold advance. simpl after. cbv iota.
      rewrite billIdPattern_later; [reflexivity | simpl; discriminate].
Qed.

(** X19.  [validateBillId] lets a request pass exactly when the identifier
    is there and consists of 24 hexadecimal digits: nothing before them,
    nothing after them, no other length. *)
Theorem validateBillId_accepts_24_hex_digits :
  forall id,
    validateBillId id = true
    <-> exists s, id = Some s
                  /\ List.length s = 24%nat
                  /\ forallb isHexDigit s = true.
Proof.
  intros [[| x r] |]; simpl.
  - split; [discriminate |]. intros (s & E & L & _).
    injection E as <-. discriminate L.
  - rewrite billIdPattern_test, andb_true_iff, Nat.eqb_eq. split.
    + intros (L & F). exists (x :: r). repeat split; assumption.
    + intros (s & E & L & F). injection E as <-. split; assumption.
  - split; [discriminate |]. intros (s & E & _). discriminate E.
Qed.

(* ================================================================== *)
(** * Combinations of items *)
(* ================================================================== *)

Lemma hasCategory_app (cs : list string) (category c : string) :
  hasCategory (cs ++ [category]) c = hasCategory cs c || String.eqb category c.
Proof.
  unfold hasCategory. rewrite existsb_app. simpl.
  rewrite orb_false_r, (String.eqb_sym c category). reflexivity.
Qed.

Lemma categories_of_item (itemName : jsstring) (c : string)
      (entries : list (string * list string)) :
  forall cs,
    hasCategory
      (fold_left
         (fun categories entry =>
            let '(category, keywords) := entry in
            if someKeyword keywords itemName
            then if negb (hasCategory categories category)
                 then categories ++ [category] else categories
            else categories)
         entries cs) c
    = hasCategory cs c
      || existsb (fun entry => String.eqb (fst entry) c
                               && someKeyword (snd entry) itemName) entries.
Proof.
  induction entries as [| [category keywords] rest IH]; intro cs; simpl.
  - rewrite orb_false_r. reflexivity.
  - rewrite IH. destruct (someKeyword keywords itemName).
    + rewrite andb_true_r.
      destruct (hasCategory cs category) eqn:H; simpl.
      * destruct (String.eqb category c) eqn:E; [| reflexivity].
        apply String.eqb_eq in E. subst c. rewrite H. reflexivity.
      * rewrite hasCategory_app, orb_assoc. reflexivity.
    + rewrite andb_false_r. reflexivity.
Qed.

Lemma categories_of_items (entries : list (string * list string)) (c : string)
      (l : list LineItem) :
  forall cs,
    hasCategory
      (fold_left
         (fun categories item =>
            let itemName := toLowerCase (name item) in
            fold_left
              (fun categories entry =>
                 let '(category, keywords) := entry in
                 if someKeyword keywords itemName
                 then if negb (hasCategory categories category)
                      then categories ++ [category] else categories
                 else categories)
              entries categories)
         l cs) c
    = hasCategory cs c
      || existsb (fun item =>
                    existsb (fun entry =>
                               String.eqb (fst entry) c
                               && someKeyword (snd entry) (toLowerCase (name item)))
                            entries) l.
Proof.
  induction l as [| item r IH]; intro cs; simpl.
  - rewrite orb_false_r. reflexivity.
  - rewrite IH, categories_of_item, orb_assoc. reflexivity.
Qed.

(** [categorizeItems] lists a category exactly when some item mentions it. *)
Lemma categorizeItems_has (l : list LineItem) (c : string) :
  hasCategory (categorizeItems l) c = existsb (mentions c) l.
Proof. exact (categories_of_items categoryKeywords c l []). Qed.

(** X20.  [validateItemCombinations] returns and pushes its warning exactly
    when some item mentions a keyword of the category "baby" and some item
    mentions a keyword of the category "alcohol", in any order and however
    often; a keyword counts wherever it occurs in the name, as "rum" does
    in "Bread Crumbs". *)
Theorem baby_and_alcohol_warning_iff_both_are_mentioned :
  forall st,
    exists st',
      validateItemCombinations st = Returned tt st'
      /\ billData st' = billData st
      /\ errors (validation st') = errors (validation st)
      /\ warnings (validation st')
         = warnings (validation st)
           ++ (if existsb (mentions "baby") (items (billData st))
                  && existsb (mentions "alcohol") (items (billData st))
               then [issue SUSPICIOUS_PATTERN low None] else []).
Proof.
  intro st. unfold validateItemCombinations. unfold bind, getBill. cbv beta iota zeta.
  rewrite !categorizeItems_has.
  destruct (existsb (mentions "baby") (items (billData st))
            && existsb (mentions "alcohol") (items (billData st)));
    simpl; eexists; (split; [reflexivity |]); simpl;
    rewrite ?app_nil_r; repeat split; reflexivity.
Qed.

Example corn_and_crumbs_are_baby_and_alcohol :
  existsb (mentions "baby") (items cornAndCrumbs) = true
  /\ existsb (mentions "alcohol") (items cornAndCrumbs) = true
  /\ In (issue SUSPICIOUS_PATTERN low None) (warnings (result exampleEnv cornAndCrumbs)).
Proof.
  split; [vm_compute; reflexivity |]. split; [vm_compute; reflexivity |].
  vm_compute. tauto.
Qed.

(* ================================================================== *)
(** * The hour of a date without a time *)
(* ================================================================== *)

(** X21.  A date that the engine reads as midnight UTC, as it reads a date
    without a time such as the parser writes, has as its local hour the
    offset of local time.  Where local time is ahead of UTC by less than
    six hours, [checkTimingAnomalies] pushes its warning for every such
    bill. *)
Theorem midnight_utc_is_an_unusual_hour :
  forall env st t,
    date (billData st) <> [] ->
    parseDate env (date (billData st)) = Some t ->
    t mod msPerDay = 0 ->
    0 <= localTZA env t < 6 * msPerHour ->
    exists st',
      checkTimingAnomalies env st = Returned tt st'
      /\ warnings (validation st')
         = warnings (validation st) ++ [issue DATE_ERROR low None].
Proof.
  intros env st t Hd Hp Hm Hz.
  unfold checkTimingAnomalies. unfold bind, getBill. cbv beta iota.
  destruct (date (billData st)) as [| c r] eqn:E; [contradiction |].
  rewrite Hp. simpl option_map. cbv iota.
  assert (Hh : (getHours env t <? 6) = true).
  { apply Z.ltb_lt. unfold getHours.
    apply Z.mod_divide in Hm; [| unfold msPerDay; lia].
    destruct Hm as (k & Hk).
    replace (t + localTZA env t)
      with (localTZA env t + (24 * k) * msPerHour)
      by (rewrite Hk; unfold msPerDay, msPerHour; lia).
    rewrite Z.div_add by (unfold msPerHour; lia).
    replace (localTZA env t / msPerHour + 24 * k)
      with (localTZA env t / msPerHour + k * 24) by lia.
    rewrite Z.mod_add by lia.
    assert (0 <= localTZA env t / msPerHour < 6).
    { unfold msPerHour in *. split.
      - apply Z.div_pos; lia.
      - apply Z.div_lt_upper_bound; lia. }
    rewrite Z.mod_small by lia. lia. }
  rewrite Hh. simpl. eexists. split; reflexivity.
Qed.

Lemma midnight_utc_is_an_unusual_hour_witness :
  date (billData (initialStore scenario1)) <> []
  /\ parseDate indiaEnv (date (billData (initialStore scenario1)))
     = Some (daysFromCivil 2025 6 16 * msPerDay)
  /\ (daysFromCivil 2025 6 16 * msPerDay) mod msPerDay = 0
  /\ 0 <= localTZA indiaEnv (daysFromCivil 2025 6 16 * msPerDay) < 6 * msPerHour
  /\ (exists st',
        checkTimingAnomalies indiaEnv (initialStore scenario1) = Returned tt st'
        /\ warnings (validation st') = [issue DATE_ERROR low None])
  /\ warnings (result indiaEnv scenario1) = [issue DATE_ERROR low None].
Proof.
  assert (D : date (billData (initialStore scenario1)) <> [])
    by (vm_compute; discriminate).
  assert (P : parseDate indiaEnv (date (billData (initialStore scenario1)))
              = Some (daysFromCivil 2025 6 16 * msPerDay))
    by (vm_compute; reflexivity).
  assert (M : (daysFromCivil 2025 6 16 * msPerDay) mod msPerDay = 0)
    by (vm_compute; reflexivity).
  assert (Z : 0 <= localTZA indiaEnv (daysFromCivil 2025 6 16 * msPerDay)
              < 6 * msPerHour)
    by (vm_compute; split; [discriminate | reflexivity]).
  split; [exact D |]. split; [exact P |]. split; [exact M |]. split; [exact Z |].
  split; [| vm_compute; reflexivity].
  exact (midnight_utc_is_an_unusual_hour indiaEnv (initialStore scenario1) _ D P M Z).
Defined.

(* ================================================================== *)
(** * Replacing runs and classes of code units *)
(* ================================================================== *)

Lemma takeWhile_dropWhile (f : char -> bool) (s : jsstring) :
  takeWhile f s ++ dropWhile f s = s.
Proof.
  induction s as [| x r IH]; simpl; [reflexivity |].
  destruct (f x); simpl; [rewrite IH |]; reflexivity.
Qed.

Lemma dropWhile_length (f : char -> bool) (s : jsstring) :
  (List.length (dropWhile f s) <= List.length s)%nat.
Proof.
  induction s as [| x r IH]; simpl; [lia |]. destruct (f x); simpl; lia.
Qed.

(** The greedy star of a class consumes the whole run. *)
Lemma matchRegex_star_run {R} (f : char -> bool) (g : Pos -> list jsstring -> R)
      (p : Pos) (c : list jsstring) :
  matchRegex (Star (Chars f)) (fun q c' => Some (g q c')) p c
  = Some (g {| before := rev (takeWhile f (after p)) ++ before p;
               after := dropWhile f (after p) |} c).
Proof.
  simpl. set (n := List.length (after p)) at 1.
  assert (Hn : (List.length (after p) <= n)%nat) by (subst n; lia).
  clearbody n. revert p Hn.
  induction n as [| n IH]; intros [b a] Hn; simpl in *.
  - destruct a; [reflexivity | simpl in Hn; lia].
  - destruct a as [| x r]; [reflexivity |].
    simpl takeWhile. simpl dropWhile.
    destruct (f x) eqn:Ef; [| reflexivity].
    rewrite IH by (simpl in *; lia). simpl.
    replace (List.length r <? S (List.length r))%nat with true
      by (symmetry; apply Nat.ltb_lt; lia).
    rewrite <- app_assoc. reflexivity.
Qed.

Lemma matchAt_plus (f : char -> bool) (b a : jsstring) :
  matchAt (plus (Chars f)) {| before := b; after := a |}
  = match a with
    | x :: r =>
      if f x
      then Some {| matchStart := {| before := b; after := a |};
                   matchEnd := {| before := rev (takeWhile f r) ++ x :: b;
                                  after := dropWhile f r |};
                   captures := [] |}
      else None
    | [] => None
    end.
Proof.
  destruct a as [| x r]; [reflexivity |].
  change (matchAt (plus (Chars f)) {| before := b; after := x :: r |})
    with (if f x
          then matchRegex (Star (Chars f))
                 (fun q c' => Some {| matchStart := {| before := b; after := x :: r |};
                                      matchEnd := q; captures := c' |})
                 {| before := x :: b; after := r |} []
          else None).
  destruct (f x); [| reflexivity].
  rewrite (matchRegex_star_run f
             (fun q c' => {| matchStart := {| before := b; after := x :: r |};
                             matchEnd := q; captures := c' |})).
  reflexivity.
Qed.

(** The search for a run skips the code units outside the class. *)
Lemma searchFrom_plus (f : char -> bool) (a : jsstring) :
  forall (b : jsstring) (n : nat),
    (List.length a <= n)%nat ->
    searchFrom (plus (Chars f)) n {| before := b; after := a |}
    = match dropWhile (fun x => negb (f x)) a with
      | x :: r =>
        let skipped := takeWhile (fun x => negb (f x)) a in
        Some {| matchStart := {| before := rev skipped ++ b; after := x :: r |};
                matchEnd := {| before := rev (takeWhile f r) ++ x :: rev skipped ++ b;
                               after := dropWhile f r |};
                captures := [] |}
      | [] => None
      end.
Proof.
  induction a as [| x r IH]; intros b n Hn.
  - destruct n; [rewrite searchFrom_O | rewrite searchFrom_S];
      rewrite matchAt_plus; reflexivity.
  - destruct n as [| n]; [simpl in Hn; lia |].
    rewrite searchFrom_S, matchAt_plus. simpl dropWhile. simpl takeWhile.
    destruct (f x) eqn:Ef; simpl negb; cbv iota.
    + reflexivity.
    + unfold advance. simpl after. cbv iota. simpl before.
      rewrite IH by (simpl in Hn; lia).
      destruct (dropWhile (fun x0 => negb (f x0)) r) as [| y r']; [reflexivity |].
      cbv zeta. simpl rev. rewrite <- !app_assoc. reflexivity.
Qed.

Lemma collapse_skipped (f : char -> bool) (by_ : jsstring) (s : jsstring) :
  collapse f by_ false s
  = takeWhile (fun x => negb (f x)) s
    ++ collapse f by_ false (dropWhile (fun x => negb (f x)) s).
Proof.
  induction s as [| x r IH]; simpl; [reflexivity |].
  destruct (f x) eqn:Ef; simpl; [rewrite Ef; reflexivity |].
  rewrite IH. reflexivity.
Qed.

Lemma collapse_run (f : char -> bool) (by_ : jsstring) (s : jsstring) :
  collapse f by_ true s = collapse f by_ false (dropWhile f s).
Proof.
  induction s as [| x r IH]; simpl; [reflexivity |].
  destruct (f x) eqn:Ef; [exact IH |]. simpl. rewrite Ef. reflexivity.
Qed.

Lemma consumed_skipped (b a skipped rest : jsstring) :
  a = skipped ++ rest ->
  consumed {| before := b; after := a |}
           {| before := rev skipped ++ b; after := rest |} = skipped.
Proof.
  intros ->. apply consumed_reaches. split; reflexivity.
Qed.

Lemma spliceAll_plus (f : char -> bool) (by_ : jsstring) (fuel : nat) :
  forall (b a : jsstring),
    (List.length a < fuel)%nat ->
    spliceAll (matchesFrom (plus (Chars f)) fuel {| before := b; after := a |})
              {| before := b; after := a |} by_
    = collapse f by_ false a.
Proof.
  induction fuel as [| fuel IH]; intros b a Hf; [lia |].
  simpl matchesFrom. simpl after. rewrite searchFrom_plus by lia.
  rewrite (collapse_skipped f by_ a).
  pose proof (takeWhile_dropWhile (fun x => negb (f x)) a) as Ha.
  pose proof (dropWhile_length (fun x => negb (f x)) a) as La.
  destruct (dropWhile (fun x => negb (f x)) a) as [| x r] eqn:Ed.
  - simpl. rewrite app_nil_r in *. symmetry. exact Ha.
  - cbv beta iota zeta. cbn [matchEnd matchStart after before List.length].
    pose proof (dropWhile_length f r) as Lr.
    assert (Hlt : (List.length (dropWhile f r) <? S (List.length r))%nat = true)
      by (apply Nat.ltb_lt; lia).
    rewrite Hlt. cbn [spliceAll]. unfold upTo. cbn [matchEnd matchStart].
    rewrite (consumed_skipped b a _ (x :: r) (eq_sym Ha)).
    rewrite IH by (simpl in La; lia).
    f_equal.
    assert (Fx : f x = true).
    { clear - Ed. induction a as [| y a IH]; simpl in Ed; [discriminate |].
      destruct (f y) eqn:Ey; simpl in Ed.
      - injection Ed as -> _. exact Ey.
      - exact (IH Ed). }
    simpl. rewrite Fx. rewrite collapse_run. reflexivity.
Qed.

(** [string.replace(/c+/g, by)] for a class [c] *)
Lemma replaceAll_plus (f : char -> bool) (by_ s : jsstring) :
  replaceAll (plus (Chars f)) by_ s = collapse f by_ false s.
Proof.
  unfold replaceAll, matchAll, startOf. apply spliceAll_plus. lia.
Qed.

Lemma matchAt_Chars (g : char -> bool) (b a : jsstring) :
  matchAt (Chars g) {| before := b; after := a |}
  = match a with
    | x :: r =>
      if g x
      then Some {| matchStart := {| before := b; after := a |};
                   matchEnd := {| before := x :: b; after := r |};
                   captures := [] |}
      else None
    | [] => None
    end.
Proof. destruct a as [| x r]; reflexivity. Qed.

Lemma searchFrom_class (g : char -> bool) (a : jsstring) :
  forall (b : jsstring) (n : nat),
    (List.length a <= n)%nat ->
    searchFrom (Chars g) n {| before := b; after := a |}
    = match dropWhile (fun x => negb (g x)) a with
      | x :: r =>
        let skipped := takeWhile (fun x => negb (g x)) a in
        Some {| matchStart := {| before := rev skipped ++ b; after := x :: r |};
                matchEnd := {| before := x :: rev skipped ++ b; after := r |};
                captures := [] |}
      | [] => None
      end.
Proof.
  induction a as [| x r IH]; intros b n Hn.
  - destruct n; [rewrite searchFrom_O | rewrite searchFrom_S];
      rewrite matchAt_Chars; reflexivity.
  - destruct n as [| n]; [simpl in Hn; lia |].
    rewrite searchFrom_S, matchAt_Chars. simpl dropWhile. simpl takeWhile.
    destruct (g x) eqn:Eg; simpl negb; cbv iota.
    + reflexivity.
    + unfold advance. simpl after. cbv iota. simpl before.
      rewrite IH by (simpl in Hn; lia).
      destruct (dropWhile (fun x0 => negb (g x0)) r) as [| y r']; [reflexivity |].
      cbv zeta. simpl rev. rewrite <- !app_assoc. reflexivity.
Qed.

Lemma filter_skipped (g : char -> bool) (s : jsstring) :
  filter (fun x => negb (g x)) s
  = takeWhile (fun x => negb (g x)) s
    ++ filter (fun x => negb (g x)) (dropWhile (fun x => negb (g x)) s).
Proof.
  induction s as [| x r IH]; simpl; [reflexivity |].
  destruct (g x) eqn:Eg; simpl; [rewrite Eg; reflexivity |].
  rewrite IH. reflexivity.
Qed.

Lemma dropWhile_head (g : char -> bool) (s : jsstring) (x : char) (r : jsstring) :
  dropWhile g s = x :: r -> g x = false.
Proof.
  induction s as [| y s IH]; simpl; [discriminate |].
  destruct (g y) eqn:Ey; [exact IH |]. intro H. injection H as <- _. exact Ey.
Qed.

Lemma spliceAll_class (g : char -> bool) (fuel : nat) :
  forall (b a : jsstring),
    (List.length a < fuel)%nat ->
    spliceAll (matchesFrom (Chars g) fuel {| before := b; after := a |})
              {| before := b; after := a |} []
    = filter (fun x => negb (g x)) a.
Proof.
  induction fuel as [| fuel IH]; intros b a Hf; [lia |].
  simpl matchesFrom. simpl after. rewrite searchFrom_class by lia.
  rewrite (filter_skipped g a).
  pose proof (takeWhile_dropWhile (fun x => negb (g x)) a) as Ha.
  pose proof (dropWhile_length (fun x => negb (g x)) a) as La.
  destruct (dropWhile (fun x => negb (g x)) a) as [| x r] eqn:Ed.
  - simpl. rewrite app_nil_r in *. symmetry. exact Ha.
  - cbv beta iota zeta. cbn [matchEnd matchStart after before List.length].
    assert (Hlt : (List.length r <? S (List.length r))%nat = true)
      by (apply Nat.ltb_lt; lia).
    rewrite Hlt. cbn [spliceAll]. unfold upTo. cbn [matchEnd matchStart].
    rewrite (consumed_skipped b a _ (x :: r) (eq_sym Ha)).
    rewrite IH by (simpl in La; lia).
    f_equal. simpl.
    apply dropWhile_head in Ed. apply negb_false_iff in Ed. rewrite Ed. reflexivity.
Qed.

(** [string.replace(/c/g, '')] for a class [c] *)
Lemma replaceAll_class (g : char -> bool) (s : jsstring) :
  replaceAll (Chars g) [] s = filter (fun x => negb (g x)) s.
Proof.
  unfold replaceAll, matchAll, startOf. apply spliceAll_class. lia.
Qed.

(** ** What a collapsed string is made of *)

Lemma collapse_In (f : char -> bool) (by_ s : jsstring) (c : char) :
  forall inRun,
    In c (collapse f by_ inRun s) -> In c by_ \/ (In c s /\ f c = false).
Proof.
  induction s as [| x r IH]; intros inRun; simpl; [tauto |].
  destruct (f x) eqn:Ef.
  - destruct inRun.
    + intro H. destruct (IH _ H) as [K | (K & L)]; tauto.
    + intro H. apply in_app_or in H as [H | H]; [tauto |].
      destruct (IH _ H) as [K | (K & L)]; tauto.
  - intros [<- | H]; [tauto |].
    destruct (IH _ H) as [K | (K & L)]; tauto.
Qed.

Lemma collapse_spaces (s : jsstring) :
  adjacentSpaces (collapse isWhiteSpace [32%N] false s) = false
  /\ adjacentSpaces (32%N :: collapse isWhiteSpace [32%N] true s) = false.
Proof.
  induction s as [| x r (IH1 & IH2)]; [split; reflexivity |].
  simpl collapse. destruct (isWhiteSpace x) eqn:Ew.
  - split; [exact IH2 | exact IH2].
  - assert (Hx : char_eqb x 32 = false).
    { destruct (char_eqb x 32) eqn:E; [| reflexivity].
      apply char_eqb_eq in E. subst x. discriminate Ew. }
    assert (H1 : adjacentSpaces (x :: collapse isWhiteSpace [32%N] false r) = false).
    { simpl. destruct (collapse isWhiteSpace [32%N] false r); [reflexivity |].
      rewrite Hx. exact IH1. }
    split; [exact H1 |].
    change (adjacentSpaces (32%N :: x :: collapse isWhiteSpace [32%N] false r))
      with ((char_eqb 32 32 && char_eqb x 32)
            || adjacentSpaces (x :: collapse isWhiteSpace [32%N] false r)).
    rewrite Hx, H1. reflexivity.
Qed.

Lemma adjacentSpaces_none (line : jsstring) :
  adjacentSpaces line = false ->
  forall pre post, line <> pre ++ 32%N :: 32%N :: post.
Proof.
  intros H pre. revert line H. induction pre as [| p pre IH]; intros line H post E.
  - subst line. simpl in H. discriminate H.
  - subst line. apply (IH (pre ++ 32%N :: 32%N :: post)) with (post := post);
      [| reflexivity].
    simpl in H. destruct (pre ++ 32%N :: 32%N :: post) eqn:K.
    + destruct pre; discriminate K.
    + apply orb_false_iff in H as (_ & H). exact H.
Qed.

Lemma collapse_singleSpaced (s : jsstring) :
  singleSpaced (collapse isWhiteSpace (str " ") false s).
Proof.
  split.
  - intros c Hc Hw. apply collapse_In in Hc as [[<- | []] | (_ & Hf)];
      [reflexivity | congruence].
  - apply adjacentSpaces_none. exact (proj1 (collapse_spaces s)).
Qed.

(* ================================================================== *)
(** * BillParser: the lines *)
(* ================================================================== *)

(** X22.  Every line that [preprocessText] hands to the extractors is not
    empty, starts with a code unit that is not white space, and has no
    white space but single U+0020: tabs and runs of spaces have become
    one space. *)
Theorem preprocessed_lines_are_single_spaced :
  forall text line,
    In line (preprocessText text) ->
    line <> []
    /\ (forall c r, line = c :: r -> isWhiteSpace c = false)
    /\ singleSpaced line.
Proof.
  intros text line H. unfold preprocessText in H.
  apply in_map_iff in H as (l0 & <- & H).
  apply filter_In in H as (H & Hl).
  apply in_map_iff in H as (s0 & <- & _).
  unfold space. rewrite replaceAll_plus.
  split; [| split; [| apply collapse_singleSpaced]].
  - destruct (trim s0) as [| c r] eqn:E; [discriminate Hl |].
    pose proof (proj1 (trim_ends s0)) as Hc. rewrite E in Hc.
    simpl. rewrite Hc. discriminate.
  - intros c r. destruct (trim s0) as [| c0 r0] eqn:E; [discriminate Hl |].
    pose proof (proj1 (trim_ends s0)) as Hc. rewrite E in Hc.
    simpl. rewrite Hc. intro K. injection K as <- _. exact Hc.
Qed.

Lemma preprocessed_lines_are_single_spaced_witness :
  In (str "Rice Basmati 2 kg ₹85.00") (preprocessText threeItemsText)
  /\ str "Rice Basmati 2 kg ₹85.00" <> []
  /\ singleSpaced (str "Rice Basmati 2 kg ₹85.00").
Proof.
  assert (H : In (str "Rice Basmati 2 kg ₹85.00") (preprocessText threeItemsText))
    by (vm_compute; tauto).
  split; [exact H |].
  destruct (preprocessed_lines_are_single_spaced threeItemsText _ H) as (H1 & _ & H3).
  split; assumption.
Defined.

(* ================================================================== *)
(** * OCRService: one line for the parser *)
(* ================================================================== *)

Lemma trim_In (s : jsstring) (c : char) : In c (trim s) -> In c s.
Proof.
  unfold trim, trimEnd. intro H. apply in_rev in H.
  assert (sub : forall t, In c (trimStart t) -> In c t).
  { intros t Ht. destruct (trimStart_suffix t) as (w & E). rewrite E.
    apply in_or_app. right. exact Ht. }
  apply sub in H. apply in_rev in H. apply sub in H. exact H.
Qed.

Lemma splitOn_without (sep : char) (s : jsstring) :
  (forall c, In c s -> c <> sep) ->
  forall cur, splitOn sep s cur = [rev cur ++ s].
Proof.
  induction s as [| x r IH]; intros H cur; simpl.
  - rewrite app_nil_r. reflexivity.
  - replace (char_eqb x sep) with false.
    + rewrite IH by (intros c Hc; apply H; right; exact Hc).
      simpl. rewrite <- app_assoc. reflexivity.
    + symmetry. destruct (char_eqb x sep) eqn:E; [| reflexivity].
      apply char_eqb_eq in E. destruct (H x (or_introl eq_refl) E).
Qed.

Lemma cleanExtractedText_In (text : jsstring) (c : char) :
  In c (cleanExtractedText text) ->
  isSpecialCharacter c = false /\ (isWhiteSpace c = true -> c = 32%N).
Proof.
  unfold cleanExtractedText, space. intro H. apply trim_In in H.
  rewrite replaceAll_class, replaceAll_plus in H.
  apply filter_In in H as (H & Hs). apply negb_true_iff in Hs.
  split; [exact Hs |].
  exact (proj1 (collapse_singleSpaced text) c H).
Qed.

Lemma filterMap_length {A B} (f : A -> option B) (l : list A) :
  (List.length (filterMap f l) <= List.length l)%nat.
Proof.
  induction l as [| x r IH]; simpl; [lia |]. destruct (f x); simpl; lia.
Qed.

Lemma extractItems_length (lines : list jsstring) :
  (List.length (extractItems lines) <= List.length lines)%nat.
Proof.
  unfold extractItems. destruct (itemSection _ _ _ _ _) as (from & to).
  etransitivity; [apply filterMap_length |].
  unfold slice. rewrite length_firstn, length_skipn. lia.
Qed.

(** X23.  The text that [extractText] hands on, [cleanExtractedText] of what
    was recognised, has no line terminator: every run of white space, line
    breaks included, has become one U+0020, and the code units left are
    word characters, U+0020 and [₹.,:-].  [preprocessText] therefore finds
    at most one line in it, and [parseBillData] at most one item, whatever
    the receipt looked like. *)
Theorem cleaned_text_is_one_line_for_the_parser :
  forall text,
    (List.length (preprocessText (cleanExtractedText text)) <= 1)%nat
    /\ (forall env, (List.length (itemsOf env (cleanExtractedText text)) <= 1)%nat)
    /\ (forall c, In c (cleanExtractedText text) ->
                  isSpecialCharacter c = false
                  /\ isLineTerminator c = false
                  /\ (isWhiteSpace c = true -> c = 32%N)).
Proof.
  intro text.
  assert (N : forall c, In c (cleanExtractedText text) -> c <> 10%N).
  { intros c Hc E. subst c.
    destruct (cleanExtractedText_In text _ Hc) as (_ & H).
    specialize (H eq_refl). discriminate H. }
  assert (L : (List.length (preprocessText (cleanExtractedText text)) <= 1)%nat).
  { unfold preprocessText, split. rewrite (splitOn_without _ _ N). simpl.
    destruct (0 <? List.length (trim (cleanExtractedText text)))%nat; simpl; lia. }
  split; [exact L |]. split.
  - intro env. unfold itemsOf, parseBillData, parseBody. cbv beta iota zeta.
    simpl items. etransitivity; [apply extractItems_length | exact L].
  - intros c Hc. destruct (cleanExtractedText_In text c Hc) as (Hs & Hw).
    split; [exact Hs |]. split; [| exact Hw].
    destruct (isLineTerminator c) eqn:L0; [| reflexivity].
    assert (W : isWhiteSpace c = true).
    { unfold isLineTerminator in L0. unfold isWhiteSpace.
      repeat (apply orb_true_iff in L0 as [L0 | L0]);
        apply char_eqb_eq in L0; subst c; reflexivity. }
    specialize (Hw W). subst c. discriminate L0.
Qed.

(** The first text of [mockExtractText], cleaned: one line, in which the
    parser finds one item, named after the whole receipt. *)
Example cleaned_mock_receipt :
  List.length (preprocessText (cleanExtractedText mockReceiptText)) = 1%nat
  /\ List.length (itemsOf exampleEnv (cleanExtractedText mockReceiptText)) = 1%nat.
Proof. split; vm_compute; reflexivity. Qed.

